(** * GitCentral: status reconciliation, status ledger and command queue

    A shallow embedding of the GitCentral source-control plugin
    (Plugins/GitCentral/Source/GitCentral/Private) and the properties of
    its state reconciler, its persisted status file, its cache publication
    and its command queue. *)

From Stdlib Require Import ZArith String Ascii List Bool Lia.
From stdpp Require Import base option list strings gmap fin_maps.

Local Open Scope string_scope.
Local Open Scope Z_scope.
Local Open Scope list_scope.

(** ** Characters and strings of the engine

    [TCHAR] is a 16-bit code unit.  An [FString] is a sequence of code units;
    the ledger and the reconciler only ever compare strings, ask for their
    length and read one code unit by index, so [FString] is embedded as
    [string] and a code unit read from it as the [TCHAR] of its character.
    The engine compares two [FString]s, as values and as keys of a [TMap],
    without regard to the case of letters; paths, user names and revisions
    are taken here in one spelling each, so that the comparison is equality. *)

Definition TCHAR := Z.

Definition TEXT (c : ascii) : TCHAR := Z.of_N (N_of_ascii c).
Arguments TEXT c%_char.

Definition FString := string.

Definition Len (s : FString) : Z := Z.of_nat (String.length s).

Definition IsEmpty (s : FString) : bool :=
  match s with EmptyString => true | String _ _ => false end.

(** [FString::operator[]] asserts that the index is valid before it reads;
    [None] is the failed assertion (for the empty string no index is valid). *)
Definition FString_at (s : FString) (Index : nat) : option TCHAR :=
  TEXT <$> String.get Index s.

(** ** GitSourceControlState.h: the working-copy states *)

Module EWorkingCopyState.

Inductive Type_ : Set :=
| Unknown
| Unchanged
| Added
| Deleted
| Modified
| CheckedOut
| Conflicted
| ForcedWriteable
| NotControlled
| Ignored
| Outdated
| Missing.

Definition eqb (a b : Type_) : bool :=
  match a, b with
  | Unknown, Unknown | Unchanged, Unchanged | Added, Added
  | Deleted, Deleted | Modified, Modified | CheckedOut, CheckedOut
  | Conflicted, Conflicted | ForcedWriteable, ForcedWriteable
  | NotControlled, NotControlled | Ignored, Ignored
  | Outdated, Outdated | Missing, Missing => true
  | _, _ => false
  end.

(** GitSourceControlState.cpp, [ToChar]. *)
Definition ToChar (State : Type_) : TCHAR :=
  match State with
  | Added => TEXT "A"
  | Deleted => TEXT "D"
  | Modified => TEXT "M"
  | CheckedOut | ForcedWriteable => TEXT "L"
  | Conflicted => TEXT "U"
  | NotControlled => TEXT "?"
  | Ignored => TEXT "!"
  | Outdated | Missing | Unknown | Unchanged => TEXT "0"
  end.

(** GitSourceControlState.cpp, [FromChar]: a [switch] on the code unit. *)
Definition FromChar (State : TCHAR) : Type_ :=
  if Z.eqb State (TEXT "A") then Added
  else if Z.eqb State (TEXT "D") then Deleted
  else if Z.eqb State (TEXT "M") then Modified
  else if Z.eqb State (TEXT "L") then CheckedOut
  else if Z.eqb State (TEXT "U") then Conflicted
  else if Z.eqb State (TEXT "?") then NotControlled
  else if Z.eqb State (TEXT "!") then Ignored
  else Unknown.

End EWorkingCopyState.

(** The revisions of a file's history.

    Modelled from the spec: the revision class is declared in
    GitSourceControlRevision.h, which is not among the sources; a history is
    an ordered sequence of past revisions, each identified by its commit id. *)
Definition FGitSourceControlRevision := FString.
Definition TGitSourceControlHistory := list FGitSourceControlRevision.

(** [FDateTime]: a number of ticks. *)
Definition FDateTime := Z.

(** Lines written through [GITCENTRAL_ERROR], which expands to [UE_LOG] at
    verbosity [Error]: the line is logged and execution continues.  The one
    message the reconciler emits is "Unhandled state combine case %s -> %s",
    recorded here with the two working-copy states it is printed for. *)
Inductive LogLine : Set :=
| UnhandledStateCombine (Current Other : EWorkingCopyState.Type_).

(** ** GitSourceControlState.h: [SavedState], the persisted ledger entry *)

Module SavedState.

Record t : Set := mk {
  State : EWorkingCopyState.Type_;
  CheckedOutRevision : FString
}.

(** The default constructor. *)
Definition default : t := mk EWorkingCopyState.Unknown "0".

Definition IsValid (s : t) : bool :=
  negb (Z.eqb (EWorkingCopyState.ToChar (State s)) (TEXT "0"))
  || negb (String.eqb (CheckedOutRevision s) "0").

End SavedState.

(** ** GitSourceControlState.h: [FGitSourceControlState] *)

Import EWorkingCopyState.

Record FGitSourceControlState : Set := mkState {
  History : TGitSourceControlHistory;
  AbsoluteFilename : FString;
  WorkingCopyState : EWorkingCopyState.Type_;
  RemoteState : EWorkingCopyState.Type_;
  TimeStamp : FDateTime;
  CheckedOutRevision : FString;
  UserLocked : FString;
  LockId : Z;
  bLockedByOther : bool;
  bOutdated : bool;
  bStaged : bool
}.

(** The constructor [FGitSourceControlState(InLocalFilename)]. *)
Definition NewState (InLocalFilename : FString) : FGitSourceControlState :=
  {| History := [];
     AbsoluteFilename := InLocalFilename;
     WorkingCopyState := Unknown;
     RemoteState := Unknown;
     TimeStamp := 0;
     CheckedOutRevision := "0";
     UserLocked := "";
     LockId := -1;
     bLockedByOther := false;
     bOutdated := false;
     bStaged := false |}.

(** Assignments to single members of [*this]. *)
Definition set_History (v : TGitSourceControlHistory) (s : FGitSourceControlState) :=
  mkState v (AbsoluteFilename s) (WorkingCopyState s) (RemoteState s)
    (TimeStamp s) (CheckedOutRevision s) (UserLocked s) (LockId s)
    (bLockedByOther s) (bOutdated s) (bStaged s).

Definition set_WorkingCopyState (v : EWorkingCopyState.Type_) (s : FGitSourceControlState) :=
  mkState (History s) (AbsoluteFilename s) v (RemoteState s)
    (TimeStamp s) (CheckedOutRevision s) (UserLocked s) (LockId s)
    (bLockedByOther s) (bOutdated s) (bStaged s).

Definition set_RemoteState (v : EWorkingCopyState.Type_) (s : FGitSourceControlState) :=
  mkState (History s) (AbsoluteFilename s) (WorkingCopyState s) v
    (TimeStamp s) (CheckedOutRevision s) (UserLocked s) (LockId s)
    (bLockedByOther s) (bOutdated s) (bStaged s).

Definition set_TimeStamp (v : FDateTime) (s : FGitSourceControlState) :=
  mkState (History s) (AbsoluteFilename s) (WorkingCopyState s) (RemoteState s)
    v (CheckedOutRevision s) (UserLocked s) (LockId s)
    (bLockedByOther s) (bOutdated s) (bStaged s).

Definition set_CheckedOutRevision (v : FString) (s : FGitSourceControlState) :=
  mkState (History s) (AbsoluteFilename s) (WorkingCopyState s) (RemoteState s)
    (TimeStamp s) v (UserLocked s) (LockId s)
    (bLockedByOther s) (bOutdated s) (bStaged s).

Definition set_Lock (User : FString) (ByOther : bool) (Id : Z) (s : FGitSourceControlState) :=
  mkState (History s) (AbsoluteFilename s) (WorkingCopyState s) (RemoteState s)
    (TimeStamp s) (CheckedOutRevision s) User Id
    ByOther (bOutdated s) (bStaged s).

Definition set_bOutdated (v : bool) (s : FGitSourceControlState) :=
  mkState (History s) (AbsoluteFilename s) (WorkingCopyState s) (RemoteState s)
    (TimeStamp s) (CheckedOutRevision s) (UserLocked s) (LockId s)
    (bLockedByOther s) v (bStaged s).

Definition GetFilename (s : FGitSourceControlState) : FString := AbsoluteFilename s.

Definition IsLockedByMe (s : FGitSourceControlState) : bool :=
  negb (bLockedByOther s) && negb (IsEmpty (UserLocked s)).

Definition IsModified (s : FGitSourceControlState) : bool :=
  match WorkingCopyState s with
  | Added | Deleted | Modified | Conflicted | NotControlled | ForcedWriteable => true
  | _ => false
  end.

Definition IsCheckedOut (s : FGitSourceControlState) : bool :=
  match WorkingCopyState s with
  | Added | Deleted | Modified | Conflicted | CheckedOut | ForcedWriteable => true
  | _ => IsLockedByMe s
  end.

Definition IsCheckedOutOther (s : FGitSourceControlState) : bool :=
  if negb (bLockedByOther s) then false else negb (IsEmpty (UserLocked s)).

Definition IsCurrent (s : FGitSourceControlState) : bool := negb (bOutdated s).

Definition IsConflicted (s : FGitSourceControlState) : bool :=
  EWorkingCopyState.eqb (WorkingCopyState s) Conflicted.

(** ** GitSourceControlState.cpp: the four folds of the reconciler

    Each fold is a method that updates [*this] from another observation.  A
    fold either finishes with the updated state and the lines it logged, or
    stops in the [check] at its head (an assertion that both states are about
    the same file). *)

Inductive Outcome : Set :=
| Done (This : FGitSourceControlState) (Log : list LogLine)
| CheckFailed.

Definition StateOf (o : Outcome) : option FGitSourceControlState :=
  match o with Done s _ => Some s | CheckFailed => None end.

Definition LogOf (o : Outcome) : list LogLine :=
  match o with Done _ l => l | CheckFailed => [] end.

(** "Take most recent timestamp". *)
Definition TakeMostRecentTimeStamp (This Other : FGitSourceControlState) :=
  if TimeStamp Other >? TimeStamp This then set_TimeStamp (TimeStamp Other) This else This.

Definition Unhandled (This Other : FGitSourceControlState) : LogLine :=
  UnhandledStateCombine (WorkingCopyState This) (WorkingCopyState Other).

Definition CombineWithLocalState (This Other : FGitSourceControlState) : Outcome :=
  if negb (String.eqb (GetFilename Other) (GetFilename This)) then CheckFailed else
  let This := TakeMostRecentTimeStamp This Other in
  let OtherWorkingCopyState := WorkingCopyState Other in
  match OtherWorkingCopyState with
  | Added =>
      match WorkingCopyState This with
      | Deleted => Done (set_WorkingCopyState Modified This) []
      | _ => Done This [Unhandled This Other]
      end
  | Deleted => Done (set_WorkingCopyState Deleted This) []
  | Modified =>
      match WorkingCopyState This with
      | Added => Done (set_WorkingCopyState Added This) []
      | Modified => Done (set_WorkingCopyState Modified This) []
      | _ => Done This [Unhandled This Other]
      end
  | Conflicted => Done (set_WorkingCopyState Conflicted This) []
  | Outdated | Missing =>
      (* the error is logged and control falls through to the default *)
      Done (if EWorkingCopyState.eqb (WorkingCopyState This) Unknown
            then set_WorkingCopyState OtherWorkingCopyState This else This)
           [Unhandled This Other]
  | NotControlled | Ignored | Unknown | Unchanged | CheckedOut | ForcedWriteable =>
      Done (if EWorkingCopyState.eqb (WorkingCopyState This) Unknown
            then set_WorkingCopyState OtherWorkingCopyState This else This)
           []
  end.

Definition CombineWithSavedState (This : FGitSourceControlState)
    (Saved : SavedState.t) (LocalBranchSha : FString) : Outcome :=
  let This := set_CheckedOutRevision (SavedState.CheckedOutRevision Saved) This in
  match SavedState.State Saved with
  | Modified | CheckedOut =>
      match WorkingCopyState This with
      | Unknown | Unchanged => Done (set_WorkingCopyState CheckedOut This) []
      | NotControlled =>
          if negb (String.eqb (CheckedOutRevision This) "0")
          then Done (set_WorkingCopyState Modified This) []
          else Done This []
      | _ => Done This []
      end
  | Conflicted => Done (set_WorkingCopyState Conflicted This) []
  | Unknown | Unchanged =>
      if IsModified This
         && negb (String.eqb (CheckedOutRevision This) "0")
         && negb (String.eqb (CheckedOutRevision This) LocalBranchSha)
      then Done (set_WorkingCopyState Unchanged This) []
      else Done This []
  | Deleted => Done This []
  | Outdated | Missing | Added | NotControlled | Ignored | ForcedWriteable =>
      Done (if EWorkingCopyState.eqb (WorkingCopyState This) Unknown
            then set_WorkingCopyState (SavedState.State Saved) This else This)
           []
  end.

Definition ConflictedOrOutdated (This : FGitSourceControlState) : EWorkingCopyState.Type_ :=
  if IsModified This || IsCheckedOut This then Conflicted else Outdated.

Definition CombineWithRemoteState (This Other : FGitSourceControlState) : Outcome :=
  if negb (String.eqb (GetFilename Other) (GetFilename This)) then CheckFailed else
  let This := TakeMostRecentTimeStamp This Other in
  let This := set_RemoteState (WorkingCopyState Other) This in
  match RemoteState This with
  | Added =>
      match WorkingCopyState This with
      | Deleted =>
          Done (set_bOutdated false (set_WorkingCopyState Deleted This)) []
      | Unknown =>
          Done (set_bOutdated true (set_WorkingCopyState Missing This)) []
      | CheckedOut | Modified | Added | NotControlled =>
          Done (set_bOutdated true (set_WorkingCopyState Conflicted This)) []
      | _ => Done This [Unhandled This Other]
      end
  | Deleted =>
      if EWorkingCopyState.eqb (WorkingCopyState This) Deleted
      then Done (set_WorkingCopyState Unknown This) []
      else Done (set_bOutdated true
                   (set_WorkingCopyState (ConflictedOrOutdated This) This)) []
  | Modified =>
      if EWorkingCopyState.eqb (WorkingCopyState This) Deleted
      then Done This []
      else Done (set_bOutdated true
                   (set_WorkingCopyState (ConflictedOrOutdated This) This)) []
  | Outdated | Missing | Conflicted | NotControlled | CheckedOut =>
      Done This [Unhandled This Other]
  | Ignored | Unknown | Unchanged | ForcedWriteable => Done This []
  end.

Definition CombineWithLockedState (This Other : FGitSourceControlState) : Outcome :=
  if negb (String.eqb (GetFilename Other) (GetFilename This)) then CheckFailed else
  let This := set_Lock (UserLocked Other) (bLockedByOther Other) (LockId Other) This in
  if IsLockedByMe This then
    match WorkingCopyState This with
    | Added | Deleted | Modified | Outdated | NotControlled | Conflicted | CheckedOut =>
        Done This []
    | Ignored | Unknown | Unchanged =>
        Done (set_WorkingCopyState CheckedOut This) []
    | Missing | ForcedWriteable => Done This [Unhandled This Other]
    end
  else if IsModified This || IsCheckedOut This then
    Done (set_WorkingCopyState ForcedWriteable This) []
  else Done This [].

(** [operator==]: history, timestamp and lock id are not compared. *)
Definition State_eq (This Other : FGitSourceControlState) : bool :=
  EWorkingCopyState.eqb (WorkingCopyState This) (WorkingCopyState Other)
  && EWorkingCopyState.eqb (RemoteState This) (RemoteState Other)
  && Bool.eqb (bOutdated This) (bOutdated Other)
  && Bool.eqb (bStaged This) (bStaged Other)
  && String.eqb (CheckedOutRevision This) (CheckedOutRevision Other)
  && String.eqb (AbsoluteFilename This) (AbsoluteFilename Other)
  && String.eqb (UserLocked This) (UserLocked Other)
  && Bool.eqb (bLockedByOther This) (bLockedByOther Other).

(** [operator!=]. *)
Definition State_neq (This Other : FGitSourceControlState) : bool :=
  negb (State_eq This Other).

(** ** The engine's JSON documents (Dom/JsonObject.h)

    An [FJsonObject] maps field names to values.  The ledger only stores
    strings and nested objects; [FJsonValueNull] stands for the values that
    are neither. *)

#[warnings="-register-all"] Inductive FJsonValue : Set :=
| FJsonValueString (Value : FString)
| FJsonValueObject (Values : gmap string FJsonValue)
| FJsonValueNull.

Definition FJsonObject := gmap string FJsonValue.

(** [TryGetStringField]: the success flag and the new contents of the
    out-parameter, which is left alone when the field is not a string. *)
Definition TryGetStringField (Json : gmap string FJsonValue) (FieldName : string)
    (OutString : FString) : bool * FString :=
  match Json !! FieldName with
  | Some (FJsonValueString Value) => (true, Value)
  | _ => (false, OutString)
  end.

(** What a call that may run into a failed engine assertion gives back. *)
Inductive Checked (A : Type) : Type :=
| Returned (a : A)
| AssertionFailed.
Arguments Returned {A} a.
Arguments AssertionFailed {A}.

(** ** GitSourceControlState.cpp: [SavedState] serialization *)

Module SavedStateJson.

(** [SavedState::FromJson]: the returned flag and the updated [*this]. *)
Definition FromJson (This : SavedState.t) (Json : option (gmap string FJsonValue))
    : Checked (bool * SavedState.t) :=
  match Json with
  | None => Returned (false, This)
  | Some Json =>
      let StateString : FString := "" in
      let '(bState, StateString) := TryGetStringField Json "state" StateString in
      if negb bState && Z.eqb (Len StateString) 1 then Returned (false, This) else
      match FString_at StateString 0 with
      | None => AssertionFailed
      | Some c =>
          let This := SavedState.mk (EWorkingCopyState.FromChar c)
                        (SavedState.CheckedOutRevision This) in
          let '(bRevision, Revision) :=
            TryGetStringField Json "revision" (SavedState.CheckedOutRevision This) in
          let This := SavedState.mk (SavedState.State This) Revision in
          if negb bRevision then Returned (false, This) else Returned (true, This)
      end
  end.

(** [FString::Printf(TEXT("%c"), c)] for the codes [ToChar] produces. *)
Definition Printf_c (c : TCHAR) : FString :=
  String (ascii_of_N (Z.to_N c)) EmptyString.

Definition ToJSon (This : SavedState.t) : gmap string FJsonValue :=
  <["revision" := FJsonValueString (SavedState.CheckedOutRevision This)]>
    (<["state" := FJsonValueString
                    (Printf_c (EWorkingCopyState.ToChar (SavedState.State This)))]> ∅).

End SavedStateJson.

(** ** GitSourceControlStatusFile.cpp: the status ledger *)

Module FGitSourceControlStatusFile.

Record t : Type := mk {
  bDirty : bool;
  SavedStates : gmap string SavedState.t;
  CachedStates : gmap string SavedState.t;
  LoadedData : option (gmap string FJsonValue)
}.

(** What the ledger needs from its surroundings when it saves: the
    provider's remote and branch, the engine's path arithmetic, whether the
    JSON writer accepts a document and whether the file at a path can be
    written. *)
Record Env : Type := mkEnv {
  GetRemote : FString;
  GetBranch : FString;
  MakePathRelativeTo : FString -> FString -> FString;
  Combine : FString -> FString -> FString;
  CanSerialize : gmap string FJsonValue -> bool;
  CanWrite : FString -> bool
}.

(** The files on disk, by path, with the JSON document each one holds. *)
Definition Disk := gmap string (gmap string FJsonValue).

Definition GitStatusFileName : FString := ".git/gitcentral/status".

Definition EndsWithSlash (s : FString) : bool :=
  match String.get (String.length s - 1) s with
  | Some c => Ascii.eqb c "/"%char
  | None => false
  end.

(** The constructor. *)
Definition new : t := mk false ∅ ∅ None.

Definition set_bDirty (v : bool) (f : t) : t :=
  mk v (SavedStates f) (CachedStates f) (LoadedData f).
Definition set_SavedStates (v : gmap string SavedState.t) (f : t) : t :=
  mk (bDirty f) v (CachedStates f) (LoadedData f).
Definition set_CachedStates (v : gmap string SavedState.t) (f : t) : t :=
  mk (bDirty f) (SavedStates f) v (LoadedData f).
Definition set_LoadedData (v : option (gmap string FJsonValue)) (f : t) : t :=
  mk (bDirty f) (SavedStates f) (CachedStates f) v.

Definition CacheStates (f : t) : t := set_CachedStates (SavedStates f) f.
Definition ClearCache (f : t) : t := set_CachedStates ∅ f.
Definition ClearSavedStates (f : t) : t := set_SavedStates ∅ f.
Definition RestoreCachedStates (f : t) : t := set_SavedStates (CachedStates f) f.

Definition GetState (f : t) (InFilePath : FString) : SavedState.t :=
  match SavedStates f !! InFilePath with
  | Some State => State
  | None => SavedState.default
  end.

(** The loop of [Save] that fills [JsonStatesMap]. *)
Definition JsonStatesOf (E : Env) (FixedPathToRepoRoot : FString)
    (States : gmap string SavedState.t) : gmap string FJsonValue :=
  foldr (fun (It : string * SavedState.t) (JsonStatesMap : gmap string FJsonValue) =>
           if negb (SavedState.IsValid It.2) then JsonStatesMap
           else <[MakePathRelativeTo E It.1 FixedPathToRepoRoot
                  := FJsonValueObject (SavedStateJson.ToJSon It.2)]> JsonStatesMap)
        ∅ (reverse (map_to_list States)).

(** [Save]: the returned flag, the ledger and the disk afterwards.
    [LoadedData.ToSharedRef()] asserts that the pointer is set. *)
Definition Save (E : Env) (PathToRepositoryRoot : FString) (bForce : bool)
    (f : t) (d : Disk) : Checked (bool * t * Disk) :=
  if negb (bDirty f) && negb bForce then Returned (true, f, d) else
  let Key := String.append (GetRemote E) (String.append "/" (GetBranch E)) in
  let f :=
    if (0 <? Z.of_nat (size (SavedStates f)))%Z then
      let FixedPathToRepoRoot :=
        if negb (EndsWithSlash PathToRepositoryRoot)
        then String.append PathToRepositoryRoot "/" else PathToRepositoryRoot in
      let JsonStatesMap := JsonStatesOf E FixedPathToRepoRoot (SavedStates f) in
      let Loaded := match LoadedData f with Some o => o | None => ∅ end in
      if (0 <? Z.of_nat (size JsonStatesMap))%Z
      then set_LoadedData (Some (<[Key := FJsonValueObject JsonStatesMap]> Loaded)) f
      else set_LoadedData (Some (delete Key Loaded)) f
    else
      match LoadedData f with
      | Some Loaded => set_LoadedData (Some (delete Key Loaded)) f
      | None => f
      end in
  let StatusFilePath := Combine E PathToRepositoryRoot GitStatusFileName in
  match LoadedData f with
  | None => AssertionFailed
  | Some Loaded =>
      if negb (CanSerialize E Loaded) then Returned (false, f, d) else
      if negb (CanWrite E StatusFilePath) then Returned (false, f, d) else
      Returned (true, ClearCache (set_bDirty false f), <[StatusFilePath := Loaded]> d)
  end.

(** The condition [!bSave || Save(PathToRepositoryRoot)], evaluated left to
    right: [Save] runs only when [bSave] is set. *)
Definition SaveIfAsked (E : Env) (PathToRepositoryRoot : FString) (bSave : bool)
    (f : t) (d : Disk) : Checked (bool * t * Disk) :=
  if negb bSave then Returned (true, f, d)
  else Save E PathToRepositoryRoot false f d.

Definition SetState (E : Env) (InFilePath : FString) (InState : SavedState.t)
    (PathToRepositoryRoot : FString) (bSave : bool) (f : t) (d : Disk)
    : Checked (bool * t * Disk) :=
  let bWasDirty := bDirty f in
  let f := set_bDirty true f in
  match SavedStates f !! InFilePath with
  | Some State =>
      let OldState := InState in
      let f := set_SavedStates (<[InFilePath := InState]> (SavedStates f)) f in
      match SaveIfAsked E PathToRepositoryRoot bSave f d with
      | AssertionFailed => AssertionFailed
      | Returned (true, f, d) => Returned (true, f, d)
      | Returned (false, f, d) =>
          let f := set_SavedStates (<[InFilePath := OldState]> (SavedStates f)) f in
          Returned (false, set_bDirty bWasDirty f, d)
      end
  | None =>
      let f := set_SavedStates (<[InFilePath := InState]> (SavedStates f)) f in
      match SaveIfAsked E PathToRepositoryRoot bSave f d with
      | AssertionFailed => AssertionFailed
      | Returned (true, f, d) => Returned (true, f, d)
      | Returned (false, f, d) =>
          let f := set_SavedStates (delete InFilePath (SavedStates f)) f in
          Returned (false, set_bDirty bWasDirty f, d)
      end
  end.

Definition ClearState (E : Env) (InFilePath : FString)
    (PathToRepositoryRoot : FString) (bSave : bool) (f : t) (d : Disk)
    : Checked (bool * t * Disk) :=
  let bWasDirty := bDirty f in
  let f := set_bDirty true f in
  let bFound := bool_decide (is_Some (SavedStates f !! InFilePath)) in
  let f := set_SavedStates (delete InFilePath (SavedStates f)) f in
  if bFound then
    match SaveIfAsked E PathToRepositoryRoot bSave f d with
    | AssertionFailed => AssertionFailed
    | Returned (true, f, d) => Returned (true, f, d)
    | Returned (false, f, d) => Returned (false, set_bDirty bWasDirty f, d)
    end
  else Returned (false, set_bDirty bWasDirty f, d).

End FGitSourceControlStatusFile.

(** ** GitSourceControlProvider.cpp: the state cache *)

(** [GetStateInternal]: the cached state of a file; a miss caches an unknown
    state for the file.  The result is a shared reference to the cached
    object, so the cache is returned along with the state read from it. *)
Definition GetStateInternal (Filename : FString)
    (StateCache : gmap string FGitSourceControlState)
    : FGitSourceControlState * gmap string FGitSourceControlState :=
  match StateCache !! Filename with
  | Some State => (State, StateCache)
  | None =>
      let NewState := NewState Filename in
      (NewState, <[Filename := NewState]> StateCache)
  end.

(** ** GitSourceControlUtils.cpp: [UpdateCachedStates]

    [Now n] is what [FDateTime::Now()] reads when [n] states have been
    updated so far; the clock is read once for each update. *)

Definition UpdateCachedState (Now : nat -> FDateTime)
    (InState : FGitSourceControlState)
    (acc : gmap string FGitSourceControlState * nat)
    : gmap string FGitSourceControlState * nat :=
  let '(StateCache, NbStatesUpdated) := acc in
  let '(State, StateCache) := GetStateInternal (AbsoluteFilename InState) StateCache in
  if State_neq State InState then
    let History := History State in
    let State := InState in
    let State := set_TimeStamp (Now NbStatesUpdated) State in
    let State := set_History History State in
    (<[AbsoluteFilename InState := State]> StateCache, S NbStatesUpdated)
  else (StateCache, NbStatesUpdated).

Fixpoint UpdateCachedStates_loop (Now : nat -> FDateTime)
    (InStates : list FGitSourceControlState)
    (acc : gmap string FGitSourceControlState * nat)
    : gmap string FGitSourceControlState * nat :=
  match InStates with
  | [] => acc
  | InState :: InStates =>
      UpdateCachedStates_loop Now InStates (UpdateCachedState Now InState acc)
  end.

Definition UpdateCachedStates (Now : nat -> FDateTime)
    (InStates : list FGitSourceControlState)
    (StateCache : gmap string FGitSourceControlState)
    : bool * gmap string FGitSourceControlState :=
  let '(StateCache, NbStatesUpdated) :=
    UpdateCachedStates_loop Now InStates (StateCache, 0%nat) in
  (Nat.ltb 0 NbStatesUpdated, StateCache).

(** ** GitSourceControlProvider.cpp: the command queue *)

(** The members of the provider that the workers' [UpdateStates] touch. *)
Record FGitSourceControlProviderData : Set := mkProviderData {
  StateCache : gmap string FGitSourceControlState;
  LastSyncOperationUpdatedFiles : list FString;
  bForceBroadcastUpdateNextTick : bool
}.

(** [FGitSourceControlProvider::ClearCache]. *)
Definition ClearCache (p : FGitSourceControlProviderData) : FGitSourceControlProviderData :=
  mkProviderData ∅ (LastSyncOperationUpdatedFiles p) true.

(** IGitSourceControlWorker.h: the interface of the workers, with the two
    members [Tick] calls once [Execute] has run. *)
Record IGitSourceControlWorker : Type := mkWorker {
  GetName : FString;
  UpdateStates : FGitSourceControlProviderData -> bool * FGitSourceControlProviderData;
  IsConnected : bool
}.

(** The workers whose [UpdateStates] is [UpdateCachedStates(States)]:
    check-out, check-in, mark-for-add, delete, revert, resolve, force-unlock. *)
Definition CachedStatesWorker (Name : FString) (Now : nat -> FDateTime)
    (States : list FGitSourceControlState) : IGitSourceControlWorker :=
  {| GetName := Name;
     UpdateStates := fun p =>
       let '(bUpdated, Cache) := UpdateCachedStates Now States (StateCache p) in
       (bUpdated, mkProviderData Cache (LastSyncOperationUpdatedFiles p)
                    (bForceBroadcastUpdateNextTick p));
     IsConnected := false |}.

(** [FGitSyncWorker]. *)
Definition FGitSyncWorker (Now : nat -> FDateTime) (UpdatedFiles : list FString)
    (States : list FGitSourceControlState) : IGitSourceControlWorker :=
  {| GetName := "Sync";
     UpdateStates := fun p =>
       let p := mkProviderData (StateCache p) UpdatedFiles
                  (bForceBroadcastUpdateNextTick p) in
       let '(bUpdated, Cache) := UpdateCachedStates Now States (StateCache p) in
       (bUpdated, mkProviderData Cache (LastSyncOperationUpdatedFiles p)
                    (bForceBroadcastUpdateNextTick p));
     IsConnected := false |}.

(** [FGitConnectWorker]: the cache is cleared and the ledger loaded again;
    [bLoaded] is what [Load] returns. *)
Definition FGitConnectWorker (bConnected bLoaded : bool) : IGitSourceControlWorker :=
  {| GetName := "Connect";
     UpdateStates := fun p => (bLoaded, ClearCache p);
     IsConnected := bConnected |}.

(** [FGitCopyWorker]. *)
Definition FGitCopyWorker : IGitSourceControlWorker :=
  {| GetName := "Copy";
     UpdateStates := fun p => (false, p);
     IsConnected := false |}.

Module ECommandResult.
Inductive Type_ : Set := Failed | Succeeded | Cancelled.
End ECommandResult.

(** [FGitSourceControlCommand].  A command is created by [Execute], queued
    by pointer ([Address] stands for the pointer) and run by a worker
    thread, which writes [bCommandSuccessful] and the messages and then sets
    [bExecuteProcessed]; a queue holds the commands as [Tick] finds them.
    The completion delegate is code of the caller of [Execute]; what it does
    to the provider it does through [Execute].  It is given by the commands
    that its calls of [Execute] create, in the order of the calls: each with
    [bAutoDelete] as [Execute] sets it ([false] for
    [EConcurrency::Synchronous], the default, and [true] for
    [EConcurrency::Asynchronous]) and with the members the worker thread
    writes as the thread leaves them.  A call that creates no command (the
    provider is disabled, or the operation has no worker) is not listed. *)
#[warnings="-register-all"] Inductive FGitSourceControlCommand : Type := mkCommand {
  Address : nat;
  Operation : FString;
  Worker : IGitSourceControlWorker;
  OperationCompleteDelegate :
    option (FString -> ECommandResult.Type_ -> list FGitSourceControlCommand);
  bExecuteProcessed : bool;
  bCommandSuccessful : bool;
  bAutoDelete : bool;
  ErrorMessages : list FString;
  InfoMessages : list FString
}.

Definition set_bExecuteProcessed (v : bool) (c : FGitSourceControlCommand)
    : FGitSourceControlCommand :=
  mkCommand (Address c) (Operation c) (Worker c) (OperationCompleteDelegate c) v
    (bCommandSuccessful c) (bAutoDelete c) (ErrorMessages c) (InfoMessages c).

Record FGitSourceControlProvider : Type := mkProvider {
  Data : FGitSourceControlProviderData;
  bConnected : bool;
  CommandQueue : list FGitSourceControlCommand
}.

Definition set_CommandQueue (q : list FGitSourceControlCommand)
    (p : FGitSourceControlProvider) : FGitSourceControlProvider :=
  mkProvider (Data p) (bConnected p) q.

(** What one [Tick] does that can be observed from outside the provider,
    the calls of [Tick] made while its completion delegate runs included. *)
Inductive TickEvent : Type :=
| RemovedFromQueue (CommandIndex : nat) (Operation : FString)
| AppliedResults (Operation : FString) (bUpdated : bool)
| OutputCommandMessages (Errors Infos : list FString)
| CompletionDelegate (Operation : FString) (Result : ECommandResult.Type_)
| CommandDeleted (Operation : FString)
| StateChangedBroadcast.

(** [TArray::RemoveAt]. *)
Definition RemoveAt {A} (Index : nat) (l : list A) : list A :=
  take Index l ++ drop (S Index) l.

(** [TArray::Remove] of a pointer to a command. *)
Definition Remove (InAddress : nat) (q : list FGitSourceControlCommand)
    : list FGitSourceControlCommand :=
  List.filter (fun c => negb (Nat.eqb (Address c) InAddress)) q.

(** [FGitSourceControlCommand::DoWork], seen from the queue: the worker
    thread sets [bExecuteProcessed] of the command it was given. *)
Definition DoWork (InAddress : nat) (q : list FGitSourceControlCommand)
    : list FGitSourceControlCommand :=
  map (fun c => if Nat.eqb (Address c) InAddress
                then set_bExecuteProcessed true c else c) q.

(** The calls of [Execute] that the completion delegate of a command makes
    when it is run with [Result]. *)
Definition ExecuteCalls (c : FGitSourceControlCommand)
    (Result : ECommandResult.Type_) : list FGitSourceControlCommand :=
  match OperationCompleteDelegate c with
  | Some Delegate => Delegate (Operation c) Result
  | None => []
  end.

(** [IssueCommand], the thread pool being there ([GThreadPool] is set when
    the engine starts). *)
Definition IssueCommand (InCommand : FGitSourceControlCommand)
    (p : FGitSourceControlProvider) : FGitSourceControlProvider :=
  set_CommandQueue (CommandQueue p ++ [InCommand]) p.

(** A run that calls [Tick] from inside [Tick]: [None] when the calls are
    nested deeper than the fuel given (in this embedding only). *)
Definition Ran : Type := option (FGitSourceControlProvider * list TickEvent).

Definition andThen (r : Ran)
    (f : FGitSourceControlProvider -> Ran) : Ran :=
  match r with
  | None => None
  | Some (p, Events) =>
      match f p with
      | None => None
      | Some (p, Events') => Some (p, Events ++ Events')
      end
  end.

Section Reentrant.
(** [Polls c] is the number of times the loop of [ExecuteSynchronousCommand]
    finds [bExecuteProcessed] of [c] unset, the worker thread being at work
    on it; no other worker thread finishes a command meanwhile.  [Reentered]
    is [Tick] as [ExecuteSynchronousCommand] calls it. *)
Variable Polls : FGitSourceControlCommand -> nat.
Variable Reentered : FGitSourceControlProvider -> Ran.

(** The loop of [ExecuteSynchronousCommand], run [n] times. *)
Fixpoint Wait (n : nat) (p : FGitSourceControlProvider) : Ran :=
  match n with
  | O => Some (p, [])
  | S n => andThen (Reentered p) (Wait n)
  end.

(** [ExecuteSynchronousCommand]: the command is issued, [Tick] is called
    until the worker thread is done with it and once more, and the command
    is taken off the queue if it is still there, and deleted. *)
Definition ExecuteSynchronousCommand (InCommand : FGitSourceControlCommand)
    (p : FGitSourceControlProvider) : Ran :=
  let p := IssueCommand (set_bExecuteProcessed false InCommand) p in
  andThen (Wait (Polls InCommand) p) (fun p =>
  let p := set_CommandQueue (DoWork (Address InCommand) (CommandQueue p)) p in
  andThen (Reentered p) (fun p =>
  let p := set_CommandQueue (Remove (Address InCommand) (CommandQueue p)) p in
  Some (p, [CommandDeleted (Operation InCommand)]))).

(** [Execute], from the point where the command is created. *)
Definition Execute (Command : FGitSourceControlCommand)
    (p : FGitSourceControlProvider) : Ran :=
  if bAutoDelete Command
  then Some (IssueCommand Command p, [])
  else ExecuteSynchronousCommand Command p.

Fixpoint ExecuteAll (Calls : list FGitSourceControlCommand)
    (p : FGitSourceControlProvider) : Ran :=
  match Calls with
  | [] => Some (p, [])
  | Command :: Calls => andThen (Execute Command p) (ExecuteAll Calls)
  end.

(** [ExecuteIfBound]: the delegate runs, and with it its calls of [Execute]. *)
Definition ExecuteIfBound (c : FGitSourceControlCommand)
    (Result : ECommandResult.Type_) (p : FGitSourceControlProvider) : Ran :=
  ExecuteAll (ExecuteCalls c Result) p.

(** The body of the [if] in the loop of [Tick], for the command at
    [CommandIndex]: the provider afterwards, [bStatesUpdated] and the events. *)
Definition ProcessCommand (CommandIndex : nat) (Command : FGitSourceControlCommand)
    (p : FGitSourceControlProvider)
    : option (FGitSourceControlProvider * bool * list TickEvent) :=
  let p := set_CommandQueue (RemoveAt CommandIndex (CommandQueue p)) p in
  let '(bStatesUpdated, data) := UpdateStates (Worker Command) (Data p) in
  let p := mkProvider data
             (if IsConnected (Worker Command) then true else bConnected p)
             (CommandQueue p) in
  let Result := if bCommandSuccessful Command
                then ECommandResult.Succeeded else ECommandResult.Failed in
  match ExecuteIfBound Command Result p with
  | None => None
  | Some (p, Nested) =>
      Some (p, bStatesUpdated,
            [RemovedFromQueue CommandIndex (Operation Command);
             AppliedResults (Operation Command) bStatesUpdated;
             OutputCommandMessages (ErrorMessages Command) (InfoMessages Command)]
            ++ (match OperationCompleteDelegate Command with
                | Some _ => [CompletionDelegate (Operation Command) Result]
                | None => []
                end)
            ++ Nested
            ++ (if bAutoDelete Command then [CommandDeleted (Operation Command)] else []))
  end.

(** The [for] loop of [Tick]: [Rest] is the queue from [CommandIndex] on. *)
Fixpoint Tick_loop (CommandIndex : nat) (Rest : list FGitSourceControlCommand)
    (p : FGitSourceControlProvider)
    : option (FGitSourceControlProvider * bool * list TickEvent) :=
  match Rest with
  | [] => Some (p, false, [])
  | Command :: Rest =>
      if bExecuteProcessed Command
      then ProcessCommand CommandIndex Command p
      else Tick_loop (S CommandIndex) Rest p
  end.

(** The body of [Tick]. *)
Definition Tick_body (p : FGitSourceControlProvider) : Ran :=
  match Tick_loop 0 (CommandQueue p) p with
  | None => None
  | Some (p, bStatesUpdated, Events) =>
      if bStatesUpdated || bForceBroadcastUpdateNextTick (Data p)
      then Some (mkProvider
                   (mkProviderData (StateCache (Data p))
                      (LastSyncOperationUpdatedFiles (Data p)) false)
                   (bConnected p) (CommandQueue p),
                 Events ++ [StateChangedBroadcast])
      else Some (p, Events)
  end.

End Reentrant.

(** [Tick]: with [fuel], a delegate may call [Execute] synchronously from
    inside [fuel] nested calls of [Tick]. *)
Fixpoint Tick (Polls : FGitSourceControlCommand -> nat) (fuel : nat)
    : FGitSourceControlProvider -> Ran :=
  Tick_body Polls
    (match fuel with
     | O => fun _ => None
     | S fuel => Tick Polls fuel
     end).

(** ** The git backend

    The workers run git as a subprocess and parse what it prints.  The
    repository, its working tree and its remote-tracking refs are the state
    [World] of the backend; [RunCommand] gives the success flag of one
    invocation, the lines it adds to the output and error arrays it was
    handed, and the world afterwards.  The line parsers of
    GitSourceControlUtils.cpp, which stamp the time and look at the files on
    disk, and the status refresh are part of the interface; the maps they
    fill are given in iteration order. *)

Record GitBackend : Type := mkBackend {
  World : Type;
  RunCommand : FString -> list FString -> list FString -> World ->
               bool * list FString * list FString * World;
  ParseStatusResults : list FString -> list FString -> World ->
                       list (FString * FGitSourceControlState);
  ParseNameStatusResults : list FString -> World ->
                           list (FString * FGitSourceControlState);
  RunUpdateStatus : list FString -> FGitSourceControlStatusFile.t -> World ->
                    bool * list FString * list FGitSourceControlState * World;
  Contains : FString -> FString -> bool
}.

Module GitIndexState.
Inductive Type_ : Set := Invalid | Valid | MustResolveConflicts.
Definition eqb (a b : Type_) : bool :=
  match a, b with
  | Invalid, Invalid | Valid, Valid | MustResolveConflicts, MustResolveConflicts => true
  | _, _ => false
  end.
End GitIndexState.

(** ** GitSourceControlOperations.cpp: [FGitSyncWorker::GetLatest] *)

Module Sync.

(** The settings captured in the command when it was issued. *)
Record Settings : Type := mkSettings {
  PathToRepositoryRoot : FString;
  Branch : FString;
  Remote : FString;
  GetRemoteBranch : FString;
  Ledger : FGitSourceControlStatusFile.Env
}.

(** Everything a run of the worker reads and writes: the backend, the git
    commands run so far, the ledger and its disk, the provider's cache, the
    result members of the command and the worker's own members. *)
Record State (B : GitBackend) : Type := mkSync {
  TheWorld : World B;
  Issued : list FString;
  StatusFile : FGitSourceControlStatusFile.t;
  TheDisk : FGitSourceControlStatusFile.Disk;
  Cache : gmap string FGitSourceControlState;
  CommandSuccessful : bool;
  Errors : list FString;
  Infos : list FString;
  UpdatedFiles : list FString;
  States : list FGitSourceControlState
}.
Arguments mkSync {B}.
Arguments TheWorld {B}.
Arguments Issued {B}.
Arguments StatusFile {B}.
Arguments TheDisk {B}.
Arguments Cache {B}.
Arguments CommandSuccessful {B}.
Arguments Errors {B}.
Arguments Infos {B}.
Arguments UpdatedFiles {B}.
Arguments States {B}.

(** How a run ends: with the returned flag, in a failed assertion, or (in
    this embedding only) with the rebase loop cut off. *)
Inductive Result (A : Type) : Type :=
| Finished (a : A)
| Asserted
| OutOfFuel.
Arguments Finished {A}.
Arguments Asserted {A}.
Arguments OutOfFuel {A}.

Section WithBackend.
Context {B : GitBackend} (C : Settings).

Definition with_world (w : World B) (Command : FString) (s : State B) : State B :=
  mkSync w (Issued s ++ [Command]) (StatusFile s) (TheDisk s) (Cache s)
    (CommandSuccessful s) (Errors s) (Infos s) (UpdatedFiles s) (States s).
Definition set_StatusFile (f : FGitSourceControlStatusFile.t) (s : State B) : State B :=
  mkSync (TheWorld s) (Issued s) f (TheDisk s) (Cache s)
    (CommandSuccessful s) (Errors s) (Infos s) (UpdatedFiles s) (States s).
Definition set_Ledger (f : FGitSourceControlStatusFile.t)
    (d : FGitSourceControlStatusFile.Disk) (s : State B) : State B :=
  mkSync (TheWorld s) (Issued s) f d (Cache s)
    (CommandSuccessful s) (Errors s) (Infos s) (UpdatedFiles s) (States s).
Definition set_Cache (c : gmap string FGitSourceControlState) (s : State B) : State B :=
  mkSync (TheWorld s) (Issued s) (StatusFile s) (TheDisk s) c
    (CommandSuccessful s) (Errors s) (Infos s) (UpdatedFiles s) (States s).
Definition set_CommandSuccessful (b : bool) (s : State B) : State B :=
  mkSync (TheWorld s) (Issued s) (StatusFile s) (TheDisk s) (Cache s)
    b (Errors s) (Infos s) (UpdatedFiles s) (States s).
Definition set_Errors (e : list FString) (s : State B) : State B :=
  mkSync (TheWorld s) (Issued s) (StatusFile s) (TheDisk s) (Cache s)
    (CommandSuccessful s) e (Infos s) (UpdatedFiles s) (States s).
Definition set_Infos (i : list FString) (s : State B) : State B :=
  mkSync (TheWorld s) (Issued s) (StatusFile s) (TheDisk s) (Cache s)
    (CommandSuccessful s) (Errors s) i (UpdatedFiles s) (States s).
Definition set_UpdatedFiles (u : list FString) (s : State B) : State B :=
  mkSync (TheWorld s) (Issued s) (StatusFile s) (TheDisk s) (Cache s)
    (CommandSuccessful s) (Errors s) (Infos s) u (States s).
Definition set_States (l : list FGitSourceControlState) (s : State B) : State B :=
  mkSync (TheWorld s) (Issued s) (StatusFile s) (TheDisk s) (Cache s)
    (CommandSuccessful s) (Errors s) (Infos s) (UpdatedFiles s) l.

(** [GitSourceControlUtils::RunCommand]: the flag, the lines for the output
    array and for the error array, and the state with the command run. *)
Definition Run (Command : FString) (Parameters Files : list FString) (s : State B)
    : bool * list FString * list FString * State B :=
  let '(bResult, Results, ErrorMessages, w) :=
    RunCommand B Command Parameters Files (TheWorld s) in
  (bResult, Results, ErrorMessages, with_world w Command s).

(** A command whose errors go to [InCommand.ErrorMessages]. *)
Definition RunLogged (Command : FString) (Parameters Files : list FString) (s : State B)
    : bool * list FString * State B :=
  let '(bResult, Results, ErrorMessages, s) := Run Command Parameters Files s in
  (bResult, Results, set_Errors (Errors s ++ ErrorMessages) s).

(** The loop of [RunCheckIndexValid] over the parsed states. *)
Fixpoint CheckIndexStates (StatusStates : list (FString * FGitSourceControlState))
    : GitIndexState.Type_ :=
  match StatusStates with
  | [] => GitIndexState.Valid
  | It :: StatusStates =>
      if IsConflicted It.2 then GitIndexState.MustResolveConflicts
      else if bStaged It.2 then GitIndexState.Invalid
      else CheckIndexStates StatusStates
  end.

Definition RunCheckIndexValid (s : State B) : GitIndexState.Type_ * State B :=
  let '(bResult, Results, s) := RunLogged "status --porcelain" [] [] s in
  if bResult then
    (CheckIndexStates (ParseStatusResults B [] Results (TheWorld s)), s)
  else (GitIndexState.Invalid, s).

Definition GetCommitShaForBranch (InBranch : FString) (s : State B) : FString * State B :=
  let '(bResult, StdOut, _, s) := Run "rev-parse --verify" [InBranch] [] s in
  match StdOut with
  | [Sha] => if bResult then (Sha, s) else ("", s)
  | _ => ("", s)
  end.

Definition GetMergeBase (InCommit1 InCommit2 : FString) (s : State B) : FString * State B :=
  let '(bResult, StdOut, _, s) := Run "merge-base" [InCommit1; InCommit2] [] s in
  match StdOut with
  | Sha :: _ => if negb bResult then ("", s) else (Sha, s)
  | [] => ("", s)
  end.

(** [Cleanup]. *)
Definition Cleanup (s : State B) : State B :=
  set_StatusFile (FGitSourceControlStatusFile.RestoreCachedStates (StatusFile s)) s.

Definition FoundRebaseConflict (Message : list FString) : bool :=
  existsb (fun Str => Contains B Str "CONFLICT") Message.

(** [RemoveRedundantErrors]. *)
Definition RemoveRedundantErrors (InFilter : FString) (s : State B) : State B :=
  let Redundant := filter (fun e => Contains B e InFilter = true) (Errors s) in
  let bFoundRedundantError := negb (bool_decide (Redundant = [])) in
  let s := set_Infos (Infos s ++ Redundant) s in
  let s := set_Errors (filter (fun e => Contains B e InFilter <> true) (Errors s)) s in
  if bFoundRedundantError && bool_decide (Errors s = []) && negb (CommandSuccessful s)
  then set_CommandSuccessful true s else s.

(** [TArray::RemoveSingleSwap]: the first occurrence is overwritten with the
    last element, which is then dropped. *)
Fixpoint RemoveSingleSwap (Item : FString) (l : list FString) : list FString :=
  match l with
  | [] => []
  | x :: l' =>
      if String.eqb x Item then
        match reverse l' with
        | [] => []
        | y :: r => y :: reverse r
        end
      else x :: RemoveSingleSwap Item l'
  end.

(** The body of the loop over [StatusResult] in the rebase loop; [None] is
    a failed assertion. *)
Fixpoint ResolveConflicts (RemoteSha : FString)
    (StatusResult : list (FString * FGitSourceControlState)) (s : State B)
    : option (State B) :=
  match StatusResult with
  | [] => Some s
  | It :: StatusResult =>
      if IsConflicted It.2 then
        let File := It.1 in
        let '(bResult, _, s) := RunLogged "checkout --theirs" [] [File] s in
        let s := set_CommandSuccessful (CommandSuccessful s && bResult) s in
        let '(LocalState, cache) := GetStateInternal File (Cache s) in
        let s := set_Cache cache s in
        let Marked :=
          if IsConflicted LocalState then
            let FileState := FGitSourceControlStatusFile.GetState (StatusFile s) File in
            let FileState := SavedState.mk Conflicted RemoteSha in
            FGitSourceControlStatusFile.SetState (Ledger C) File FileState
              (PathToRepositoryRoot C) false (StatusFile s) (TheDisk s)
          else Returned (true, StatusFile s, TheDisk s) in
        match Marked with
        | AssertionFailed => None
        | Returned (_, f, d) =>
            let s := set_Ledger f d s in
            let s := set_UpdatedFiles (RemoveSingleSwap File (UpdatedFiles s)) s in
            ResolveConflicts RemoteSha StatusResult s
        end
      else ResolveConflicts RemoteSha StatusResult s
  end.

(** The [while] loop that continues the rebase past its conflicts; it gives
    the error lines of the last rebase command and the state. *)
Fixpoint RebaseLoop (fuel : nat) (RemoteSha : FString)
    (PullRebaseResult StdErr : list FString) (s : State B)
    : Result (list FString * State B) :=
  if negb (CommandSuccessful s) && FoundRebaseConflict PullRebaseResult then
    match fuel with
    | O => OutOfFuel
    | S fuel =>
        let s := set_CommandSuccessful true s in
        let '(_, StdOut, s) := RunLogged "status --porcelain" [] [] s in
        let StatusResult := ParseStatusResults B [] StdOut (TheWorld s) in
        match ResolveConflicts RemoteSha StatusResult s with
        | None => Asserted
        | Some s =>
            let '(bAdd, _, s) := RunLogged "add ." [] [] s in
            let s := set_CommandSuccessful (CommandSuccessful s && bAdd) s in
            let '(bContinue, PullRebaseResult, StdErr, s) :=
              Run "rebase --continue" [] [] s in
            let s := set_CommandSuccessful (CommandSuccessful s && bContinue) s in
            RebaseLoop fuel RemoteSha PullRebaseResult StdErr s
        end
    end
  else Finished (StdErr, s).

(** "Update all checked out revisions now that we are up to date". *)
Fixpoint ResetCheckedOutRevisions (SavedStatuses : list (FString * SavedState.t))
    (f : FGitSourceControlStatusFile.t) (d : FGitSourceControlStatusFile.Disk)
    : Checked (FGitSourceControlStatusFile.t * FGitSourceControlStatusFile.Disk) :=
  match SavedStatuses with
  | [] => Returned (f, d)
  | It :: SavedStatuses =>
      let FileState := It.2 in
      let FileState :=
        if EWorkingCopyState.eqb (SavedState.State FileState) Deleted
        then SavedState.mk Unknown (SavedState.CheckedOutRevision FileState)
        else FileState in
      let FileState := SavedState.mk (SavedState.State FileState) "0" in
      match FGitSourceControlStatusFile.SetState (Ledger C) It.1 FileState
              (PathToRepositoryRoot C) false f d with
      | AssertionFailed => AssertionFailed
      | Returned (_, f, d) => ResetCheckedOutRevisions SavedStatuses f d
      end
  end.

Definition GITCENTRAL_STASH : FString := "GitCentral_Stash".

Definition GetLatest (fuel : nat) (s : State B) : Result (bool * State B) :=
  let '(IndexValid, s) := RunCheckIndexValid s in
  if negb (GitIndexState.eqb IndexValid GitIndexState.Valid)
  then Finished (false, set_CommandSuccessful false s) else
  let RemoteBranch := GetRemoteBranch C in
  let '(RemoteSha, s) := GetCommitShaForBranch RemoteBranch s in
  if IsEmpty RemoteSha then Finished (false, set_CommandSuccessful false s) else
  let '(MergeBase, s) := GetMergeBase (Branch C) RemoteBranch s in
  if IsEmpty MergeBase then
    Finished (false,
      set_Errors (Errors s ++
        [String.append "Could not find merge-base for "
           (String.append (Branch C) (String.append " and " RemoteBranch))]) s)
  else
  if String.eqb MergeBase RemoteSha then Finished (true, s) else
  let s := set_StatusFile (FGitSourceControlStatusFile.CacheStates (StatusFile s)) s in
  let '(bStatus, StdOut, s) := RunLogged "status --porcelain" [] [] s in
  let s := set_CommandSuccessful (CommandSuccessful s && bStatus) s in
  let bStash := negb (bool_decide (StdOut = [])) in
  let '(bStashFailed, s) :=
    if CommandSuccessful s && bStash then
      let '(bAdd, _, s) := RunLogged "add ." [] [] s in
      let s := set_CommandSuccessful (CommandSuccessful s && bAdd) s in
      let '(bSave, _, s) := RunLogged "stash save -u" [GITCENTRAL_STASH] [] s in
      let s := set_CommandSuccessful (CommandSuccessful s && bSave) s in
      if negb (CommandSuccessful s) then
        let '(_, _, s) := RunLogged "reset" [] [] s in
        (true, set_StatusFile (FGitSourceControlStatusFile.ClearCache (StatusFile s)) s)
      else (false, s)
    else (false, s) in
  if bStashFailed then Finished (false, s) else
  let '(bDiff, StdOut, StdErr, s) :=
    Run "diff --name-status" [MergeBase; RemoteBranch] [] s in
  let s := set_CommandSuccessful (CommandSuccessful s && bDiff) s in
  if negb (CommandSuccessful s)
  then Finished (false, Cleanup (set_Errors (Errors s ++ StdErr) s)) else
  let RemoteStates := ParseNameStatusResults B StdOut (TheWorld s) in
  let s := set_UpdatedFiles
             (UpdatedFiles s ++ map (fun It => GetFilename It.2) RemoteStates) s in
  let '(bPull, PullRebaseResult, StdErr, s) :=
    Run "pull --rebase" [Remote C; Branch C] [] s in
  let s := set_CommandSuccessful (CommandSuccessful s && bPull) s in
  match RebaseLoop fuel RemoteSha PullRebaseResult StdErr s with
  | Asserted => Asserted
  | OutOfFuel => OutOfFuel
  | Finished (StdErr, s) =>
  if negb (CommandSuccessful s) then
    let s := set_Errors (Errors s ++ StdErr) s in
    let '(_, Out, Err, s) := Run "rebase --abort" [] [] s in
    let s := set_Errors (Errors s ++ Err) (set_Infos (Infos s ++ Out) s) in
    let s :=
      if bStash then
        let '(_, Out, Err, s) := Run "stash drop" [] [] s in
        set_Errors (Errors s ++ Err) (set_Infos (Infos s ++ Out) s)
      else s in
    Finished (false, Cleanup s)
  else
  let s := RemoveRedundantErrors "path from the index" s in
  let s :=
    if CommandSuccessful s && bStash then
      let '(bPop, _, s) := RunLogged "stash pop" [] [] s in
      let s := set_CommandSuccessful (CommandSuccessful s && bPop) s in
      let '(bReset, _, s) := RunLogged "reset" [] [] s in
      set_CommandSuccessful (CommandSuccessful s && bReset) s
    else s in
  match ResetCheckedOutRevisions
          (map_to_list (FGitSourceControlStatusFile.SavedStates (StatusFile s)))
          (StatusFile s) (TheDisk s) with
  | AssertionFailed => Asserted
  | Returned (f, d) =>
  match FGitSourceControlStatusFile.Save (Ledger C) (PathToRepositoryRoot C) false f d with
  | AssertionFailed => Asserted
  | Returned (false, f, d) =>
      Finished (false, Cleanup (set_CommandSuccessful false (set_Ledger f d s)))
  | Returned (true, f, d) =>
      let s := set_Ledger f d s in
      let FilesToRefresh :=
        filter (fun It : FString * FGitSourceControlState =>
                  negb (IsCurrent It.2) || IsConflicted It.2 || IsCheckedOut It.2 = true)
               (map_to_list (Cache s)) in
      let RepositoryRootArg :=
        if negb (FGitSourceControlStatusFile.EndsWithSlash (PathToRepositoryRoot C))
        then String.append (PathToRepositoryRoot C) "/" else PathToRepositoryRoot C in
      let FilesParam :=
        RepositoryRootArg :: map (fun It => GetFilename It.2) FilesToRefresh in
      let '(bResult, ErrorMessages, OutStates, w) :=
        RunUpdateStatus B FilesParam (StatusFile s) (TheWorld s) in
      let s := with_world w "RunUpdateStatus" s in
      let s := set_Errors (Errors s ++ ErrorMessages) s in
      let s := set_States (States s ++ OutStates) s in
      Finished (true, set_CommandSuccessful bResult s)
  end
  end
  end.

(** What is left untouched between two states of a run. *)
Definition SameLedgerAndResults (s s' : State B) : Prop :=
  StatusFile s' = StatusFile s
  /\ TheDisk s' = TheDisk s
  /\ Cache s' = Cache s
  /\ CommandSuccessful s' = CommandSuccessful s
  /\ UpdatedFiles s' = UpdatedFiles s
  /\ States s' = States s.

(** The state after the three opening queries. *)
Definition AfterOpeningQueries (s : State B) : State B :=
  let s1 := (RunCheckIndexValid s).2 in
  let s2 := (GetCommitShaForBranch (GetRemoteBranch C) s1).2 in
  (GetMergeBase (Branch C) (GetRemoteBranch C) s2).2.

(** What the three opening queries answer in a state: the state of the
    index, the head of the remote branch and the merge base. *)
Definition OpeningAnswers (s : State B) : GitIndexState.Type_ * FString * FString :=
  let s1 := (RunCheckIndexValid s).2 in
  let s2 := (GetCommitShaForBranch (GetRemoteBranch C) s1).2 in
  ((RunCheckIndexValid s).1,
   (GetCommitShaForBranch (GetRemoteBranch C) s1).1,
   (GetMergeBase (Branch C) (GetRemoteBranch C) s2).1).

End WithBackend.
End Sync.

(** ** Tables and relations the properties are stated with *)

(** The precedence of the local fold, by new state and old state: the
    working-copy state that results. *)
Definition LocalPrecedence (New Old : EWorkingCopyState.Type_) : EWorkingCopyState.Type_ :=
  match New, Old with
  | Added, Deleted => Modified
  | Added, _ => Old
  | Deleted, _ => Deleted
  | Modified, Added => Added
  | Modified, Modified => Modified
  | Modified, _ => Old
  | Conflicted, _ => Conflicted
  | _, Unknown => New
  | _, _ => Old
  end.

(** The combinations for which the local fold writes a diagnostic. *)
Definition LocalDiagnostic (New Old : EWorkingCopyState.Type_) : bool :=
  match New, Old with
  | Added, Deleted => false
  | Added, _ => true
  | Modified, Added | Modified, Modified => false
  | Modified, _ => true
  | Outdated, _ | Missing, _ => true
  | _, _ => false
  end.

(** The precedence table in the words of the specification: the listed
    rows, the old state kept (unless unknown) for a new state that is not
    controlled, ignored, unknown or unchanged, and every other combination
    left as it was, with a diagnostic. *)
Definition SpecifiedLocalPrecedence (New Old : EWorkingCopyState.Type_)
    : EWorkingCopyState.Type_ * bool :=
  match New, Old with
  | Added, Deleted => (Modified, false)
  | Deleted, _ => (Deleted, false)
  | Modified, Added => (Added, false)
  | Modified, Modified => (Modified, false)
  | Conflicted, _ => (Conflicted, false)
  | NotControlled, Unknown | Ignored, Unknown
  | Unknown, Unknown | Unchanged, Unknown => (New, false)
  | NotControlled, _ | Ignored, _ | Unknown, _ | Unchanged, _ => (Old, false)
  | _, _ => (Old, true)
  end.

(** A revision is a strict ancestor of another when it is an ancestor of it
    and is not that revision itself. *)
Definition StrictAncestor (IsAncestor : FString -> FString -> Prop)
    (Revision Head : FString) : Prop :=
  IsAncestor Revision Head /\ Revision <> Head.

(** Two states agree on the fields that [operator==] compares. *)
Definition SameComparedFields (a b : FGitSourceControlState) : Prop :=
  WorkingCopyState a = WorkingCopyState b
  /\ RemoteState a = RemoteState b
  /\ bOutdated a = bOutdated b
  /\ bStaged a = bStaged b
  /\ CheckedOutRevision a = CheckedOutRevision b
  /\ AbsoluteFilename a = AbsoluteFilename b
  /\ UserLocked a = UserLocked b
  /\ bLockedByOther a = bLockedByOther b.

(** The cache and the counter of [UpdateCachedStates] when the first [i]
    states have been gone through. *)
Definition CacheBefore (Now : nat -> FDateTime)
    (InStates : list FGitSourceControlState)
    (StateCache : gmap string FGitSourceControlState) (i : nat)
    : gmap string FGitSourceControlState * nat :=
  UpdateCachedStates_loop Now (take i InStates) (StateCache, 0%nat).

(** The state a file has in a cache, as [GetStateInternal] reads it. *)
Definition CachedState (Filename : FString)
    (StateCache : gmap string FGitSourceControlState) : FGitSourceControlState :=
  (GetStateInternal Filename StateCache).1.

(** The events of a [Tick] that take a command off the queue, apply a
    command's results and fire a completion delegate. *)
Definition IsRemoval (e : TickEvent) : bool :=
  match e with RemovedFromQueue _ _ => true | _ => false end.
Definition IsAppliedResults (e : TickEvent) : bool :=
  match e with AppliedResults _ _ => true | _ => false end.
Definition IsCompletionDelegate (e : TickEvent) : bool :=
  match e with CompletionDelegate _ _ => true | _ => false end.

Definition CountEvents (f : TickEvent -> bool) (Events : list TickEvent) : nat :=
  length (List.filter f Events).

(** The result handed to the completion delegate of a command. *)
Definition ResultOf (c : FGitSourceControlCommand) : ECommandResult.Type_ :=
  if bCommandSuccessful c then ECommandResult.Succeeded else ECommandResult.Failed.

(** The commands of a queue whose execution has finished. *)
Definition Completed (q : list FGitSourceControlCommand) : list FGitSourceControlCommand :=
  List.filter bExecuteProcessed q.

(** A git command that leaves the repository as it found it, whatever its
    arguments. *)
Definition ReadOnly (B : GitBackend) (Command : FString) : Prop :=
  forall Parameters Files w, (RunCommand B Command Parameters Files w).2 = w.

(** The three queries [GetLatest] opens with. *)
Definition OpeningQueries : list FString :=
  ["status --porcelain"; "rev-parse --verify"; "merge-base"].

(** ** Concrete states, queues, ledgers and backends for the examples *)

(** A state for examples: a file with a working-copy state and nothing else. *)
Definition ExampleState (Filename : FString) (State : EWorkingCopyState.Type_)
    : FGitSourceControlState :=
  set_WorkingCopyState State (NewState Filename).

(** A queue for examples: a running status update followed by two finished
    commands, a check-out whose delegate asks for a status update and a
    revert. *)
Definition ExampleCommand (Address : nat) (Name : FString) (bProcessed : bool)
    (Delegate : option (FString -> ECommandResult.Type_ -> list FGitSourceControlCommand))
    : FGitSourceControlCommand :=
  mkCommand Address Name (CachedStatesWorker Name (fun _ => 42) [])
    Delegate bProcessed true true [] [].

Definition ExampleProvider : FGitSourceControlProvider :=
  mkProvider (mkProviderData ∅ [] false) true
    [ExampleCommand 1 "UpdateStatus" false None;
     ExampleCommand 2 "CheckOut" true
       (Some (fun _ _ => [ExampleCommand 4 "UpdateStatus" false None]));
     ExampleCommand 3 "Revert" true None].

(** The calls of [Execute] are all asynchronous. *)
Definition Asynchronous (Calls : list FGitSourceControlCommand) : Prop :=
  Forall (fun c => bAutoDelete c = true) Calls.

(** A queue for examples whose first delegate calls [Execute] with the
    default concurrency, as [ChoosePackagesToResolveCallback] of
    GitSourceControlMenuExtensions.cpp does once the status update it waited
    for has succeeded: a finished status update, whose delegate resolves,
    and a finished check-out. *)
Definition ExampleResolve : FGitSourceControlCommand :=
  mkCommand 3 "Resolve" (CachedStatesWorker "Resolve" (fun _ => 42) [])
    None false true false [] [].

Definition ExampleUpdateStatus : FGitSourceControlCommand :=
  mkCommand 1 "UpdateStatus" (CachedStatesWorker "UpdateStatus" (fun _ => 42) [])
    (Some (fun _ Result =>
             match Result with
             | ECommandResult.Succeeded => [ExampleResolve]
             | _ => []
             end))
    true true true [] [].

Definition ExampleReentrantProvider : FGitSourceControlProvider :=
  mkProvider (mkProviderData ∅ [] false) true
    [ExampleUpdateStatus; ExampleCommand 2 "CheckOut" true None].

(** A ledger for examples: one file checked out, loaded from a status file
    that can no longer be written. *)
Definition ReadOnlyDisk : FGitSourceControlStatusFile.Env :=
  FGitSourceControlStatusFile.mkEnv "origin" "master"
    (fun Path Root => Path) (fun Root Name => String.append Root (String.append "/" Name))
    (fun _ => true) (fun _ => false).

Definition ExampleLedger : FGitSourceControlStatusFile.t :=
  FGitSourceControlStatusFile.mk false
    {["/repo/a.uasset" := SavedState.mk CheckedOut "0"]} ∅ (Some ∅).

(** A repository for examples, up to date with its remote: [rev-parse] and
    [merge-base] answer the same commit.  Its state says whether a change to
    Content/a.uasset is staged in the index, which [status] then reports in
    a line that the parser reads as a staged modification. *)
Definition ExampleBackend : GitBackend :=
  {| World := bool;
     RunCommand := fun Command Parameters Files w =>
       if String.eqb Command "status --porcelain"
       then (true, if w then ["M  Content/a.uasset"] else [], [], w)
       else if String.eqb Command "rev-parse --verify" then (true, ["9c4e"], [], w)
       else if String.eqb Command "merge-base" then (true, ["9c4e"], [], w)
       else (false, [], ["fatal: not expected"], w);
     ParseStatusResults := fun InFiles InResults w =>
       map (fun Line =>
              let File := String.append "/repo/"
                            (String.substring 3 (String.length Line - 3) Line) in
              (File, mkState [] File Modified Unknown 42 "0" "" (-1) false false true))
           InResults;
     ParseNameStatusResults := fun InResults w => [];
     RunUpdateStatus := fun InFiles StatusFile w => (true, [], [], w);
     Contains := fun Str SubStr => false |}.

Definition ExampleSettings : Sync.Settings :=
  Sync.mkSettings "/repo" "master" "origin" "origin/master" ReadOnlyDisk.

(** The worker about to get latest, after a successful fetch. *)
Definition ExampleSync (bStaged : bool) : Sync.State ExampleBackend :=
  Sync.mkSync (bStaged : World ExampleBackend) [] ExampleLedger ∅ ∅ true [] [] [] [].

(** ** GitSourceControlState.cpp: what can be done with a file *)

Definition IsValid (s : FGitSourceControlState) : bool :=
  negb (IsEmpty (AbsoluteFilename s))
  && negb (EWorkingCopyState.eqb (WorkingCopyState s) Unknown).

Definition IsSourceControlled (s : FGitSourceControlState) : bool :=
  negb (EWorkingCopyState.eqb (WorkingCopyState s) Ignored)
  && negb (EWorkingCopyState.eqb (WorkingCopyState s) Unknown).

Definition IsAdded (s : FGitSourceControlState) : bool :=
  EWorkingCopyState.eqb (WorkingCopyState s) Added
  || EWorkingCopyState.eqb (WorkingCopyState s) NotControlled.

Definition IsDeleted (s : FGitSourceControlState) : bool :=
  EWorkingCopyState.eqb (WorkingCopyState s) Deleted.

Definition IsIgnored (s : FGitSourceControlState) : bool :=
  EWorkingCopyState.eqb (WorkingCopyState s) Ignored.

Definition IsUnknown (s : FGitSourceControlState) : bool :=
  EWorkingCopyState.eqb (WorkingCopyState s) Unknown.

Definition CanCheckIn (s : FGitSourceControlState) : bool :=
  (IsModified s || IsAdded s || IsCheckedOut s)
  && IsCurrent s && negb (IsConflicted s) && negb (IsCheckedOutOther s).

Definition CanRevert (s : FGitSourceControlState) : bool :=
  IsCheckedOut s || IsConflicted s.

Definition CanCheckout (s : FGitSourceControlState) : bool :=
  IsSourceControlled s && negb (IsModified s) && negb (IsCheckedOut s)
  && negb (IsCheckedOutOther s) && IsCurrent s.

Definition CanEdit (s : FGitSourceControlState) : bool :=
  negb (IsCheckedOutOther s) && negb (IsModified s).

Definition CanDelete (s : FGitSourceControlState) : bool :=
  IsSourceControlled s && IsCurrent s && CanEdit s.

Definition CanAdd (s : FGitSourceControlState) : bool := false.

Definition CanLock (s : FGitSourceControlState) : bool := IsEmpty (UserLocked s).

Definition CanUnlock (s : FGitSourceControlState) : bool := IsLockedByMe s.

Definition CanFixLock (s : FGitSourceControlState) : bool :=
  CanLock s && IsModified s.

Definition HasValidLockId (s : FGitSourceControlState) : bool :=
  negb (Z.eqb (LockId s) (-1)).

Definition CanForceWriteable (s : FGitSourceControlState) : bool :=
  IsCheckedOutOther s && negb (IsModified s) && negb (IsCheckedOut s).

(** [ResolveConflict]; [FileExists] is [FPaths::FileExists] on the disk as
    it is at the call. *)
Definition ResolveConflict (FileExists : FString -> bool)
    (OldState : EWorkingCopyState.Type_) (This : FGitSourceControlState)
    : FGitSourceControlState :=
  let This := set_WorkingCopyState OldState This in
  let This := set_bOutdated false This in
  if EWorkingCopyState.eqb (RemoteState This) Deleted && FileExists (GetFilename This)
  then set_WorkingCopyState Added This
  else This.

(** ** GitSourceControlProvider.cpp: more of the cache and of the queue *)

(** [RemoveFileFromCache]. *)
Definition RemoveFileFromCache (Filename : FString)
    (StateCache : gmap string FGitSourceControlState)
    : bool * gmap string FGitSourceControlState :=
  (bool_decide (is_Some (StateCache !! Filename)), delete Filename StateCache).

(** [Tick] called [n] times in a row, the worker threads finishing nothing
    in between. *)
Fixpoint Ticks (Polls : FGitSourceControlCommand -> nat) (fuel n : nat)
    (p : FGitSourceControlProvider) : option FGitSourceControlProvider :=
  match n with
  | O => Some p
  | S n =>
      match Tick Polls fuel p with
      | None => None
      | Some (p, _) => Ticks Polls fuel n p
      end
  end.

(** ** Edits of the ledger that are not saved one by one *)

(** A call of [SetState] or [ClearState] with [bSave] off, as the protocols
    make them in a batch before one [Save]. *)
Inductive LedgerEdit : Set :=
| EditSet (InFilePath : FString) (InState : SavedState.t)
| EditClear (InFilePath : FString).

Definition ApplyEdit (E : FGitSourceControlStatusFile.Env) (Root : FString)
    (e : LedgerEdit) (f : FGitSourceControlStatusFile.t)
    (d : FGitSourceControlStatusFile.Disk)
    : Checked (bool * FGitSourceControlStatusFile.t * FGitSourceControlStatusFile.Disk) :=
  match e with
  | EditSet InFilePath InState =>
      FGitSourceControlStatusFile.SetState E InFilePath InState Root false f d
  | EditClear InFilePath =>
      FGitSourceControlStatusFile.ClearState E InFilePath Root false f d
  end.

Fixpoint ApplyEdits (E : FGitSourceControlStatusFile.Env) (Root : FString)
    (l : list LedgerEdit) (f : FGitSourceControlStatusFile.t)
    (d : FGitSourceControlStatusFile.Disk)
    : Checked (FGitSourceControlStatusFile.t * FGitSourceControlStatusFile.Disk) :=
  match l with
  | [] => Returned (f, d)
  | e :: l =>
      match ApplyEdit E Root e f d with
      | AssertionFailed => AssertionFailed
      | Returned (_, f, d) => ApplyEdits E Root l f d
      end
  end.

(** The key of the ledger's namespace in the status file. *)
Definition NamespaceKey (E : FGitSourceControlStatusFile.Env) : FString :=
  String.append (FGitSourceControlStatusFile.GetRemote E)
    (String.append "/" (FGitSourceControlStatusFile.GetBranch E)).

(** The fields of a JSON document, a missing document having none. *)
Definition FieldsOf (Data : option (gmap string FJsonValue)) : gmap string FJsonValue :=
  match Data with Some o => o | None => ∅ end.

(** ** Get latest: what is kept of the ledger *)

(** The snapshot and the disk of a state are those of another one. *)
Definition SameSnapshot {B : GitBackend} (s s' : Sync.State B) : Prop :=
  FGitSourceControlStatusFile.CachedStates (Sync.StatusFile s')
  = FGitSourceControlStatusFile.CachedStates (Sync.StatusFile s)
  /\ Sync.TheDisk s' = Sync.TheDisk s.

(** An entry with its pin reset and no stale deletion mark. *)
Definition PinReset (e : SavedState.t) : Prop :=
  SavedState.CheckedOutRevision e = "0" /\ SavedState.State e <> Deleted.

(** A repository for examples whose remote branch is one commit ahead, with
    a clean working tree; its state says whether the rebase is refused. *)
Definition ExampleBackendBehind : GitBackend :=
  {| World := bool;
     RunCommand := fun Command Parameters Files w =>
       if String.eqb Command "rev-parse --verify" then (true, ["9c4e"], [], w)
       else if String.eqb Command "merge-base" then (true, ["1f3a"], [], w)
       else if String.eqb Command "diff --name-status"
       then (true, ["M       Content/a.uasset"], [], w)
       else if String.eqb Command "pull --rebase"
       then if w then (false, [], ["fatal: unable to access the remote"], w)
            else (true, ["Successfully rebased and updated"], [], w)
       else (true, [], [], w);
     ParseStatusResults := fun InFiles InResults w => [];
     ParseNameStatusResults := fun InResults w =>
       map (fun Line =>
              let File := String.append "/repo/"
                            (String.substring 8 (String.length Line - 8) Line) in
              (File, mkState [] File Modified Unknown 42 "0" "" (-1) false false false))
           InResults;
     RunUpdateStatus := fun InFiles StatusFile w => (true, [], [], w);
     Contains := fun Str SubStr => false |}.

Definition WritableDisk : FGitSourceControlStatusFile.Env :=
  FGitSourceControlStatusFile.mkEnv "origin" "master"
    (fun Path Root => Path) (fun Root Name => String.append Root (String.append "/" Name))
    (fun _ => true) (fun _ => true).

Definition ExampleSettingsWritable : Sync.Settings :=
  Sync.mkSettings "/repo" "master" "origin" "origin/master" WritableDisk.

(** A ledger for examples with one file synced at an older revision and one
    deleted at it. *)
Definition ExamplePinnedLedger : FGitSourceControlStatusFile.t :=
  FGitSourceControlStatusFile.mk false
    {["/repo/a.uasset" := SavedState.mk Unknown "1f3a";
      "/repo/b.uasset" := SavedState.mk Deleted "1f3a"]} ∅ (Some ∅).

Definition ExampleSyncBehind (bRefused : bool) : Sync.State ExampleBackendBehind :=
  Sync.mkSync (bRefused : World ExampleBackendBehind) [] ExamplePinnedLedger ∅ ∅ true
    [] [] [] [].

(** ** More of the queue and of the cache *)

(** The commands of a queue that are still running. *)
Definition Running (q : list FGitSourceControlCommand) : list FGitSourceControlCommand :=
  List.filter (fun c => negb (bExecuteProcessed c)) q.

(** No command of the queue has a completion delegate that issues commands. *)
Definition NothingIssued (q : list FGitSourceControlCommand) : Prop :=
  Forall (fun c => forall Result, ExecuteCalls c Result = []) q.

(** A queue whose delegates issue nothing: a finished check-out, a running
    status update and a finished revert with a delegate. *)
Definition ExampleQuietProvider : FGitSourceControlProvider :=
  mkProvider (mkProviderData ∅ [] false) true
    [ExampleCommand 1 "CheckOut" true None;
     ExampleCommand 2 "UpdateStatus" false None;
     ExampleCommand 3 "Revert" true (Some (fun _ _ => []))].

(** The cache holds, for the file of [InState], a state that [operator==]
    does not tell from [InState]. *)
Definition Agrees (StateCache : gmap string FGitSourceControlState)
    (InState : FGitSourceControlState) : Prop :=
  exists State, StateCache !! AbsoluteFilename InState = Some State
                /\ SameComparedFields State InState.

(** ** GitSourceControlStatusFile.cpp: [LoadStatusFile] and [Load] *)

(** What [FFileHelper::LoadFileToString] and [FJsonSerializer::Deserialize]
    make of a file that exists: it cannot be read, it holds no text, its
    text is not a JSON object, or it holds a JSON object.  [Deserialize]
    leaves its out-parameter alone when it fails. *)
Inductive FileContents : Type :=
| Unreadable
| EmptyFile
| NotJson
| JsonDocument (Values : gmap string FJsonValue).

(** The files that exist, by path. *)
Definition FileSystem := gmap string FileContents.

(** The files [Save] has written: a document written by the JSON writer is
    read back by the JSON reader as the same document. *)
Definition Written (d : FGitSourceControlStatusFile.Disk) : FileSystem :=
  JsonDocument <$> d.

Definition FileExists (fs : FileSystem) (Path : FString) : bool :=
  bool_decide (is_Some (fs !! Path)).

(** What loading needs from its surroundings besides what saving needs:
    [FPaths::ConvertRelativePathToFull] and whether
    [IFileManager::Delete] manages to delete the file at a path. *)
Record LoadEnv : Type := mkLoadEnv {
  ConvertRelativePathToFull : FString -> FString -> FString;
  CanDeleteFile : FString -> bool
}.

(** The lines [Load] and [LoadStatusFile] log through [GITCENTRAL_ERROR],
    each with the path it is printed for. *)
Inductive LoadError : Set :=
| NotValidJsonFile (StatusFilePath : FString)
| FailedToDeleteLegacy (LegacyStatusFilePath : FString)
| FailedToSave (StatusFilePath : FString)
| FailedToLoad (StatusFilePath : FString).

(** [FJsonObject::TryGetObjectField]. *)
Definition TryGetObjectField (Json : gmap string FJsonValue) (FieldName : string)
    : option (gmap string FJsonValue) :=
  match Json !! FieldName with
  | Some (FJsonValueObject Values) => Some Values
  | _ => None
  end.

(** [FJsonValue::AsObject]: a value that is not an object is read as an
    empty object. *)
Definition AsObject (v : FJsonValue) : gmap string FJsonValue :=
  match v with
  | FJsonValueObject Values => Values
  | _ => ∅
  end.

(** [FixedPathToRepoRoot] in [Save]. *)
Definition FixedPathToRepoRoot (PathToRepositoryRoot : FString) : FString :=
  if negb (FGitSourceControlStatusFile.EndsWithSlash PathToRepositoryRoot)
  then String.append PathToRepositoryRoot "/" else PathToRepositoryRoot.

(** The loop of [LoadStatusFile] over the entries of the namespace, each read
    into a fresh [SavedState]. *)
Fixpoint LoadStatusFile_loop (L : LoadEnv) (PathToRepositoryRoot : FString)
    (Values : list (string * FJsonValue)) (SavedStates : gmap string SavedState.t)
    : Checked (gmap string SavedState.t) :=
  match Values with
  | [] => Returned SavedStates
  | It :: Values =>
      match SavedStateJson.FromJson SavedState.default (Some (AsObject It.2)) with
      | AssertionFailed => AssertionFailed
      | Returned (true, State) =>
          let FilePath := ConvertRelativePathToFull L PathToRepositoryRoot It.1 in
          LoadStatusFile_loop L PathToRepositoryRoot Values
            (<[FilePath := State]> SavedStates)
      | Returned (false, _) =>
          LoadStatusFile_loop L PathToRepositoryRoot Values SavedStates
      end
  end.

(** [LoadStatusFile]: the returned flag, the ledger afterwards and the lines
    logged. *)
Definition LoadStatusFile (L : LoadEnv) (E : FGitSourceControlStatusFile.Env)
    (PathToRepositoryRoot StatusFilePath : FString)
    (f : FGitSourceControlStatusFile.t) (fs : FileSystem)
    : Checked (bool * FGitSourceControlStatusFile.t * list LoadError) :=
  let Reset :=
    FGitSourceControlStatusFile.ClearSavedStates
      (FGitSourceControlStatusFile.set_LoadedData None f) in
  let Loaded (f : FGitSourceControlStatusFile.t) :=
    FGitSourceControlStatusFile.ClearCache
      (FGitSourceControlStatusFile.set_bDirty false f) in
  match fs !! StatusFilePath with
  | None | Some Unreadable => Returned (false, f, [])
  | Some EmptyFile => Returned (true, Loaded Reset, [])
  | Some NotJson => Returned (false, Reset, [NotValidJsonFile StatusFilePath])
  | Some (JsonDocument Values) =>
      let f := FGitSourceControlStatusFile.set_LoadedData (Some Values) Reset in
      let Key := String.append (FGitSourceControlStatusFile.GetRemote E)
                   (String.append "/" (FGitSourceControlStatusFile.GetBranch E)) in
      match TryGetObjectField Values Key with
      | None => Returned (true, Loaded f, [])
      | Some JsonStatesMap =>
          match LoadStatusFile_loop L PathToRepositoryRoot
                  (map_to_list JsonStatesMap)
                  (FGitSourceControlStatusFile.SavedStates f) with
          | AssertionFailed => AssertionFailed
          | Returned SavedStates =>
              Returned (true,
                        Loaded (FGitSourceControlStatusFile.set_SavedStates SavedStates f),
                        [])
          end
      end
  end.

Definition GitStatusLegacyFileName : FString := ".gitcentral".

(** [Load]: the returned flag, the ledger and the files afterwards and the
    lines logged.  [Save] writes one file and reads none, so it is run on
    an empty disk and what it wrote is laid over the files. *)
Definition Load (L : LoadEnv) (E : FGitSourceControlStatusFile.Env)
    (PathToRepositoryRoot : FString)
    (f : FGitSourceControlStatusFile.t) (fs : FileSystem)
    : Checked (bool * FGitSourceControlStatusFile.t * FileSystem * list LoadError) :=
  let StatusFilePath :=
    FGitSourceControlStatusFile.Combine E PathToRepositoryRoot
      FGitSourceControlStatusFile.GitStatusFileName in
  match LoadStatusFile L E PathToRepositoryRoot StatusFilePath f fs with
  | AssertionFailed => AssertionFailed
  | Returned (true, f, Log) => Returned (true, f, fs, Log)
  | Returned (false, f, Log) =>
      if negb (FileExists fs StatusFilePath) then
        let LegacyStatusFilePath :=
          FGitSourceControlStatusFile.Combine E PathToRepositoryRoot
            GitStatusLegacyFileName in
        if negb (FileExists fs LegacyStatusFilePath) then Returned (true, f, fs, Log)
        else
          match LoadStatusFile L E PathToRepositoryRoot LegacyStatusFilePath f fs with
          | AssertionFailed => AssertionFailed
          | Returned (true, f, Log') =>
              match FGitSourceControlStatusFile.Save E PathToRepositoryRoot true f ∅ with
              | AssertionFailed => AssertionFailed
              | Returned (true, f, d) =>
                  let fs := Written d ∪ fs in
                  if negb (CanDeleteFile L LegacyStatusFilePath)
                  then Returned (true, f, fs,
                                 Log ++ Log' ++ [FailedToDeleteLegacy LegacyStatusFilePath])
                  else Returned (true, f, delete LegacyStatusFilePath fs, Log ++ Log')
              | Returned (false, f, _) =>
                  Returned (false, f, fs, Log ++ Log' ++ [FailedToSave StatusFilePath])
              end
          | Returned (false, f, Log') =>
              Returned (false, f, fs, Log ++ Log' ++ [FailedToLoad LegacyStatusFilePath])
          end
      else Returned (false, f, fs, Log ++ [FailedToLoad StatusFilePath])
  end.

(** What a ledger entry is read back as after it was written: the state as
    far as its code tells, the pinned revision as it was. *)
Definition ReadBack (s : SavedState.t) : SavedState.t :=
  SavedState.mk
    (EWorkingCopyState.FromChar (EWorkingCopyState.ToChar (SavedState.State s)))
    (SavedState.CheckedOutRevision s).

(** A file system for examples: an empty legacy status file and nothing
    else. *)
Definition EmptyLegacyFile : FileSystem := {["/repo/.gitcentral" := EmptyFile]}.

Definition ExampleLoadEnv : LoadEnv := mkLoadEnv (fun Root Path => Path) (fun _ => true).

(** A ledger for examples that was never saved: one file made writeable
    without a lock and one entry that [IsValid] rejects. *)
Definition ExampleUnsavedLedger : FGitSourceControlStatusFile.t :=
  FGitSourceControlStatusFile.mk true
    {["/repo/a.uasset" := SavedState.mk ForcedWriteable "0";
      "/repo/b.uasset" := SavedState.mk Unchanged "0"]} ∅ None.

(** A file system for examples: a status file that is not JSON. *)
Definition BrokenStatusFile : FileSystem :=
  {["/repo/.git/gitcentral/status" := NotJson]}.

(** ** GitSourceControlUtils.cpp: [CleanupStatusFile] *)

Section Cleaning.
Context {B : GitBackend} (C : Sync.Settings).

(** [FPaths::FileExists] in the working tree as the backend has it. *)
Context (FileExistsInTree : FString -> World B -> bool).

(** [TMap::Find] on parsed states, which are kept in iteration order. *)
Definition FindState (File : FString) (States : list (FString * FGitSourceControlState))
    : option FGitSourceControlState :=
  match List.find (fun It : FString * FGitSourceControlState => String.eqb It.1 File) States with
  | Some It => Some It.2
  | None => None
  end.

(** The body of the loop over the copied entries: whether the entry is no
    longer relevant, then [ClearState] with [bSave] on, whose result is not
    looked at. *)
Definition CleanupEntry (MergeBase : FString)
    (RemoteStates : list (FString * FGitSourceControlState))
    (It : FString * SavedState.t) (s : Sync.State B) : Checked (Sync.State B) :=
  let '(bClearState, s) :=
    if EWorkingCopyState.eqb (SavedState.State It.2) Deleted
       && negb (FileExistsInTree It.1 (Sync.TheWorld s))
    then
      match FindState It.1 RemoteStates with
      | None => (true, s)
      | Some RemoteState =>
          (EWorkingCopyState.eqb (WorkingCopyState RemoteState) Deleted, s)
      end
    else if Z.eqb (EWorkingCopyState.ToChar (SavedState.State It.2)) (TEXT "0")
            && negb (String.eqb (SavedState.CheckedOutRevision It.2) "0")
    then
      if String.eqb (SavedState.CheckedOutRevision It.2) MergeBase then (true, s)
      else
        let '(bResult, _, _, s) :=
          Sync.Run "merge-base --is-ancestor"
            [SavedState.CheckedOutRevision It.2; MergeBase] [] s in
        (bResult, s)
    else (false, s) in
  if bClearState then
    match FGitSourceControlStatusFile.ClearState (Sync.Ledger C) It.1
            (Sync.PathToRepositoryRoot C) true (Sync.StatusFile s) (Sync.TheDisk s) with
    | AssertionFailed => AssertionFailed
    | Returned (_, f, d) => Returned (Sync.set_Ledger f d s)
    end
  else Returned s.

Fixpoint CleanupEntries (MergeBase : FString)
    (RemoteStates : list (FString * FGitSourceControlState))
    (SavedStates : list (FString * SavedState.t)) (s : Sync.State B)
    : Checked (Sync.State B) :=
  match SavedStates with
  | [] => Returned s
  | It :: SavedStates =>
      match CleanupEntry MergeBase RemoteStates It s with
      | AssertionFailed => AssertionFailed
      | Returned s => CleanupEntries MergeBase RemoteStates SavedStates s
      end
  end.

(** [CleanupStatusFile]: the state afterwards, unless an assertion fails. *)
Definition CleanupStatusFile (s : Sync.State B) : Checked (Sync.State B) :=
  let s := Sync.set_StatusFile
             (FGitSourceControlStatusFile.CacheStates (Sync.StatusFile s)) s in
  let SavedStates :=
    map_to_list (FGitSourceControlStatusFile.SavedStates (Sync.StatusFile s)) in
  if Nat.eqb (length SavedStates) 0 then Returned s else
  let RemoteBranch := Sync.GetRemoteBranch C in
  let '(MergeBase, s) := Sync.GetMergeBase (Sync.Branch C) RemoteBranch s in
  let Success := negb (IsEmpty MergeBase) in
  let '(RemoteBranchSha, s) := Sync.GetCommitShaForBranch RemoteBranch s in
  let '(Success, RemoteStates, s) :=
    if Success && negb (String.eqb RemoteBranchSha MergeBase) then
      let Files := map fst SavedStates in
      let '(Success, StdOut, _, s) :=
        Sync.Run "diff --name-status" [MergeBase; RemoteBranch] Files s in
      if Success then (true, ParseNameStatusResults B StdOut (Sync.TheWorld s), s)
      else (false, [], s)
    else (Success, [], s) in
  let Cleaned :=
    if Success then CleanupEntries MergeBase RemoteStates SavedStates s
    else Returned s in
  match Cleaned with
  | AssertionFailed => AssertionFailed
  | Returned s =>
      let Saved :=
        if Success
        then FGitSourceControlStatusFile.Save (Sync.Ledger C) (Sync.PathToRepositoryRoot C)
               false (Sync.StatusFile s) (Sync.TheDisk s)
        else Returned (false, Sync.StatusFile s, Sync.TheDisk s) in
      match Saved with
      | AssertionFailed => AssertionFailed
      | Returned (Success, f, d) =>
          let s := Sync.set_Ledger f d s in
          if negb Success
          then Returned (Sync.set_StatusFile
                           (FGitSourceControlStatusFile.RestoreCachedStates
                              (Sync.StatusFile s)) s)
          else Returned s
      end
  end.

End Cleaning.

(** An entry that [CleanupStatusFile] may find to be no longer relevant: a
    deletion, or a state written as '0' with a pinned revision. *)
Definition Settled (v : SavedState.t) : bool :=
  EWorkingCopyState.eqb (SavedState.State v) Deleted
  || Z.eqb (EWorkingCopyState.ToChar (SavedState.State v)) (TEXT "0")
     && negb (String.eqb (SavedState.CheckedOutRevision v) "0").

(** The git commands [CleanupStatusFile] runs; none of them changes the
    repository. *)
Definition CleanupQueries : list FString :=
  ["merge-base"; "rev-parse --verify"; "diff --name-status"; "merge-base --is-ancestor"].

(** The worker in the middle of a rebase that stopped on a conflict, with
    the files the pull is to update. *)
Definition ConflictedSync (Files : list FString) : Sync.State ExampleBackendBehind :=
  Sync.mkSync (false : World ExampleBackendBehind) [] ExamplePinnedLedger ∅
    {["/repo/a.uasset" := ExampleState "/repo/a.uasset" Conflicted]} false
    [] [] Files [].

(** ** GitSourceControlUtils.cpp: the parsers of git's output *)

(** [FString::RightChop], [Mid], [Left], [Find] (from the start),
    [FindChar] and [FindLastChar]; [None] is [INDEX_NONE]. *)
Definition RightChop (Count : nat) (s : FString) : FString :=
  String.substring Count (String.length s - Count) s.
Definition Mid (Start : nat) (s : FString) : FString :=
  String.substring Start (String.length s - Start) s.
Definition Left (Count : nat) (s : FString) : FString :=
  String.substring 0 Count s.
Definition Find (SubStr s : FString) : option nat := String.index 0 SubStr s.

Fixpoint FindChar (c : ascii) (s : FString) : option nat :=
  match s with
  | EmptyString => None
  | String a s => if Ascii.eqb a c then Some 0%nat else S <$> FindChar c s
  end.

Fixpoint FindLastChar (c : ascii) (s : FString) : option nat :=
  match s with
  | EmptyString => None
  | String a s =>
      match FindLastChar c s with
      | Some i => Some (S i)
      | None => if Ascii.eqb a c then Some 0%nat else None
      end
  end.

(** [TMap::Add] on parsed states kept in iteration order: the value of a key
    that is there is replaced in place, a new key goes to the end. *)
Fixpoint TMapAdd (Key : FString) (Value : FGitSourceControlState)
    (Map : list (FString * FGitSourceControlState))
    : list (FString * FGitSourceControlState) :=
  match Map with
  | [] => [(Key, Value)]
  | It :: Map =>
      if String.eqb It.1 Key then (Key, Value) :: Map
      else It :: TMapAdd Key Value Map
  end.

Definition set_bStaged (v : bool) (s : FGitSourceControlState) :=
  mkState (History s) (AbsoluteFilename s) (WorkingCopyState s) (RemoteState s)
    (TimeStamp s) (CheckedOutRevision s) (UserLocked s) (LockId s)
    (bLockedByOther s) (bOutdated s) v.

Section Parsers.
(** [FPaths::Combine], and the clock: [Now n] is what [FDateTime::Now()]
    reads when it has been read [n] times. *)
Context (PathsCombine : FString -> FString -> FString) (Now : nat -> FDateTime).

(** The states parsed so far and the number of times the clock was read. *)
Definition Parsed : Type := list (FString * FGitSourceControlState) * nat.

(** [ParseStatusLine]. *)
Definition ParseStatusLine (InLine InRepositoryRoot : FString) (acc : Parsed)
    : Checked Parsed :=
  let '(OutStates, Reads) := acc in
  if (Len InLine <? 2)%Z then Returned acc else
  let RelativeFilename := RightChop 3 InLine in
  let '(RelativeFilename, RelativeFilenameRenamed) :=
    match Find " -> " RelativeFilename with
    | Some RenameIndex =>
        (Left RenameIndex RelativeFilename, Mid (RenameIndex + 4) RelativeFilename)
    | None => (RelativeFilename, "")
    end in
  if IsEmpty RelativeFilename then Returned acc else
  let State := NewState (PathsCombine InRepositoryRoot RelativeFilename) in
  match FString_at InLine 0, FString_at InLine 1 with
  | Some IndexState, Some WCopyState =>
      let State := set_bStaged (negb (Z.eqb IndexState (TEXT " "))) State in
      let '(State, OutStates, Reads) :=
        if (Z.eqb IndexState (TEXT "U") || Z.eqb WCopyState (TEXT "U"))
           || (Z.eqb IndexState (TEXT "A") && Z.eqb WCopyState (TEXT "A"))
           || (Z.eqb IndexState (TEXT "D") && Z.eqb WCopyState (TEXT "D"))
        then (set_WorkingCopyState Conflicted State, OutStates, Reads)
        else if Z.eqb IndexState (TEXT "A")
        then (set_WorkingCopyState Added State, OutStates, Reads)
        else if Z.eqb IndexState (TEXT "D") || Z.eqb WCopyState (TEXT "D")
        then (set_WorkingCopyState Deleted State, OutStates, Reads)
        else if Z.eqb IndexState (TEXT "M") || Z.eqb WCopyState (TEXT "M")
        then (set_WorkingCopyState Modified State, OutStates, Reads)
        else if Z.eqb IndexState (TEXT "?") || Z.eqb WCopyState (TEXT "?")
        then (set_bStaged false (set_WorkingCopyState NotControlled State),
              OutStates, Reads)
        else if Z.eqb IndexState (TEXT "!") || Z.eqb WCopyState (TEXT "!")
        then (set_WorkingCopyState Ignored State, OutStates, Reads)
        else if Z.eqb IndexState (TEXT "R")
        then
          let State := set_WorkingCopyState Deleted State in
          let RenamedState :=
            NewState (PathsCombine InRepositoryRoot RelativeFilenameRenamed) in
          let RenamedState := set_WorkingCopyState NotControlled RenamedState in
          let RenamedState := set_TimeStamp (Now Reads) RenamedState in
          let OutStates :=
            match FindState (GetFilename RenamedState) OutStates with
            | None => TMapAdd (GetFilename RenamedState) RenamedState OutStates
            | Some _ => OutStates
            end in
          (State, OutStates, S Reads)
        else if Z.eqb IndexState (TEXT "C")
        then (set_WorkingCopyState Unknown State, OutStates, Reads)
        else (set_WorkingCopyState Unknown State, OutStates, Reads) in
      let State := set_TimeStamp (Now Reads) State in
      Returned (TMapAdd (GetFilename State) State OutStates, S Reads)
  | _, _ => AssertionFailed
  end.

(** [ParseNameStatusLine]. *)
Definition ParseNameStatusLine (InLine InRepositoryRoot : FString) (acc : Parsed)
    : Checked Parsed :=
  let '(OutStates, Reads) := acc in
  if (Len InLine <? 2)%Z then Returned acc else
  match FindChar "009" InLine with
  | None => Returned acc
  | Some TabIndex =>
      let RelativeFilename := Mid (TabIndex + 1) InLine in
      let '(RelativeFilename, RelativeFilenameRenamed) :=
        match FindLastChar "009" RelativeFilename with
        | Some LastTabIndex =>
            (Left LastTabIndex RelativeFilename, Mid (LastTabIndex + 1) RelativeFilename)
        | None => (RelativeFilename, "")
        end in
      let State := NewState (PathsCombine InRepositoryRoot RelativeFilename) in
      match FString_at InLine 0 with
      | None => AssertionFailed
      | Some Code =>
          let '(State, OutStates, Reads) :=
            if Z.eqb Code (TEXT " ")
            then (set_WorkingCopyState Unchanged State, OutStates, Reads)
            else if Z.eqb Code (TEXT "T") || Z.eqb Code (TEXT "M")
            then (set_WorkingCopyState Modified State, OutStates, Reads)
            else if Z.eqb Code (TEXT "A")
            then (set_WorkingCopyState Added State, OutStates, Reads)
            else if Z.eqb Code (TEXT "D")
            then (set_WorkingCopyState Deleted State, OutStates, Reads)
            else if Z.eqb Code (TEXT "R")
            then
              let State := set_WorkingCopyState Deleted State in
              let RenamedState :=
                NewState (PathsCombine InRepositoryRoot RelativeFilenameRenamed) in
              let RenamedState := set_WorkingCopyState Added RenamedState in
              let RenamedState := set_TimeStamp (Now Reads) RenamedState in
              let OutStates :=
                match FindState (GetFilename RenamedState) OutStates with
                | None => TMapAdd (GetFilename RenamedState) RenamedState OutStates
                | Some _ => OutStates
                end in
              (State, OutStates, S Reads)
            else if Z.eqb Code (TEXT "U")
            then (set_WorkingCopyState Conflicted State, OutStates, Reads)
            else (set_WorkingCopyState Unknown State, OutStates, Reads) in
          let State := set_TimeStamp (Now Reads) State in
          Returned (TMapAdd (GetFilename State) State OutStates, S Reads)
      end
  end.

(** The loops over the lines of a result. *)
Fixpoint ParseLines (ParseLine : FString -> FString -> Parsed -> Checked Parsed)
    (InRepositoryRoot : FString) (InResults : list FString) (acc : Parsed)
    : Checked Parsed :=
  match InResults with
  | [] => Returned acc
  | Line :: InResults =>
      match ParseLine Line InRepositoryRoot acc with
      | AssertionFailed => AssertionFailed
      | Returned acc => ParseLines ParseLine InRepositoryRoot InResults acc
      end
  end.

(** The second loop of [ParseStatusResults], over the files listed in the
    command; [bIsDirectory] and [FileExists] are [GetStatData(File).bIsDirectory]
    and [FPaths::FileExists]. *)
Fixpoint DefaultStates (bIsDirectory FileExists : FString -> bool)
    (InFiles : list FString) (acc : Parsed) : Parsed :=
  match InFiles with
  | [] => acc
  | File :: InFiles =>
      let '(OutStates, Reads) := acc in
      let acc :=
        if negb (bIsDirectory File)
           && negb (bool_decide (is_Some (FindState File OutStates)))
        then
          let FileState := NewState File in
          let FileState :=
            if FileExists File then set_WorkingCopyState Unchanged FileState
            else set_WorkingCopyState Unknown FileState in
          let FileState := set_TimeStamp (Now Reads) FileState in
          (TMapAdd File FileState OutStates, S Reads)
        else acc in
      DefaultStates bIsDirectory FileExists InFiles acc
  end.

(** [ParseStatusResults] and [ParseNameStatusResults], as functions of the
    lines, the files and the disk. *)
Definition ParseStatusLines (bIsDirectory FileExists : FString -> bool)
    (InRepositoryRoot : FString) (InFiles InResults : list FString) (acc : Parsed)
    : Checked Parsed :=
  match ParseLines ParseStatusLine InRepositoryRoot InResults acc with
  | AssertionFailed => AssertionFailed
  | Returned acc => Returned (DefaultStates bIsDirectory FileExists InFiles acc)
  end.

Definition ParseNameStatusLines (InRepositoryRoot : FString) (InResults : list FString)
    (acc : Parsed) : Checked Parsed :=
  ParseLines ParseNameStatusLine InRepositoryRoot InResults acc.

End Parsers.

(** Every state is filed under its own file name, and no file twice. *)
Definition KeyedByFilename (Map : list (FString * FGitSourceControlState)) : Prop :=
  Forall (fun It : FString * FGitSourceControlState => It.1 = GetFilename It.2) Map
  /\ NoDup Map.*1.

(** [FPaths::Combine] for examples. *)
Definition ExamplePathsCombine (Root Name : FString) : FString :=
  String.append Root (String.append "/" Name).

(** ** GitSourceControlUtils.cpp: [RunUpdateStatus] *)

(** The git command that asks for the last revision in which a file changed
    on the remote branch (the format is quoted in the command). *)
Definition LogLastChangedRevision : FString :=
  String.append "log --pretty=format:"
    (String "034" (String.append "%H" (String "034" " -1 "))).

Module Status.
Section WithBackend.
Context {B : GitBackend} (C : Sync.Settings).

(** What the status update needs besides git: whether locking is used,
    [FString::StartsWith], [GetStatData] (a directory, a valid path) and
    [FPaths::FileExists] on the working tree as the backend has it, and the
    parser of the lock list. *)
Context (bUseLocking : bool)
        (StartsWith : FString -> FString -> bool)
        (bIsDirectory bIsValid FileExistsInTree : FString -> World B -> bool)
        (ParseLocksResults : list FString -> World B ->
                             list (FString * FGitSourceControlState)).

(** The first loop: [FilesParam], [FilesToDiff] and [bIsDirUpdate]. *)
Fixpoint SelectFiles (w : World B) (InFiles : list FString)
    (acc : list FString * list FString * bool) : list FString * list FString * bool :=
  match InFiles with
  | [] => acc
  | File :: InFiles =>
      let '(FilesParam, FilesToDiff, bIsDirUpdate) := acc in
      if negb (StartsWith File (Sync.PathToRepositoryRoot C))
      then SelectFiles w InFiles acc
      else
        let FilesParam := FilesParam ++ [File] in
        if bIsDirectory File w
        then SelectFiles w InFiles (FilesParam, FilesToDiff, true)
        else if bIsValid File w
        then SelectFiles w InFiles (FilesParam, FilesToDiff ++ [File], bIsDirUpdate)
        else SelectFiles w InFiles (FilesParam, FilesToDiff, bIsDirUpdate)
  end.

(** "Local states are added and combined to regular statuses". *)
Fixpoint CombineLocalStates (StatusStates States : list (FString * FGitSourceControlState))
    (Log : list LogLine) : Checked (list (FString * FGitSourceControlState) * list LogLine) :=
  match StatusStates with
  | [] => Returned (States, Log)
  | It :: StatusStates =>
      match FindState It.1 States with
      | Some StateResult =>
          match CombineWithLocalState StateResult It.2 with
          | CheckFailed => AssertionFailed
          | Done This Lines =>
              CombineLocalStates StatusStates (TMapAdd It.1 This States) (Log ++ Lines)
          end
      | None => CombineLocalStates StatusStates (TMapAdd It.1 It.2 States) Log
      end
  end.

(** "Get all the saved states before applying remote diffs". *)
Fixpoint CombineSavedStates (LocalBranchSha : FString) (f : FGitSourceControlStatusFile.t)
    (w : World B) (States : list (FString * FGitSourceControlState)) (Log : list LogLine)
    : Checked (list (FString * FGitSourceControlState) * list LogLine) :=
  match States with
  | [] => Returned ([], Log)
  | It :: States =>
      let File := GetFilename It.2 in
      let SavedState := FGitSourceControlStatusFile.GetState f File in
      match CombineWithSavedState It.2 SavedState LocalBranchSha with
      | CheckFailed => AssertionFailed
      | Done This Lines =>
          let This :=
            if negb (EWorkingCopyState.eqb (WorkingCopyState This) Unknown)
            then if negb (bIsValid File w) then set_WorkingCopyState Deleted This else This
            else This in
          match CombineSavedStates LocalBranchSha f w States (Log ++ Lines) with
          | AssertionFailed => AssertionFailed
          | Returned (States, Log) => Returned ((It.1, This) :: States, Log)
          end
      end
  end.

(** "Process remote states". *)
Fixpoint CombineRemoteStates (RemoteBranchSha : FString)
    (RemoteStates States : list (FString * FGitSourceControlState))
    (Log : list LogLine) (s : Sync.State B)
    : Checked (list (FString * FGitSourceControlState) * list LogLine * Sync.State B) :=
  match RemoteStates with
  | [] => Returned (States, Log, s)
  | It :: RemoteStates =>
      match FindState It.1 States with
      | None => CombineRemoteStates RemoteBranchSha RemoteStates States Log s
      | Some StateResult =>
          let OldState := WorkingCopyState StateResult in
          match CombineWithRemoteState StateResult It.2 with
          | CheckFailed => AssertionFailed
          | Done This Lines =>
              let Resolved (s : Sync.State B) :=
                ResolveConflict (fun File => FileExistsInTree File (Sync.TheWorld s))
                  OldState This in
              let '(This, s) :=
                if negb (IsCurrent This)
                   && negb (String.eqb (CheckedOutRevision This) "0")
                then
                  if String.eqb (CheckedOutRevision This) RemoteBranchSha
                  then (Resolved s, s)
                  else
                    let '(bResult, StdOut, _, s) :=
                      Sync.Run LogLastChangedRevision [Sync.GetRemoteBranch C] [It.1] s in
                    match StdOut with
                    | [LastChangedRev] =>
                        if bResult then
                          let '(MergeBase, s) :=
                            Sync.GetMergeBase LastChangedRev (CheckedOutRevision This) s in
                          if String.eqb MergeBase LastChangedRev
                          then (Resolved s, s) else (This, s)
                        else (This, s)
                    | _ => (This, s)
                    end
                else (This, s) in
              CombineRemoteStates RemoteBranchSha RemoteStates
                (TMapAdd It.1 This States) (Log ++ Lines) s
          end
      end
  end.

(** "Combine Lock States". *)
Fixpoint CombineLockStates (LockStates States : list (FString * FGitSourceControlState))
    (Log : list LogLine) : Checked (list (FString * FGitSourceControlState) * list LogLine) :=
  match LockStates with
  | [] => Returned (States, Log)
  | It :: LockStates =>
      match FindState It.1 States with
      | Some StateResult =>
          match CombineWithLockedState StateResult It.2 with
          | CheckFailed => AssertionFailed
          | Done This Lines =>
              CombineLockStates LockStates (TMapAdd It.1 This States) (Log ++ Lines)
          end
      | None => CombineLockStates LockStates States Log
      end
  end.

(** What a run gives back: the returned flag, the lines added to
    [OutErrorMessages], the states added to [OutStates], the lines logged by
    the folds, and the state with the git commands run. *)
Record Report : Type := mkReport {
  bResult : bool;
  OutErrorMessages : list FString;
  OutStates : list FGitSourceControlState;
  Logged : list LogLine;
  After : Sync.State B
}.

Definition Failed (OutErrorMessages : list FString) (Logged : list LogLine)
    (s : Sync.State B) : Checked Report :=
  Returned (mkReport false OutErrorMessages [] Logged s).

(** The second half of [RunUpdateStatus], from the loop over the parsed
    status on: the four folds, then the value array. *)
Definition CombineStates (Errors : list FString) (LocalBranchSha RemoteBranchSha : FString)
    (StatusStates RemoteStates States : list (FString * FGitSourceControlState))
    (s : Sync.State B) : Checked Report :=
  match CombineLocalStates StatusStates States [] with
  | AssertionFailed => AssertionFailed
  | Returned (States, Log) =>
  match CombineSavedStates LocalBranchSha (Sync.StatusFile s) (Sync.TheWorld s) States Log with
  | AssertionFailed => AssertionFailed
  | Returned (States, Log) =>
  match CombineRemoteStates RemoteBranchSha RemoteStates States Log s with
  | AssertionFailed => AssertionFailed
  | Returned (States, Log, s) =>
      if bUseLocking then
        let '(bLocksResult, Results, ErrorMessages, s) :=
          Sync.Run "lfs locks -r" [Sync.Remote C] [] s in
        let Errors := Errors ++ ErrorMessages in
        if bLocksResult then
          let LockStates := ParseLocksResults Results (Sync.TheWorld s) in
          match CombineLockStates LockStates States Log with
          | AssertionFailed => AssertionFailed
          | Returned (States, Log) =>
              Returned (mkReport true Errors (map snd States) Log s)
          end
        else Failed Errors Log s
      else Returned (mkReport true Errors (map snd States) Log s)
  end
  end
  end.

(** [RunUpdateStatus]. *)
Definition RunUpdateStatus (InFiles : list FString) (s : Sync.State B) : Checked Report :=
  let '(FilesParam, FilesToDiff, bIsDirUpdate) :=
    SelectFiles (Sync.TheWorld s) InFiles ([], [], false) in
  if Nat.eqb (length FilesParam) 0 then Failed [] [] s else
  let RemoteBranch := Sync.GetRemoteBranch C in
  let '(MergeBase, s) := Sync.GetMergeBase (Sync.Branch C) RemoteBranch s in
  if IsEmpty MergeBase then
    Failed [String.append "Could not find merge-base for "
              (String.append (Sync.Branch C) (String.append " and " RemoteBranch))] [] s
  else
  let '(RemoteBranchSha, s) := Sync.GetCommitShaForBranch RemoteBranch s in
  let '(bRemoteStatusResult, RemoteStates, FilesParam, s) :=
    if negb (String.eqb RemoteBranchSha MergeBase) then
      let '(bRemoteStatusResult, StdOut, _, s) :=
        Sync.Run "diff --name-status" [MergeBase; RemoteBranch] [] s in
      if bRemoteStatusResult then
        let RemoteStates := ParseNameStatusResults B StdOut (Sync.TheWorld s) in
        (true, RemoteStates,
         if bIsDirUpdate
         then FilesParam ++ map (fun It => GetFilename It.2) RemoteStates
         else FilesParam,
         s)
      else (false, [], FilesParam, s)
    else (true, [], FilesParam, s) in
  if negb bRemoteStatusResult then Failed [] [] s else
  let '(LocalBranchSha, s) := Sync.GetCommitShaForBranch (Sync.Branch C) s in
  let '(bLocalResult, States, s) :=
    if (negb (Nat.eqb (length FilesToDiff) 0) || bIsDirUpdate)
       && negb (String.eqb LocalBranchSha MergeBase)
    then
      let FilesToDiff := if bIsDirUpdate then [] else FilesToDiff in
      let '(bLocalResult, StdOut, _, s) :=
        Sync.Run "diff --name-status" [MergeBase; Sync.Branch C] FilesToDiff s in
      if bLocalResult
      then (true, ParseNameStatusResults B StdOut (Sync.TheWorld s), s)
      else (false, [], s)
    else (true, [], s) in
  if negb bLocalResult then Failed [] [] s else
  let Parameters : list FString := if bIsDirUpdate then ["-u"] else [] in
  let '(bStatusResult, Results, ErrorMessages, s) :=
    Sync.Run "status --porcelain" Parameters FilesParam s in
  if negb bStatusResult then Failed ErrorMessages [] s else
  let StatusStates := ParseStatusResults B FilesParam Results (Sync.TheWorld s) in
  CombineStates ErrorMessages LocalBranchSha RemoteBranchSha StatusStates RemoteStates States s.

End WithBackend.
End Status.

(** The states a parser gives are each filed under their own file name. *)
Definition FiledByName (Map : list (FString * FGitSourceControlState)) : Prop :=
  Forall (fun It : FString * FGitSourceControlState => It.1 = GetFilename It.2) Map.

(** The git commands [RunUpdateStatus] runs; none of them changes the
    repository. *)
Definition StatusQueries : list FString :=
  ["merge-base"; "rev-parse --verify"; "diff --name-status"; "status --porcelain";
   LogLastChangedRevision; "lfs locks -r"].

(** Between two states of a run nothing changed but the repository and the
    list of git commands run, and the commands run in between were queries
    of the status update. *)
Definition OnlyQueried {B : GitBackend} (s s' : Sync.State B) : Prop :=
  Sync.SameLedgerAndResults s s'
  /\ Sync.Errors s' = Sync.Errors s /\ Sync.Infos s' = Sync.Infos s
  /\ exists l, Sync.Issued s' = Sync.Issued s ++ l
               /\ Forall (fun c => c ∈ StatusQueries) l.

(** ** GitSourceControlUtils.cpp: the parser of the lock list *)

Section LockParser.
(** [FPaths::Combine], [FString::TrimEndInline],
    [FString::TrimStartAndEndInline] and [FCString::Atoi]. *)
Context (PathsCombine : FString -> FString -> FString)
        (TrimEnd TrimStartAndEnd : FString -> FString) (Atoi : FString -> Z).

(** [ParseLocksLine]. *)
Definition ParseLocksLine (InLine InRepositoryRoot LocalUserName : FString)
    (OutStates : list (FString * FGitSourceControlState))
    : list (FString * FGitSourceControlState) :=
  if (Len InLine <? 2)%Z then OutStates else
  match FindChar "009" InLine with
  | None => OutStates
  | Some TabIndex =>
      let RelativeFilename := TrimEnd (Left TabIndex InLine) in
      let LockOwner := Mid (TabIndex + 1) InLine in
      match FindLastChar ":" LockOwner with
      | None => OutStates
      | Some IdIndex =>
          let LockId := Atoi (Mid (IdIndex + 1) LockOwner) in
          match FindChar "009" LockOwner with
          | None => OutStates
          | Some SecondTabIndex =>
              let LockOwner := TrimStartAndEnd (Left SecondTabIndex LockOwner) in
              let State := NewState (PathsCombine InRepositoryRoot RelativeFilename) in
              let State :=
                set_Lock LockOwner (negb (String.eqb LockOwner LocalUserName)) LockId
                  State in
              TMapAdd (GetFilename State) State OutStates
          end
      end
  end.

(** [ParseLocksResults]; [LockingUserName] is the one of the settings and
    [UserName] the one of the provider. *)
Definition ParseLocksResults (InRepositoryRoot LockingUserName UserName : FString)
    (InResults : list FString) : list (FString * FGitSourceControlState) :=
  fold_left
    (fun OutStates Line =>
       ParseLocksLine Line InRepositoryRoot
         (if IsEmpty LockingUserName then UserName else LockingUserName) OutStates)
    InResults [].

End LockParser.

(** ** A backend that parses with the parsers above *)

(** What a parser leaves in a map that was empty. *)
Definition ParsedStates (r : Checked Parsed) : list (FString * FGitSourceControlState) :=
  match r with
  | Returned acc => acc.1
  | AssertionFailed => []
  end.

Section ParsingBackend.
(** The git of a backend, with [ParseStatusResults] and
    [ParseNameStatusResults] as GitSourceControlUtils.cpp has them, each
    called on a map of its own; [bIsDirectory] and [FileExists] look at the
    working tree of the backend. *)
Context (B : GitBackend)
        (PathsCombine : FString -> FString -> FString) (Now : nat -> FDateTime)
        (InRepositoryRoot : FString)
        (bIsDirectory FileExists : FString -> World B -> bool).

Definition WithParsers : GitBackend :=
  {| World := World B;
     RunCommand := RunCommand B;
     ParseStatusResults := fun InFiles InResults w =>
       ParsedStates
         (ParseStatusLines PathsCombine Now (fun File => bIsDirectory File w)
            (fun File => FileExists File w) InRepositoryRoot InFiles InResults
            ([], 0%nat));
     ParseNameStatusResults := fun InResults w =>
       ParsedStates
         (ParseNameStatusLines PathsCombine Now InRepositoryRoot InResults ([], 0%nat));
     RunUpdateStatus := RunUpdateStatus B;
     Contains := Contains B |}.

End ParsingBackend.

(** A repository for examples, as git prints it: the remote branch has
    changed a.uasset and added c.uasset since the merge base, the local
    branch has changed a.uasset too, b.uasset is modified in the working
    tree, and b.uasset is locked by the user "kim". *)
Definition Tab : FString := String "009" "".

Definition ExampleRepository : GitBackend :=
  {| World := unit;
     RunCommand := fun Command Parameters Files w =>
       if String.eqb Command "merge-base" then (true, ["1f3a"], [], w)
       else if String.eqb Command "rev-parse --verify"
       then match Parameters with
            | [Name] => if String.eqb Name "master" then (true, ["5d2b"], [], w)
                        else (true, ["9c4e"], [], w)
            | _ => (false, [], [], w)
            end
       else if String.eqb Command "diff --name-status"
       then match Parameters with
            | [_; Name] =>
                if String.eqb Name "master"
                then (true, [String.append "M" (String.append Tab "Content/a.uasset")], [], w)
                else (true, [String.append "M" (String.append Tab "Content/a.uasset");
                             String.append "A" (String.append Tab "Content/c.uasset")], [], w)
            | _ => (false, [], [], w)
            end
       else if String.eqb Command "status --porcelain"
       then (true, [" M Content/b.uasset"], [], w)
       else if String.eqb Command "lfs locks -r"
       then (true, [String.append "Content/b.uasset"
                      (String.append Tab (String.append "kim" (String.append Tab "ID:7")))],
             [], w)
       else (true, [], [], w);
     ParseStatusResults := fun InFiles InResults w => [];
     ParseNameStatusResults := fun InResults w => [];
     RunUpdateStatus := fun InFiles StatusFile w => (true, [], [], w);
     Contains := fun Str SubStr => false |}.

Definition ExampleParsingBackend : GitBackend :=
  WithParsers ExampleRepository ExamplePathsCombine (fun n => Z.of_nat n) "/repo"
    (fun _ _ => false) (fun _ _ => true).

(** [ParseLocksResults] for examples: nothing to trim, the lock id read is
    7, and the local user is "kim". *)
Definition ExampleParseLocksResults (InResults : list FString)
    : list (FString * FGitSourceControlState) :=
  ParseLocksResults ExamplePathsCombine (fun s => s) (fun s => s) (fun _ => 7)
    "/repo" "" "kim" InResults.

Definition ExampleStatusSync : Sync.State ExampleParsingBackend :=
  Sync.mkSync (tt : World ExampleParsingBackend) [] ExamplePinnedLedger ∅ ∅ true
    [] [] [] [].

(** * Properties *)

(** ** Equality tests *)

Lemma EWorkingCopyState_eqb_eq (a b : EWorkingCopyState.Type_) :
  EWorkingCopyState.eqb a b = true <-> a = b.
Proof. destruct a, b; simpl; split; intros H; congruence. Qed.

Lemma EWorkingCopyState_eqb_refl (a : EWorkingCopyState.Type_) :
  EWorkingCopyState.eqb a a = true.
Proof. now destruct a. Qed.

Lemma same_file_check (This Other : FGitSourceControlState) :
  GetFilename Other = GetFilename This ->
  negb (String.eqb (GetFilename Other) (GetFilename This)) = false.
Proof. intros ->. now rewrite String.eqb_refl. Qed.

Lemma TakeMostRecentTimeStamp_state (This Other : FGitSourceControlState) :
  WorkingCopyState (TakeMostRecentTimeStamp This Other) = WorkingCopyState This
  /\ bOutdated (TakeMostRecentTimeStamp This Other) = bOutdated This
  /\ UserLocked (TakeMostRecentTimeStamp This Other) = UserLocked This
  /\ bLockedByOther (TakeMostRecentTimeStamp This Other) = bLockedByOther This.
Proof. unfold TakeMostRecentTimeStamp. now destruct (_ >? _). Qed.

(** ** The persisted state codes *)

(** C9. [ToChar] maps Added to 'A', Deleted to 'D', Modified to 'M',
    CheckedOut and ForcedWriteable to 'L', Conflicted to 'U', NotControlled
    to '?', Ignored to '!' and the other states to '0'; [FromChar] after
    [ToChar] gives back every state that has a code of its own, CheckedOut
    for ForcedWriteable and Unknown for the states collapsed into '0'. *)
Theorem ToChar_FromChar_roundtrip (State : EWorkingCopyState.Type_) :
  EWorkingCopyState.ToChar State =
    match State with
    | Added => TEXT "A"
    | Deleted => TEXT "D"
    | Modified => TEXT "M"
    | CheckedOut | ForcedWriteable => TEXT "L"
    | Conflicted => TEXT "U"
    | NotControlled => TEXT "?"
    | Ignored => TEXT "!"
    | Unknown | Unchanged | Outdated | Missing => TEXT "0"
    end
  /\ EWorkingCopyState.FromChar (EWorkingCopyState.ToChar State) =
    match State with
    | Added | Deleted | Modified | Conflicted | NotControlled | Ignored | CheckedOut => State
    | ForcedWriteable => CheckedOut
    | Unknown | Unchanged | Outdated | Missing => Unknown
    end.
Proof. destruct State; split; reflexivity. Qed.

(** ** The local fold *)

Lemma CombineWithLocalState_Done (This Other : FGitSourceControlState) :
  GetFilename Other = GetFilename This ->
  exists s',
    CombineWithLocalState This Other =
      Done s' (if LocalDiagnostic (WorkingCopyState Other) (WorkingCopyState This)
               then [UnhandledStateCombine (WorkingCopyState This) (WorkingCopyState Other)]
               else [])
    /\ WorkingCopyState s' =
         LocalPrecedence (WorkingCopyState Other) (WorkingCopyState This).
Proof.
  intros Hfile. unfold CombineWithLocalState, Unhandled.
  rewrite (same_file_check _ _ Hfile).
  destruct (TakeMostRecentTimeStamp_state This Other) as (Hw & _).
  revert Hw. generalize (TakeMostRecentTimeStamp This Other) as T. intros T Hw.
  rewrite Hw.
  destruct (WorkingCopyState Other), (WorkingCopyState This) eqn:HT;
    simpl; eexists; (split; [reflexivity | simpl; congruence]).
Qed.

(** C5 (as amended). For two states of the same file the local fold never
    stops in an assertion; the resulting working-copy state is given by the
    precedence table: (Added, Deleted) gives Modified, new Deleted gives
    Deleted, (Modified, Added) gives Added, (Modified, Modified) gives
    Modified, new Conflicted gives Conflicted; for every new state other
    than Added, Deleted, Modified and Conflicted the old state is kept unless
    it is Unknown, in which case the new state is taken; new Added with an
    old state other than Deleted and new Modified with an old state other
    than Added and Modified leave the old state. A diagnostic, and nothing
    more, is written for these last combinations and for new Outdated and
    Missing. *)
Theorem CombineWithLocalState_precedence (This Other : FGitSourceControlState) :
  GetFilename Other = GetFilename This ->
  exists s',
    CombineWithLocalState This Other =
      Done s' (if LocalDiagnostic (WorkingCopyState Other) (WorkingCopyState This)
               then [UnhandledStateCombine (WorkingCopyState This) (WorkingCopyState Other)]
               else [])
    /\ WorkingCopyState s' =
         match WorkingCopyState Other, WorkingCopyState This with
         | Added, Deleted => Modified
         | Deleted, _ => Deleted
         | Modified, Added => Added
         | Modified, Modified => Modified
         | Conflicted, _ => Conflicted
         | Added, Old | Modified, Old => Old
         | New, Unknown => New
         | _, Old => Old
         end
    /\ (LocalDiagnostic (WorkingCopyState Other) (WorkingCopyState This) = true <->
        match WorkingCopyState Other, WorkingCopyState This with
        | Added, Deleted | Modified, Added | Modified, Modified => False
        | Added, _ | Modified, _ | Outdated, _ | Missing, _ => True
        | _, _ => False
        end).
Proof.
  intros Hfile.
  destruct (CombineWithLocalState_Done This Other Hfile) as (s' & Hrun & Hstate).
  exists s'. split; [exact Hrun|]. split.
  - rewrite Hstate.
    destruct (WorkingCopyState Other), (WorkingCopyState This); reflexivity.
  - destruct (WorkingCopyState Other), (WorkingCopyState This); simpl;
      split; intros H; try exact I; try reflexivity; try discriminate; try contradiction.
Qed.

Lemma CombineWithLocalState_precedence_witness :
  GetFilename (ExampleState "/repo/a.uasset" Added)
    = GetFilename (ExampleState "/repo/a.uasset" Deleted)
  /\ exists s',
       CombineWithLocalState (ExampleState "/repo/a.uasset" Deleted)
                             (ExampleState "/repo/a.uasset" Added)
         = Done s' []
       /\ WorkingCopyState s' = Modified.
Proof.
  split; [reflexivity|].
  destruct (CombineWithLocalState_precedence
              (ExampleState "/repo/a.uasset" Deleted)
              (ExampleState "/repo/a.uasset" Added) eq_refl)
    as (s' & Hrun & Hstate & _).
  exists s'. split; [exact Hrun | exact Hstate].
Defined.

(** C5 (as stated) fails: a new state CheckedOut over an old state Unknown is
    none of the listed rows, yet the fold takes the new state and writes no
    diagnostic, where the table as specified leaves Unknown and reports. *)
Lemma CombineWithLocalState_not_specified_table :
  let This := ExampleState "/repo/a.uasset" Unknown in
  let Other := ExampleState "/repo/a.uasset" CheckedOut in
  SpecifiedLocalPrecedence (WorkingCopyState Other) (WorkingCopyState This)
    = (Unknown, true)
  /\ CombineWithLocalState This Other = Done (ExampleState "/repo/a.uasset" CheckedOut) []
  /\ ~ (exists s' log,
          CombineWithLocalState This Other = Done s' log
          /\ WorkingCopyState s' =
               (SpecifiedLocalPrecedence (WorkingCopyState Other) (WorkingCopyState This)).1
          /\ (log <> []) ).
Proof.
  simpl. split; [reflexivity|]. split; [reflexivity|].
  intros (s' & log & Hrun & Hstate & Hlog).
  vm_compute in Hrun. inversion Hrun; subst. now apply Hlog.
Qed.

(** ** The remote fold *)

Lemma CombineWithRemoteState_unfold (This Other : FGitSourceControlState) :
  GetFilename Other = GetFilename This ->
  CombineWithRemoteState This Other =
    let T := set_RemoteState (WorkingCopyState Other)
               (TakeMostRecentTimeStamp This Other) in
    match WorkingCopyState Other with
    | Added =>
        match WorkingCopyState This with
        | Deleted => Done (set_bOutdated false (set_WorkingCopyState Deleted T)) []
        | Unknown => Done (set_bOutdated true (set_WorkingCopyState Missing T)) []
        | CheckedOut | Modified | Added | NotControlled =>
            Done (set_bOutdated true (set_WorkingCopyState Conflicted T)) []
        | _ => Done T [Unhandled T Other]
        end
    | Deleted =>
        if EWorkingCopyState.eqb (WorkingCopyState This) Deleted
        then Done (set_WorkingCopyState Unknown T) []
        else Done (set_bOutdated true
                     (set_WorkingCopyState
                        (if IsModified This || IsCheckedOut This
                         then Conflicted else Outdated) T)) []
    | Modified =>
        if EWorkingCopyState.eqb (WorkingCopyState This) Deleted
        then Done T []
        else Done (set_bOutdated true
                     (set_WorkingCopyState
                        (if IsModified This || IsCheckedOut This
                         then Conflicted else Outdated) T)) []
    | Outdated | Missing | Conflicted | NotControlled | CheckedOut =>
        Done T [Unhandled T Other]
    | Ignored | Unknown | Unchanged | ForcedWriteable => Done T []
    end.
Proof.
  intros Hfile. unfold CombineWithRemoteState, ConflictedOrOutdated.
  rewrite (same_file_check _ _ Hfile).
  destruct (TakeMostRecentTimeStamp_state This Other) as (Hw & _ & Hu & Hl).
  assert (HM : IsModified (set_RemoteState (WorkingCopyState Other)
                 (TakeMostRecentTimeStamp This Other)) = IsModified This)
    by (unfold IsModified; simpl; now rewrite Hw).
  assert (HC : IsCheckedOut (set_RemoteState (WorkingCopyState Other)
                 (TakeMostRecentTimeStamp This Other)) = IsCheckedOut This)
    by (unfold IsCheckedOut, IsLockedByMe; simpl; now rewrite Hw, Hu, Hl).
  rewrite HM, HC. cbn [RemoteState set_RemoteState WorkingCopyState].
  rewrite Hw. cbv zeta. reflexivity.
Qed.

(** C2. In the remote fold, for two states of the same file: a remote
    Modified or Deleted over a local Modified, CheckedOut or Added gives
    Conflicted with [bOutdated] set; a remote Added over a local Deleted
    stays Deleted and is not outdated; a remote Modified or Deleted over a
    file with no local activity (neither modified nor checked out) gives
    Outdated; a remote Added over a file unknown locally gives Missing.  A
    remote Added over a local CheckedOut, Modified, Added or NotControlled
    gives Conflicted; over any other local state (Unchanged, Ignored,
    Outdated, Missing, Conflicted, ForcedWriteable) it changes neither the
    working-copy state nor [bOutdated] and reports the combination as
    unhandled. *)
Theorem CombineWithRemoteState_rules (This Other : FGitSourceControlState) :
  GetFilename Other = GetFilename This ->
  exists s',
    StateOf (CombineWithRemoteState This Other) = Some s'
    /\ RemoteState s' = WorkingCopyState Other
    /\ ((WorkingCopyState Other = Modified \/ WorkingCopyState Other = Deleted) ->
        (WorkingCopyState This = Modified \/ WorkingCopyState This = CheckedOut
         \/ WorkingCopyState This = Added) ->
        WorkingCopyState s' = Conflicted /\ bOutdated s' = true)
    /\ (WorkingCopyState Other = Added -> WorkingCopyState This = Deleted ->
        WorkingCopyState s' = Deleted /\ bOutdated s' = false)
    /\ ((WorkingCopyState Other = Modified \/ WorkingCopyState Other = Deleted) ->
        IsModified This = false -> IsCheckedOut This = false ->
        WorkingCopyState s' = Outdated /\ bOutdated s' = true)
    /\ (WorkingCopyState Other = Added -> WorkingCopyState This = Unknown ->
        WorkingCopyState s' = Missing /\ bOutdated s' = true)
    /\ (WorkingCopyState Other = Added ->
        (WorkingCopyState This = CheckedOut \/ WorkingCopyState This = Modified
         \/ WorkingCopyState This = Added \/ WorkingCopyState This = NotControlled) ->
        WorkingCopyState s' = Conflicted /\ bOutdated s' = true)
    /\ (WorkingCopyState Other = Added ->
        (WorkingCopyState This = Unchanged \/ WorkingCopyState This = Ignored
         \/ WorkingCopyState This = Outdated \/ WorkingCopyState This = Missing
         \/ WorkingCopyState This = Conflicted
         \/ WorkingCopyState This = ForcedWriteable) ->
        WorkingCopyState s' = WorkingCopyState This
        /\ bOutdated s' = bOutdated This
        /\ LogOf (CombineWithRemoteState This Other)
           = [UnhandledStateCombine (WorkingCopyState This) Added]).
Proof.
  intros Hfile. rewrite (CombineWithRemoteState_unfold _ _ Hfile). cbv zeta.
  destruct (TakeMostRecentTimeStamp_state This Other) as (HTw & HTo & _ & _).
  set (T := set_RemoteState _ _).
  assert (HR : forall v, RemoteState (set_WorkingCopyState v T) = WorkingCopyState Other)
    by reflexivity.
  assert (HW : WorkingCopyState T = WorkingCopyState This) by exact HTw.
  assert (HB : bOutdated T = bOutdated This) by exact HTo.
  unfold IsModified, IsCheckedOut, Unhandled.
  destruct (WorkingCopyState Other) eqn:HO, (WorkingCopyState This) eqn:HT;
    simpl; eexists; (split; [reflexivity|]); (split; [reflexivity|]);
    repeat split; intros; simpl;
    repeat match goal with
           | H : _ \/ _ |- _ => destruct H
           end;
    try discriminate; try reflexivity; rewrite ?HW, ?HO, ?HTw, ?HT;
    try assumption; try reflexivity;
    match goal with
    | H : IsLockedByMe This = false |- _ => rewrite H; reflexivity
    end.
Qed.

Lemma CombineWithRemoteState_rules_witness :
  GetFilename (ExampleState "/repo/c.uasset" Modified)
    = GetFilename (ExampleState "/repo/c.uasset" Modified)
  /\ exists s',
       StateOf (CombineWithRemoteState (ExampleState "/repo/c.uasset" Modified)
                                       (ExampleState "/repo/c.uasset" Modified))
         = Some s'
       /\ WorkingCopyState s' = Conflicted /\ bOutdated s' = true.
Proof.
  split; [reflexivity|].
  destruct (CombineWithRemoteState_rules
              (ExampleState "/repo/c.uasset" Modified)
              (ExampleState "/repo/c.uasset" Modified) eq_refl)
    as (s' & Hrun & _ & Hconflict & _).
  exists s'. split; [exact Hrun|].
  apply Hconflict; [left; reflexivity | left; reflexivity].
Defined.

(** C2 (as stated) fails: a file added on the remote that is present and
    unchanged locally is a remote-only change with no local activity, yet
    the fold leaves it Unchanged and not outdated, and reports the
    combination as unhandled; it is neither Outdated nor Missing. *)
Lemma CombineWithRemoteState_remote_Added_not_Outdated :
  let This := ExampleState "/repo/e.uasset" Unchanged in
  let Other := ExampleState "/repo/e.uasset" Added in
  GetFilename Other = GetFilename This
  /\ IsModified This = false /\ IsCheckedOut This = false
  /\ CombineWithRemoteState This Other
     = Done (set_RemoteState Added This) [UnhandledStateCombine Unchanged Added]
  /\ ~ (exists s',
          StateOf (CombineWithRemoteState This Other) = Some s'
          /\ (WorkingCopyState s' = Outdated \/ WorkingCopyState s' = Missing
              \/ bOutdated s' = true)).
Proof.
  simpl. split; [reflexivity|]. split; [reflexivity|]. split; [reflexivity|].
  split; [reflexivity|].
  intros (s' & Hrun & Hstate).
  vm_compute in Hrun. inversion Hrun; subst.
  destruct Hstate as [H | [H | H]]; discriminate H.
Qed.

(** ** The ledger fold *)

(** C3. In the ledger fold, when the ledger entry says Unknown or Unchanged,
    the file is locally modified and the entry pins a revision (not the
    sentinel "0") that is a strict ancestor of the head of the local branch,
    the working-copy state is forced to Unchanged (and the pin is taken
    over from the entry). *)
Theorem CombineWithSavedState_resync_artifact
    (IsAncestor : FString -> FString -> Prop)
    (This : FGitSourceControlState) (Saved : SavedState.t) (LocalBranchSha : FString) :
  SavedState.State Saved = Unknown \/ SavedState.State Saved = Unchanged ->
  IsModified This = true ->
  SavedState.CheckedOutRevision Saved <> "0" ->
  StrictAncestor IsAncestor (SavedState.CheckedOutRevision Saved) LocalBranchSha ->
  exists s',
    CombineWithSavedState This Saved LocalBranchSha = Done s' []
    /\ WorkingCopyState s' = Unchanged
    /\ CheckedOutRevision s' = SavedState.CheckedOutRevision Saved.
Proof.
  intros Hentry Hmod Hpin [_ Hstrict].
  unfold CombineWithSavedState.
  assert (HM : IsModified (set_CheckedOutRevision (SavedState.CheckedOutRevision Saved) This)
               = true) by exact Hmod.
  assert (H0 : String.eqb (SavedState.CheckedOutRevision Saved) "0" = false)
    by now apply String.eqb_neq.
  assert (H1 : String.eqb (SavedState.CheckedOutRevision Saved) LocalBranchSha = false)
    by now apply String.eqb_neq.
  cbn [CheckedOutRevision set_CheckedOutRevision].
  rewrite HM, H0, H1. simpl.
  destruct Hentry as [-> | ->]; eexists; repeat split.
Qed.

Lemma CombineWithSavedState_resync_artifact_witness :
  exists s',
    CombineWithSavedState (ExampleState "/repo/e.uasset" Modified)
      (SavedState.mk Unknown "1f3a") "9c4e" = Done s' []
    /\ WorkingCopyState s' = Unchanged
    /\ CheckedOutRevision s' = "1f3a".
Proof.
  apply (CombineWithSavedState_resync_artifact
           (fun a b => a = "1f3a" /\ (b = "1f3a" \/ b = "9c4e"))
           (ExampleState "/repo/e.uasset" Modified)
           (SavedState.mk Unknown "1f3a") "9c4e").
  - left; reflexivity.
  - reflexivity.
  - simpl; discriminate.
  - split; [split; [reflexivity | right; reflexivity] | simpl; discriminate].
Defined.

(** ** The lock fold *)

Lemma CombineWithLockedState_unfold (This Other : FGitSourceControlState) :
  GetFilename Other = GetFilename This ->
  CombineWithLockedState This Other =
    let L := set_Lock (UserLocked Other) (bLockedByOther Other) (LockId Other) This in
    if negb (bLockedByOther Other) && negb (IsEmpty (UserLocked Other)) then
      match WorkingCopyState This with
      | Added | Deleted | Modified | Outdated | NotControlled | Conflicted | CheckedOut =>
          Done L []
      | Ignored | Unknown | Unchanged => Done (set_WorkingCopyState CheckedOut L) []
      | Missing | ForcedWriteable => Done L [Unhandled L Other]
      end
    else if IsModified L || IsCheckedOut L
    then Done (set_WorkingCopyState ForcedWriteable L) []
    else Done L [].
Proof.
  intros Hfile. unfold CombineWithLockedState.
  now rewrite (same_file_check _ _ Hfile).
Qed.

(** C6. In the lock fold, for two states of the same file.  When the lock is
    held by the local identity, Unknown and Unchanged become CheckedOut and
    Added, Deleted, Modified, Outdated, Conflicted, NotControlled and
    CheckedOut stay as they are.  When the lock is held by another identity,
    the state becomes ForcedWriteable if and only if the file is locally
    modified or checked out; otherwise the working-copy state stays as it
    is, and in both cases the lock is reported by [IsCheckedOutOther]. *)
Theorem CombineWithLockedState_rules (This Other : FGitSourceControlState) :
  GetFilename Other = GetFilename This ->
  IsEmpty (UserLocked Other) = false ->
  let L := set_Lock (UserLocked Other) (bLockedByOther Other) (LockId Other) This in
  exists s',
    StateOf (CombineWithLockedState This Other) = Some s'
    /\ UserLocked s' = UserLocked Other
    /\ bLockedByOther s' = bLockedByOther Other
    /\ (bLockedByOther Other = false ->
        IsLockedByMe s' = true
        /\ (WorkingCopyState This = Unknown \/ WorkingCopyState This = Unchanged ->
            WorkingCopyState s' = CheckedOut)
        /\ (In (WorkingCopyState This)
              [Added; Deleted; Modified; Outdated; Conflicted; NotControlled; CheckedOut] ->
            s' = L))
    /\ (bLockedByOther Other = true ->
        IsCheckedOutOther s' = true
        /\ (WorkingCopyState s' = ForcedWriteable <->
            IsModified L || IsCheckedOut L = true)
        /\ (IsModified L || IsCheckedOut L = false -> s' = L)).
Proof.
  intros Hfile Huser L.
  rewrite (CombineWithLockedState_unfold _ _ Hfile). cbv zeta. fold L.
  rewrite Huser.
  assert (HLu : UserLocked L = UserLocked Other) by reflexivity.
  assert (HLb : bLockedByOther L = bLockedByOther Other) by reflexivity.
  assert (HLw : WorkingCopyState L = WorkingCopyState This) by reflexivity.
  destruct (bLockedByOther Other) eqn:Hother; simpl.
  - destruct (IsModified L || IsCheckedOut L) eqn:Hdirty; simpl;
      eexists; (split; [reflexivity|]); simpl;
      rewrite ?HLu, ?HLb; repeat split; try discriminate; try reflexivity;
      unfold IsCheckedOutOther; simpl; rewrite ?HLu, ?HLb, ?Huser; try reflexivity.
    intros HF. unfold IsModified, IsCheckedOut in Hdirty.
    change (WorkingCopyState L) with (WorkingCopyState This) in Hdirty.
    change (WorkingCopyState L) with (WorkingCopyState This) in HF.
    rewrite HF in Hdirty. discriminate.
  - destruct (WorkingCopyState This) eqn:HT; simpl;
      eexists; (split; [reflexivity|]); simpl;
      rewrite ?HLu, ?HLb; repeat split; try discriminate; try reflexivity;
      unfold IsLockedByMe; simpl; rewrite ?HLu, ?HLb, ?Huser; try reflexivity;
      intros; simpl in *; intuition discriminate.
Qed.

Lemma CombineWithLockedState_rules_witness :
  let This := ExampleState "/repo/d.uasset" Modified in
  let Other := set_Lock "identity X" true 7 (NewState "/repo/d.uasset") in
  GetFilename Other = GetFilename This
  /\ IsEmpty (UserLocked Other) = false
  /\ exists s',
       StateOf (CombineWithLockedState This Other) = Some s'
       /\ WorkingCopyState s' = ForcedWriteable
       /\ IsCheckedOutOther s' = true.
Proof.
  intros This Other.
  split; [reflexivity|]. split; [reflexivity|].
  destruct (CombineWithLockedState_rules This Other eq_refl eq_refl)
    as (s' & Hrun & _ & _ & _ & Hother).
  destruct (Hother eq_refl) as (Hinfo & Hforced & _).
  exists s'. split; [exact Hrun|]. split; [|exact Hinfo].
  apply Hforced. reflexivity.
Defined.

(** ** Publication to the cache *)

Lemma State_eq_SameComparedFields (a b : FGitSourceControlState) :
  State_eq a b = true <-> SameComparedFields a b.
Proof.
  unfold State_eq, SameComparedFields.
  rewrite !andb_true_iff, !EWorkingCopyState_eqb_eq, !Bool.eqb_true_iff, !String.eqb_eq.
  tauto.
Qed.

Lemma State_neq_SameComparedFields (a b : FGitSourceControlState) :
  State_neq a b = true <-> ~ SameComparedFields a b.
Proof.
  unfold State_neq. rewrite negb_true_iff, <- State_eq_SameComparedFields.
  destruct (State_eq a b); split; intros H; congruence.
Qed.

Lemma UpdateCachedStates_loop_app Now (l1 l2 : list FGitSourceControlState) acc :
  UpdateCachedStates_loop Now (l1 ++ l2) acc
  = UpdateCachedStates_loop Now l2 (UpdateCachedStates_loop Now l1 acc).
Proof. revert acc. induction l1 as [|x l1 IH]; intros acc; simpl; [reflexivity | apply IH]. Qed.

Lemma CacheBefore_S Now (InStates : list FGitSourceControlState) StateCache i InState :
  InStates !! i = Some InState ->
  CacheBefore Now InStates StateCache (S i)
  = UpdateCachedState Now InState (CacheBefore Now InStates StateCache i).
Proof.
  intros Hi. unfold CacheBefore.
  rewrite (take_S_r _ _ _ Hi), UpdateCachedStates_loop_app. reflexivity.
Qed.

Lemma UpdateCachedState_cases Now InState (acc : gmap string FGitSourceControlState * nat) :
  let Cached := CachedState (AbsoluteFilename InState) acc.1 in
  let Cache0 := (GetStateInternal (AbsoluteFilename InState) acc.1).2 in
  (State_neq Cached InState = false /\ UpdateCachedState Now InState acc = (Cache0, acc.2))
  \/ (State_neq Cached InState = true
      /\ UpdateCachedState Now InState acc =
           (<[AbsoluteFilename InState :=
                set_History (History Cached) (set_TimeStamp (Now acc.2) InState)]> Cache0,
            S acc.2)).
Proof.
  destruct acc as [c n]. unfold UpdateCachedState, CachedState. simpl.
  destruct (GetStateInternal (AbsoluteFilename InState) c) as [State c0] eqn:HG. simpl.
  destruct (State_neq State InState); [right | left]; split; reflexivity.
Qed.

Lemma GetStateInternal_lookup Filename (c : gmap string FGitSourceControlState) :
  (GetStateInternal Filename c).2 !! Filename = Some (CachedState Filename c).
Proof.
  unfold CachedState, GetStateInternal.
  destruct (c !! Filename) eqn:H; simpl; [exact H | apply lookup_insert_eq].
Qed.

Lemma CachedState_History Filename (c : gmap string FGitSourceControlState) :
  History (CachedState Filename c)
  = match c !! Filename with Some s => History s | None => [] end.
Proof. unfold CachedState, GetStateInternal. now destruct (c !! Filename). Qed.

Lemma UpdateCachedState_History Now InState acc Filename :
  History (CachedState Filename (UpdateCachedState Now InState acc).1)
  = History (CachedState Filename acc.1).
Proof.
  rewrite !CachedState_History.
  pose proof (GetStateInternal_lookup (AbsoluteFilename InState) acc.1) as Hk.
  assert (Hother : forall F, F <> AbsoluteFilename InState ->
            (GetStateInternal (AbsoluteFilename InState) acc.1).2 !! F = acc.1 !! F).
  { intros F HF. unfold GetStateInternal.
    destruct (acc.1 !! AbsoluteFilename InState); simpl; [reflexivity|].
    now rewrite lookup_insert_ne. }
  assert (Hhist : History (CachedState (AbsoluteFilename InState) acc.1)
                  = match acc.1 !! AbsoluteFilename InState with
                    | Some s => History s | None => [] end)
    by apply CachedState_History.
  destruct (decide (Filename = AbsoluteFilename InState)) as [-> | Hne].
  - destruct (UpdateCachedState_cases Now InState acc) as [[_ ->] | [_ ->]]; simpl.
    + now rewrite Hk, Hhist.
    + now rewrite lookup_insert_eq.
  - destruct (UpdateCachedState_cases Now InState acc) as [[_ ->] | [_ ->]]; simpl.
    + now rewrite Hother.
    + rewrite lookup_insert_ne by congruence. now rewrite Hother.
Qed.

Lemma UpdateCachedStates_loop_History Now InStates acc Filename :
  History (CachedState Filename (UpdateCachedStates_loop Now InStates acc).1)
  = History (CachedState Filename acc.1).
Proof.
  revert acc. induction InStates as [|x l IH]; intros acc; simpl; [reflexivity|].
  rewrite IH. apply UpdateCachedState_History.
Qed.

Lemma UpdateCachedState_count Now InState acc :
  (UpdateCachedState Now InState acc).2
  = if State_neq (CachedState (AbsoluteFilename InState) acc.1) InState
    then S acc.2 else acc.2.
Proof.
  destruct (UpdateCachedState_cases Now InState acc) as [[-> ->] | [-> ->]]; reflexivity.
Qed.

Lemma UpdateCachedStates_loop_count_le Now InStates acc :
  (acc.2 <= (UpdateCachedStates_loop Now InStates acc).2)%nat.
Proof.
  revert acc. induction InStates as [|x l IH]; intros acc; simpl; [lia|].
  specialize (IH (UpdateCachedState Now x acc)).
  rewrite UpdateCachedState_count in IH.
  destruct (State_neq _ x); lia.
Qed.

Lemma UpdateCachedStates_loop_counted Now InStates acc :
  (acc.2 < (UpdateCachedStates_loop Now InStates acc).2)%nat <->
  exists i InState,
    InStates !! i = Some InState
    /\ State_neq (CachedState (AbsoluteFilename InState)
                    (UpdateCachedStates_loop Now (take i InStates) acc).1) InState = true.
Proof.
  revert acc. induction InStates as [|x l IH]; intros acc; simpl.
  - split; [lia | intros (i & y & Hi & _); discriminate].
  - pose proof (UpdateCachedState_count Now x acc) as Hc.
    pose proof (UpdateCachedStates_loop_count_le Now l (UpdateCachedState Now x acc)) as Hle.
    split.
    + intros Hlt.
      destruct (State_neq (CachedState (AbsoluteFilename x) acc.1) x) eqn:Hx.
      * exists 0%nat, x. split; [reflexivity | exact Hx].
      * rewrite <- Hc in Hlt. apply IH in Hlt as (i & y & Hi & Hy).
        exists (S i), y. split; [exact Hi | exact Hy].
    + intros (i & y & Hi & Hy). destruct i as [|i]; simpl in *.
      * injection Hi as ->. rewrite Hy in Hc. lia.
      * assert (Hlt : ((UpdateCachedState Now x acc).2
                       < (UpdateCachedStates_loop Now l (UpdateCachedState Now x acc)).2)%nat)
          by (apply IH; exists i, y; split; assumption).
        destruct (State_neq _ x); lia.
Qed.

Lemma GetStateInternal_other Filename F (c : gmap string FGitSourceControlState) :
  F <> Filename -> (GetStateInternal Filename c).2 !! F = c !! F.
Proof.
  intros HF. unfold GetStateInternal.
  destruct (c !! Filename); simpl; [reflexivity|]. now rewrite lookup_insert_ne.
Qed.

Lemma UpdateCachedState_other Now InState acc F :
  F <> AbsoluteFilename InState ->
  (UpdateCachedState Now InState acc).1 !! F = acc.1 !! F.
Proof.
  intros HF.
  destruct (UpdateCachedState_cases Now InState acc) as [[_ ->] | [_ ->]]; simpl.
  - now apply GetStateInternal_other.
  - rewrite lookup_insert_ne by congruence. now apply GetStateInternal_other.
Qed.

Lemma UpdateCachedStates_loop_other Now InStates acc F :
  F ∉ AbsoluteFilename <$> InStates ->
  (UpdateCachedStates_loop Now InStates acc).1 !! F = acc.1 !! F.
Proof.
  revert acc. induction InStates as [|x l IH]; intros acc HF; simpl; [reflexivity|].
  rewrite fmap_cons, not_elem_of_cons in HF. destruct HF as (Hx & Hl).
  rewrite IH by assumption. now apply UpdateCachedState_other.
Qed.

Lemma UpdateCachedStates_unfold Now InStates
    (StateCache : gmap string FGitSourceControlState) :
  UpdateCachedStates Now InStates StateCache
  = (Nat.ltb 0 (UpdateCachedStates_loop Now InStates (StateCache, 0%nat)).2,
     (UpdateCachedStates_loop Now InStates (StateCache, 0%nat)).1).
Proof.
  unfold UpdateCachedStates.
  now destruct (UpdateCachedStates_loop Now InStates (StateCache, 0%nat)).
Qed.

(** C7. [UpdateCachedStates] goes through the new states in order, from
    the cache it is given; the cache it returns is the one reached after the
    last of them.  The state cached for the file is replaced only when the
    new state differs from it on one of the fields WorkingCopyState,
    RemoteState, bOutdated, bStaged, CheckedOutRevision, AbsoluteFilename,
    UserLocked and bLockedByOther, the comparison not looking at TimeStamp,
    LockId and History; the entry that replaces it is the new state with the
    history that was cached and a fresh time stamp; the entries of the other
    files are left as they are, and the entry of the file is the one found in
    the returned cache when no later state names the file; the entry of a
    file that no state names is the one of the cache given, and no call
    changes the history cached for any file; the function returns true
    exactly when some entry was replaced. *)
Theorem UpdateCachedStates_publishes_differences
    (Now : nat -> FDateTime) (InStates : list FGitSourceControlState)
    (StateCache : gmap string FGitSourceControlState) :
  (forall a b, State_neq a b = true <-> ~ SameComparedFields a b)
  /\ (forall a b History' TimeStamp' LockId',
      State_eq (set_History History' (set_TimeStamp TimeStamp'
                  (set_Lock (UserLocked a) (bLockedByOther a) LockId' a))) b
      = State_eq a b)
  /\ CacheBefore Now InStates StateCache 0 = (StateCache, 0%nat)
  /\ (forall i InState,
      InStates !! i = Some InState ->
      let Before := CacheBefore Now InStates StateCache i in
      let After := CacheBefore Now InStates StateCache (S i) in
      let Cached := CachedState (AbsoluteFilename InState) Before.1 in
      (SameComparedFields Cached InState ->
       After.1 !! AbsoluteFilename InState = Some Cached /\ After.2 = Before.2)
      /\ (~ SameComparedFields Cached InState ->
          After.1 !! AbsoluteFilename InState
            = Some (set_History (History Cached) (set_TimeStamp (Now Before.2) InState))
          /\ After.2 = S Before.2)
      /\ (forall F, F <> AbsoluteFilename InState -> After.1 !! F = Before.1 !! F)
      /\ (AbsoluteFilename InState ∉ AbsoluteFilename <$> drop (S i) InStates ->
          (UpdateCachedStates Now InStates StateCache).2 !! AbsoluteFilename InState
          = After.1 !! AbsoluteFilename InState))
  /\ UpdateCachedStates Now InStates StateCache
     = (Nat.ltb 0 (CacheBefore Now InStates StateCache (length InStates)).2,
        (CacheBefore Now InStates StateCache (length InStates)).1)
  /\ ((UpdateCachedStates Now InStates StateCache).1 = true <->
      exists i InState,
        InStates !! i = Some InState
        /\ ~ SameComparedFields
               (CachedState (AbsoluteFilename InState)
                  (CacheBefore Now InStates StateCache i).1) InState)
  /\ (forall F,
      F ∉ AbsoluteFilename <$> InStates ->
      (UpdateCachedStates Now InStates StateCache).2 !! F = StateCache !! F)
  /\ (forall Filename,
      History (CachedState Filename (UpdateCachedStates Now InStates StateCache).2)
      = History (CachedState Filename StateCache)).
Proof.
  split; [intros; apply State_neq_SameComparedFields|].
  split; [reflexivity|].
  split; [reflexivity|].
  split; [|split; [|split; [|split]]].
  - intros i InState Hi Before After Cached.
    assert (Hlast : AbsoluteFilename InState ∉ AbsoluteFilename <$> drop (S i) InStates ->
              (UpdateCachedStates Now InStates StateCache).2 !! AbsoluteFilename InState
              = After.1 !! AbsoluteFilename InState).
    { intros Hlater. rewrite UpdateCachedStates_unfold. cbn [snd].
      rewrite <- (take_drop (S i) InStates) at 1.
      rewrite UpdateCachedStates_loop_app.
      now rewrite UpdateCachedStates_loop_other. }
    assert (Hframe : forall F, F <> AbsoluteFilename InState ->
              After.1 !! F = Before.1 !! F).
    { intros F HF. subst After. rewrite (CacheBefore_S _ _ _ _ _ Hi).
      now apply UpdateCachedState_other. }
    revert Hlast Hframe.
    subst After. rewrite (CacheBefore_S _ _ _ _ _ Hi). fold Before.
    intros Hlast Hframe.
    destruct (UpdateCachedState_cases Now InState Before) as [[Hneq Hrun] | [Hneq Hrun]];
      rewrite Hrun in Hlast, Hframe |- *; simpl; fold Cached in Hneq |- *.
    + assert (Hsame : SameComparedFields Cached InState).
      { apply State_eq_SameComparedFields. unfold State_neq in Hneq.
        now apply negb_false_iff in Hneq. }
      split; [intros _ | split; [intros Hdiff; contradiction | split; assumption]].
      split; [apply GetStateInternal_lookup | reflexivity].
    + apply State_neq_SameComparedFields in Hneq.
      split; [intros Hsame; contradiction | split; [intros _ | split; assumption]].
      split; [apply lookup_insert_eq | reflexivity].
  - rewrite UpdateCachedStates_unfold. unfold CacheBefore.
    now rewrite take_ge by lia.
  - unfold UpdateCachedStates.
    pose proof (UpdateCachedStates_loop_counted Now InStates (StateCache, 0%nat)) as Hcount.
    destruct (UpdateCachedStates_loop Now InStates (StateCache, 0%nat)) as [c n] eqn:Hrun.
    simpl in *. rewrite Nat.ltb_lt, Hcount.
    split; intros (i & InState & Hi & Hdiff); exists i, InState; (split; [exact Hi|]).
    + now apply State_neq_SameComparedFields.
    + now apply State_neq_SameComparedFields.
  - intros F HF. rewrite UpdateCachedStates_unfold. cbn [snd].
    now rewrite UpdateCachedStates_loop_other.
  - intros Filename. unfold UpdateCachedStates.
    pose proof (UpdateCachedStates_loop_History Now InStates (StateCache, 0%nat) Filename) as H.
    destruct (UpdateCachedStates_loop Now InStates (StateCache, 0%nat)) as [c n].
    exact H.
Qed.

Lemma UpdateCachedStates_publishes_differences_witness :
  let Cached := set_History ["9c4e"; "1f3a"] (ExampleState "/repo/a.uasset" Unchanged) in
  let Kept := ExampleState "/repo/b.uasset" CheckedOut in
  let InState := ExampleState "/repo/a.uasset" Modified in
  let StateCache : gmap string FGitSourceControlState :=
    {["/repo/a.uasset" := Cached; "/repo/b.uasset" := Kept]} in
  [InState] !! 0%nat = Some InState
  /\ ~ SameComparedFields
         (CachedState (AbsoluteFilename InState)
            (CacheBefore (fun _ => 42) [InState] StateCache 0).1) InState
  /\ (CacheBefore (fun _ => 42) [InState] StateCache 1).1 !! "/repo/a.uasset"
     = Some (set_History ["9c4e"; "1f3a"] (set_TimeStamp 42 InState))
  /\ (UpdateCachedStates (fun _ => 42) [InState] StateCache).2 !! "/repo/a.uasset"
     = Some (set_History ["9c4e"; "1f3a"] (set_TimeStamp 42 InState))
  /\ (UpdateCachedStates (fun _ => 42) [InState] StateCache).2 !! "/repo/b.uasset"
     = Some Kept
  /\ (UpdateCachedStates (fun _ => 42) [InState] StateCache).1 = true.
Proof.
  intros Cached Kept InState StateCache.
  assert (Hdiff : ~ SameComparedFields
                      (CachedState (AbsoluteFilename InState)
                         (CacheBefore (fun _ => 42) [InState] StateCache 0).1) InState).
  { intros (H & _). vm_compute in H. discriminate. }
  destruct (UpdateCachedStates_publishes_differences (fun _ => 42) [InState] StateCache)
    as (_ & _ & _ & Hstep & _ & Hret & Hother & _).
  destruct (Hstep 0%nat InState eq_refl) as (_ & Hreplace & _ & Hlast).
  destruct (Hreplace Hdiff) as (Hentry & _).
  split; [reflexivity|]. split; [exact Hdiff|]. split; [exact Hentry|].
  split; [|split].
  - etrans; [apply Hlast | exact Hentry].
    cbn. apply not_elem_of_nil.
  - etrans; [apply Hother | reflexivity].
    cbn. rewrite list_elem_of_singleton. discriminate.
  - apply Hret. exists 0%nat, InState. split; [reflexivity | exact Hdiff].
Defined.

(** ** The command queue *)

Lemma Tick_unfold (Polls : FGitSourceControlCommand -> nat) (fuel : nat)
    (p : FGitSourceControlProvider) :
  Tick Polls fuel p
  = Tick_body Polls
      (match fuel with
       | O => fun _ => None
       | S fuel => Tick Polls fuel
       end) p.
Proof. destruct fuel; reflexivity. Qed.

Lemma set_CommandQueue_same (p : FGitSourceControlProvider) :
  set_CommandQueue (CommandQueue p) p = p.
Proof. now destruct p. Qed.

Lemma Completed_first (pre post : list FGitSourceControlCommand)
    (c : FGitSourceControlCommand) :
  Completed pre = [] -> bExecuteProcessed c = true ->
  Completed (pre ++ c :: post) = c :: Completed post.
Proof.
  intros Hpre Hc. unfold Completed in *. rewrite List.filter_app, Hpre. simpl.
  now rewrite Hc.
Qed.

Lemma queue_split (q : list FGitSourceControlCommand) :
  Completed q = []
  \/ exists pre c post,
       q = pre ++ c :: post /\ Completed pre = [] /\ bExecuteProcessed c = true.
Proof.
  induction q as [|x q IH]; [now left|].
  destruct (bExecuteProcessed x) eqn:Hx.
  - right. exists [], x, q. repeat split; assumption.
  - destruct IH as [Hnone | (pre & c & post & -> & Hpre & Hc)].
    + left. unfold Completed. simpl. now rewrite Hx.
    + right. exists (x :: pre), c, post. repeat split; try assumption.
      unfold Completed. simpl. now rewrite Hx.
Qed.

Lemma RemoveAt_middle {A} (pre post : list A) (c : A) :
  RemoveAt (length pre) (pre ++ c :: post) = pre ++ post.
Proof.
  unfold RemoveAt.
  rewrite take_app_length.
  replace (S (length pre)) with (length (pre ++ [c])) by (rewrite length_app; simpl; lia).
  replace (pre ++ c :: post) with ((pre ++ [c]) ++ post) by now rewrite <- app_assoc.
  now rewrite drop_app_length.
Qed.

Section QueueProperties.
Variable Polls : FGitSourceControlCommand -> nat.
Variable Reentered : FGitSourceControlProvider -> Ran.

Lemma Tick_loop_first_completed (pre post : list FGitSourceControlCommand)
    (c : FGitSourceControlCommand) (p : FGitSourceControlProvider) (CommandIndex : nat) :
  Completed pre = [] ->
  bExecuteProcessed c = true ->
  Tick_loop Polls Reentered CommandIndex (pre ++ c :: post) p
  = ProcessCommand Polls Reentered (CommandIndex + length pre) c p.
Proof.
  revert CommandIndex. induction pre as [|x pre IH]; intros CommandIndex Hpre Hc; simpl.
  - rewrite Hc. f_equal. lia.
  - unfold Completed in Hpre. simpl in Hpre.
    destruct (bExecuteProcessed x) eqn:Hx; [discriminate|].
    rewrite IH by assumption. f_equal. lia.
Qed.

Lemma Tick_loop_none_completed (q : list FGitSourceControlCommand)
    (p : FGitSourceControlProvider) (CommandIndex : nat) :
  Completed q = [] ->
  Tick_loop Polls Reentered CommandIndex q p = Some (p, false, []).
Proof.
  revert CommandIndex. induction q as [|x q IH]; intros CommandIndex Hq; simpl.
  - reflexivity.
  - unfold Completed in Hq. simpl in Hq.
    destruct (bExecuteProcessed x) eqn:Hx; [discriminate|]. now apply IH.
Qed.

(** Asynchronous calls of [Execute] add their commands at the end of the
    queue, in the order of the calls, and call nothing. *)
Lemma ExecuteAll_asynchronous (Calls : list FGitSourceControlCommand)
    (p : FGitSourceControlProvider) :
  Asynchronous Calls ->
  ExecuteAll Polls Reentered Calls p
  = Some (set_CommandQueue (CommandQueue p ++ Calls) p, []).
Proof.
  intros Hasync. revert p. induction Hasync as [|c Calls Hc _ IH]; intros p; simpl.
  - now rewrite app_nil_r, set_CommandQueue_same.
  - unfold Execute. rewrite Hc. cbn [andThen]. rewrite IH.
    unfold IssueCommand, set_CommandQueue. simpl. now rewrite <- app_assoc.
Qed.

Lemma ProcessCommand_asynchronous CommandIndex c p :
  Asynchronous (ExecuteCalls c (ResultOf c)) ->
  exists p' b Events,
    ProcessCommand Polls Reentered CommandIndex c p = Some (p', b, Events)
    /\ CommandQueue p'
       = RemoveAt CommandIndex (CommandQueue p) ++ ExecuteCalls c (ResultOf c)
    /\ CountEvents IsRemoval Events = 1%nat
    /\ CountEvents IsAppliedResults Events = 1%nat
    /\ CountEvents IsCompletionDelegate Events
       = match OperationCompleteDelegate c with Some _ => 1%nat | None => 0%nat end
    /\ In (RemovedFromQueue CommandIndex (Operation c)) Events.
Proof.
  intros Hasync. unfold ProcessCommand, ExecuteIfBound.
  cbn [Data set_CommandQueue CommandQueue bConnected].
  destruct (UpdateStates (Worker c) (Data p)) as [b data].
  fold (ResultOf c). rewrite (ExecuteAll_asynchronous _ _ Hasync).
  eexists _, _, _. split; [reflexivity|]. split; [reflexivity|].
  unfold CountEvents.
  destruct (OperationCompleteDelegate c), (bAutoDelete c); simpl; repeat split; auto.
Qed.

Lemma Tick_body_queue_events p p' b Events :
  Tick_loop Polls Reentered 0 (CommandQueue p) p = Some (p', b, Events) ->
  exists p'' Events',
    Tick_body Polls Reentered p = Some (p'', Events')
    /\ CommandQueue p'' = CommandQueue p'
    /\ (forall f, f StateChangedBroadcast = false ->
          CountEvents f Events' = CountEvents f Events)
    /\ (forall e, In e Events -> In e Events').
Proof.
  intros Hrun. unfold Tick_body. rewrite Hrun.
  destruct (b || bForceBroadcastUpdateNextTick (Data p')); eexists _, _;
    (split; [reflexivity|]); (split; [reflexivity|]); split.
  - intros f Hf. unfold CountEvents. rewrite List.filter_app. simpl. rewrite Hf.
    now rewrite app_nil_r.
  - intros e He. apply in_or_app. now left.
  - reflexivity.
  - intros e He. exact He.
Qed.

(** What one [Tick] does when the delegate of the command it handles calls
    [Execute] asynchronously only, whatever [Tick] does when it is called
    from a delegate. *)
Lemma Tick_body_at_most_one (p : FGitSourceControlProvider) :
  (forall c, head (Completed (CommandQueue p)) = Some c ->
             Asynchronous (ExecuteCalls c (ResultOf c))) ->
  exists p' Events,
    Tick_body Polls Reentered p = Some (p', Events)
    /\ (CountEvents IsRemoval Events <= 1)%nat
    /\ (CountEvents IsAppliedResults Events <= 1)%nat
    /\ (CountEvents IsCompletionDelegate Events <= 1)%nat
    /\ (forall pre c post,
        CommandQueue p = pre ++ c :: post ->
        Completed pre = [] ->
        bExecuteProcessed c = true ->
        CommandQueue p' = pre ++ post ++ ExecuteCalls c (ResultOf c)
        /\ Completed (CommandQueue p')
           = Completed post ++ Completed (ExecuteCalls c (ResultOf c))
        /\ CountEvents IsRemoval Events = 1%nat
        /\ CountEvents IsAppliedResults Events = 1%nat
        /\ In (RemovedFromQueue (length pre) (Operation c)) Events)
    /\ (Completed (CommandQueue p) = [] ->
        CommandQueue p' = CommandQueue p
        /\ CountEvents IsRemoval Events = 0%nat
        /\ CountEvents IsAppliedResults Events = 0%nat
        /\ CountEvents IsCompletionDelegate Events = 0%nat).
Proof.
  intros Hasync.
  destruct (queue_split (CommandQueue p)) as [Hnone | (pre & c & post & Hsplit & Hpre & Hc)].
  - destruct (Tick_body_queue_events p p false []) as (p' & Events & Hrun & Hq & He & _).
    { now apply Tick_loop_none_completed. }
    exists p', Events. split; [exact Hrun|].
    rewrite !He by reflexivity. cbn.
    split; [lia|]. split; [lia|]. split; [lia|]. split.
    + intros pre c post Hsplit Hpre Hc. exfalso.
      rewrite Hsplit, (Completed_first _ _ _ Hpre Hc) in Hnone. discriminate.
    + intros _. repeat split. exact Hq.
  - assert (Hcalls : Asynchronous (ExecuteCalls c (ResultOf c))).
    { apply Hasync. now rewrite Hsplit, (Completed_first _ _ _ Hpre Hc). }
    destruct (ProcessCommand_asynchronous (length pre) c p Hcalls)
      as (p1 & b & Events1 & Hrun1 & Hq1 & Hr & Ha & Hd & Hin).
    destruct (Tick_body_queue_events p p1 b Events1) as (p' & Events & Hrun & Hq & He & Hsub).
    { rewrite Hsplit at 1. now rewrite Tick_loop_first_completed. }
    exists p', Events. split; [exact Hrun|].
    rewrite !He by reflexivity. rewrite Hr, Ha, Hd.
    split; [lia|]. split; [lia|]. split; [destruct (OperationCompleteDelegate c); lia|].
    split.
    + intros pre' c' post' Hsplit' Hpre' Hc'.
      assert (Hsame : pre' = pre /\ c' = c /\ post' = post).
      { clear - Hsplit Hsplit' Hpre Hpre' Hc Hc'. rewrite Hsplit in Hsplit'. clear Hsplit.
        revert pre' Hsplit' Hpre'.
        induction pre as [|x pre IH]; intros [|y pre'] Heq Hpre'; simpl in Heq.
        - injection Heq as -> ->. auto.
        - injection Heq as -> _. unfold Completed in Hpre'. simpl in Hpre'.
          rewrite Hc in Hpre'. discriminate.
        - injection Heq as -> _. unfold Completed in Hpre. simpl in Hpre.
          rewrite Hc' in Hpre. discriminate.
        - injection Heq as -> Heq.
          unfold Completed in Hpre, Hpre'. simpl in Hpre, Hpre'.
          destruct (bExecuteProcessed y); [discriminate|].
          destruct (IH Hpre pre' Heq Hpre') as (-> & -> & ->). auto. }
      destruct Hsame as (-> & -> & ->).
      assert (Hqueue : CommandQueue p' = pre ++ post ++ ExecuteCalls c (ResultOf c)).
      { rewrite Hq, Hq1, Hsplit, RemoveAt_middle. now rewrite <- app_assoc. }
      split; [exact Hqueue|]. split.
      { rewrite Hqueue. unfold Completed. rewrite !List.filter_app.
        fold (Completed pre). rewrite Hpre. reflexivity. }
      split; [reflexivity|]. split; [reflexivity|]. now apply Hsub.
    + intros Hnone. exfalso.
      rewrite Hsplit, (Completed_first _ _ _ Hpre Hc) in Hnone. discriminate.
Qed.

End QueueProperties.



Lemma Tick_idle (Polls : FGitSourceControlCommand -> nat) (fuel : nat)
    (p : FGitSourceControlProvider) :
  Completed (CommandQueue p) = [] ->
  bForceBroadcastUpdateNextTick (Data p) = false ->
  Tick Polls fuel p = Some (p, []).
Proof.
  intros Hnone Hforce. rewrite Tick_unfold. unfold Tick_body.
  rewrite (Tick_loop_none_completed _ _ _ _ _ Hnone). simpl. now rewrite Hforce.
Qed.

Lemma Wait_idle (Reentered : FGitSourceControlProvider -> Ran) (n : nat)
    (p : FGitSourceControlProvider) :
  Reentered p = Some (p, []) -> Wait Reentered n p = Some (p, []).
Proof.
  intros Hidle. induction n as [|n IH]; simpl; [reflexivity|].
  rewrite Hidle. cbn [andThen]. now rewrite IH.
Qed.

(** The synchronous [Execute] of the example, whatever the worker thread's
    timing: the check-out that was queued behind the status update is
    handled by a [Tick] called while [Execute] waits, and the queue is empty
    when [Execute] returns. *)
Lemma ExampleResolve_executed (Polls : FGitSourceControlCommand -> nat) (fuel : nat) :
  exists Nested,
    Execute Polls (Tick Polls fuel) ExampleResolve
      (mkProvider (mkProviderData ∅ [] false) true [ExampleCommand 2 "CheckOut" true None])
    = Some (mkProvider (mkProviderData ∅ [] false) true [], Nested)
    /\ (1 <= CountEvents IsRemoval Nested)%nat
    /\ (1 <= CountEvents IsAppliedResults Nested)%nat
    /\ In (RemovedFromQueue 0 "CheckOut") Nested
    /\ In (AppliedResults "CheckOut" false) Nested.
Proof.
  set (Data0 := mkProviderData ∅ [] false).
  set (CheckOut := ExampleCommand 2 "CheckOut" true None).
  set (Handled := [RemovedFromQueue 0 "CheckOut"; AppliedResults "CheckOut" false;
                   OutputCommandMessages [] []; CommandDeleted "CheckOut"]).
  assert (HcheckOut : forall Rest,
            Tick Polls fuel (mkProvider Data0 true (CheckOut :: Rest))
            = Some (mkProvider Data0 true Rest, Handled)).
  { intros Rest. rewrite Tick_unfold. reflexivity. }
  set (Resolve b := set_bExecuteProcessed b ExampleResolve).
  unfold Execute, ExecuteSynchronousCommand.
  cbn [bAutoDelete ExampleResolve]. fold ExampleResolve.
  change (IssueCommand (set_bExecuteProcessed false ExampleResolve)
            (mkProvider Data0 true [CheckOut]))
    with (mkProvider Data0 true (CheckOut :: [Resolve false])).
  destruct (Polls ExampleResolve) as [|n].
  - cbn [Wait andThen].
    match goal with
    | |- context [Tick Polls fuel ?q] =>
        change q with (mkProvider Data0 true (CheckOut :: [Resolve true]))
    end.
    rewrite HcheckOut. cbn [andThen].
    eexists. split; [reflexivity|]. cbn. repeat split; auto; lia.
  - cbn [Wait]. rewrite HcheckOut. cbn [andThen].
    rewrite Wait_idle by (now apply Tick_idle).
    cbn [andThen].
    match goal with
    | |- context [Tick Polls fuel ?q] =>
        change q with (mkProvider Data0 true [Resolve true])
    end.
    rewrite Tick_unfold.
    eexists. split; [reflexivity|]. cbn. repeat split; auto; lia.
Qed.


(** ** The status ledger *)

Lemma Save_SavedStates E Root bForce f d b f' d' :
  FGitSourceControlStatusFile.Save E Root bForce f d = Returned (b, f', d') ->
  FGitSourceControlStatusFile.SavedStates f' = FGitSourceControlStatusFile.SavedStates f.
Proof.
  unfold FGitSourceControlStatusFile.Save.
  destruct (negb (FGitSourceControlStatusFile.bDirty f) && negb bForce);
    [intros [= _ <- _]; reflexivity|].
  set (g := if (0 <? Z.of_nat (size (FGitSourceControlStatusFile.SavedStates f)))%Z
            then _ else _).
  assert (Hg : FGitSourceControlStatusFile.SavedStates g
               = FGitSourceControlStatusFile.SavedStates f).
  { subst g. destruct (0 <? _)%Z.
    - destruct (0 <? _)%Z; reflexivity.
    - destruct (FGitSourceControlStatusFile.LoadedData f); reflexivity. }
  destruct (FGitSourceControlStatusFile.LoadedData g); [|discriminate].
  destruct (negb (FGitSourceControlStatusFile.CanSerialize E _));
    [intros [= _ <- _]; exact Hg|].
  destruct (negb (FGitSourceControlStatusFile.CanWrite E _));
    intros [= _ <- _]; exact Hg.
Qed.

Lemma SaveIfAsked_SavedStates E Root bSave f d b f' d' :
  FGitSourceControlStatusFile.SaveIfAsked E Root bSave f d = Returned (b, f', d') ->
  FGitSourceControlStatusFile.SavedStates f' = FGitSourceControlStatusFile.SavedStates f.
Proof.
  unfold FGitSourceControlStatusFile.SaveIfAsked. destruct (negb bSave).
  - intros [= _ <- _]; reflexivity.
  - apply Save_SavedStates.
Qed.

(** When the save fails, [SetState] rolls a new path back out of the map. *)
Lemma SetState_failed_new_path E InFilePath InState Root bSave f d f' d' :
  FGitSourceControlStatusFile.SavedStates f !! InFilePath = None ->
  FGitSourceControlStatusFile.SetState E InFilePath InState Root bSave f d
    = Returned (false, f', d') ->
  FGitSourceControlStatusFile.SavedStates f' = FGitSourceControlStatusFile.SavedStates f.
Proof.
  intros Hnew. unfold FGitSourceControlStatusFile.SetState.
  cbn [FGitSourceControlStatusFile.SavedStates FGitSourceControlStatusFile.set_bDirty].
  rewrite Hnew.
  destruct (FGitSourceControlStatusFile.SaveIfAsked _ _ _ _ _) as [[[b g] e]|] eqn:HS;
    [|discriminate].
  apply SaveIfAsked_SavedStates in HS. simpl in HS.
  destruct b; [discriminate|]. intros [= <- _]. simpl.
  rewrite HS. now apply delete_insert_id.
Qed.

(** When the save fails, [SetState] leaves the new entry at a path that
    already had one: the value it restores is the new one. *)
Lemma SetState_failed_existing_path E InFilePath InState Root bSave f d f' d' Old :
  FGitSourceControlStatusFile.SavedStates f !! InFilePath = Some Old ->
  FGitSourceControlStatusFile.SetState E InFilePath InState Root bSave f d
    = Returned (false, f', d') ->
  FGitSourceControlStatusFile.GetState f' InFilePath = InState.
Proof.
  intros Hold. unfold FGitSourceControlStatusFile.SetState.
  cbn [FGitSourceControlStatusFile.SavedStates FGitSourceControlStatusFile.set_bDirty].
  rewrite Hold.
  destruct (FGitSourceControlStatusFile.SaveIfAsked _ _ _ _ _) as [[[b g] e]|] eqn:HS;
    [|discriminate].
  destruct b; [discriminate|]. intros [= <- _].
  unfold FGitSourceControlStatusFile.GetState. simpl.
  now rewrite lookup_insert_eq.
Qed.

(** C1 (evaluation at the failing input). With a status file that cannot
    be written, [SetState] with [bSave] set on a path that has an entry
    returns false and leaves the new entry in the map, not the old one; and
    [ClearState] with [bSave] set returns false and leaves the entry removed. *)
Theorem SetState_ClearState_failed_save_not_rolled_back :
  let Old := SavedState.mk CheckedOut "0" in
  let New := SavedState.mk Conflicted "9c4e" in
  FGitSourceControlStatusFile.GetState ExampleLedger "/repo/a.uasset" = Old
  /\ (exists f',
        FGitSourceControlStatusFile.SetState ReadOnlyDisk "/repo/a.uasset" New
          "/repo" true ExampleLedger ∅ = Returned (false, f', ∅)
        /\ FGitSourceControlStatusFile.GetState f' "/repo/a.uasset" = New
        /\ FGitSourceControlStatusFile.SavedStates f'
           <> FGitSourceControlStatusFile.SavedStates ExampleLedger)
  /\ (exists f',
        FGitSourceControlStatusFile.ClearState ReadOnlyDisk "/repo/a.uasset"
          "/repo" true ExampleLedger ∅ = Returned (false, f', ∅)
        /\ FGitSourceControlStatusFile.SavedStates f' !! "/repo/a.uasset" = None
        /\ FGitSourceControlStatusFile.GetState f' "/repo/a.uasset" = SavedState.default).
Proof.
  split; [reflexivity|]. split.
  - eexists. split; [vm_compute; reflexivity|]. split; [reflexivity|].
    intros H.
    apply (f_equal (fun m : gmap string SavedState.t => m !! "/repo/a.uasset")) in H.
    vm_compute in H. discriminate.
  - eexists. split; [vm_compute; reflexivity|]. split; reflexivity.
Qed.

(** ** Reading a ledger entry from JSON *)

Lemma FromJson_without_state_string (This : SavedState.t) (Json : gmap string FJsonValue) :
  (forall Value, Json !! "state" <> Some (FJsonValueString Value)) ->
  SavedStateJson.FromJson This (Some Json) = AssertionFailed.
Proof.
  intros Hno. unfold SavedStateJson.FromJson, TryGetStringField.
  destruct (Json !! "state") as [[Value| |]|] eqn:Hstate; try reflexivity.
  now destruct (Hno Value).
Qed.

(** C10 (evaluation at the failing input). For an object with no "state"
    string field [FromJson] does not return false: it goes on to read
    [StateString[0]] of the empty string, where the index assertion of the
    engine fails.  The same happens when the field is the empty string. *)
Theorem FromJson_reads_empty_StateString :
  SavedStateJson.FromJson SavedState.default
    (Some {["revision" := FJsonValueString "9c4e"]}) = AssertionFailed
  /\ SavedStateJson.FromJson SavedState.default (Some ∅) = AssertionFailed
  /\ SavedStateJson.FromJson SavedState.default
       (Some {["state" := FJsonValueString ""; "revision" := FJsonValueString "9c4e"]})
     = AssertionFailed
  /\ SavedStateJson.FromJson SavedState.default
       (Some {["state" := FJsonValueString "L"; "revision" := FJsonValueString "9c4e"]})
     = Returned (true, SavedState.mk CheckedOut "9c4e").
Proof. repeat split; vm_compute; reflexivity. Qed.

(** ** Get latest *)

Section GetLatestProperties.
Context {B : GitBackend} (C : Sync.Settings).

Lemma Run_frame Command Parameters Files (s : Sync.State B) :
  let r := Sync.Run Command Parameters Files s in
  Sync.SameLedgerAndResults s r.2
  /\ Sync.Issued r.2 = Sync.Issued s ++ [Command]
  /\ Sync.TheWorld r.2 = (RunCommand B Command Parameters Files (Sync.TheWorld s)).2
  /\ r.1 = (RunCommand B Command Parameters Files (Sync.TheWorld s)).1.
Proof.
  unfold Sync.Run.
  destruct (RunCommand B Command Parameters Files (Sync.TheWorld s)) as [[[b o] e] w].
  simpl. repeat split.
Qed.

Lemma RunCheckIndexValid_frame (s : Sync.State B) :
  let r := Sync.RunCheckIndexValid s in
  Sync.SameLedgerAndResults s r.2
  /\ Sync.Issued r.2 = Sync.Issued s ++ ["status --porcelain"]
  /\ Sync.TheWorld r.2 = (RunCommand B "status --porcelain" [] [] (Sync.TheWorld s)).2.
Proof.
  unfold Sync.RunCheckIndexValid, Sync.RunLogged, Sync.Run.
  destruct (RunCommand B "status --porcelain" [] [] (Sync.TheWorld s)) as [[[b o] e] w].
  simpl. destruct b; simpl; repeat split.
Qed.

Lemma GetCommitShaForBranch_frame InBranch (s : Sync.State B) :
  let r := Sync.GetCommitShaForBranch InBranch s in
  Sync.SameLedgerAndResults s r.2
  /\ Sync.Issued r.2 = Sync.Issued s ++ ["rev-parse --verify"]
  /\ Sync.TheWorld r.2 = (RunCommand B "rev-parse --verify" [InBranch] [] (Sync.TheWorld s)).2.
Proof.
  unfold Sync.GetCommitShaForBranch, Sync.Run.
  destruct (RunCommand B "rev-parse --verify" [InBranch] [] (Sync.TheWorld s))
    as [[[b o] e] w].
  simpl. destruct o as [|x [|y o]], b; simpl; repeat split.
Qed.

Lemma GetMergeBase_frame InCommit1 InCommit2 (s : Sync.State B) :
  let r := Sync.GetMergeBase InCommit1 InCommit2 s in
  Sync.SameLedgerAndResults s r.2
  /\ Sync.Issued r.2 = Sync.Issued s ++ ["merge-base"]
  /\ Sync.TheWorld r.2
     = (RunCommand B "merge-base" [InCommit1; InCommit2] [] (Sync.TheWorld s)).2.
Proof.
  unfold Sync.GetMergeBase, Sync.Run.
  destruct (RunCommand B "merge-base" [InCommit1; InCommit2] [] (Sync.TheWorld s))
    as [[[b o] e] w].
  simpl. destruct o as [|x o], b; simpl; repeat split.
Qed.

Lemma SameLedgerAndResults_trans (s1 s2 s3 : Sync.State B) :
  Sync.SameLedgerAndResults s1 s2 -> Sync.SameLedgerAndResults s2 s3 -> Sync.SameLedgerAndResults s1 s3.
Proof.
  unfold Sync.SameLedgerAndResults.
  intros (a1 & a2 & a3 & a4 & a5 & a6) (b1 & b2 & b3 & b4 & b5 & b6).
  repeat split; congruence.
Qed.

(** The answers of the three queries depend on the repository alone. *)
Lemma RunCheckIndexValid_world (s s' : Sync.State B) :
  Sync.TheWorld s = Sync.TheWorld s' ->
  (Sync.RunCheckIndexValid s).1 = (Sync.RunCheckIndexValid s').1.
Proof.
  intros Hw. unfold Sync.RunCheckIndexValid, Sync.RunLogged, Sync.Run. rewrite Hw.
  destruct (RunCommand B "status --porcelain" [] [] (Sync.TheWorld s')) as [[[b o] e] w].
  simpl. now destruct b.
Qed.

Lemma GetCommitShaForBranch_world InBranch (s s' : Sync.State B) :
  Sync.TheWorld s = Sync.TheWorld s' ->
  (Sync.GetCommitShaForBranch InBranch s).1 = (Sync.GetCommitShaForBranch InBranch s').1.
Proof.
  intros Hw. unfold Sync.GetCommitShaForBranch, Sync.Run. rewrite Hw.
  destruct (RunCommand B "rev-parse --verify" [InBranch] [] (Sync.TheWorld s'))
    as [[[b o] e] w].
  simpl. now destruct o as [|x [|y o]], b.
Qed.

Lemma GetMergeBase_world InCommit1 InCommit2 (s s' : Sync.State B) :
  Sync.TheWorld s = Sync.TheWorld s' ->
  (Sync.GetMergeBase InCommit1 InCommit2 s).1 = (Sync.GetMergeBase InCommit1 InCommit2 s').1.
Proof.
  intros Hw. unfold Sync.GetMergeBase, Sync.Run. rewrite Hw.
  destruct (RunCommand B "merge-base" [InCommit1; InCommit2] [] (Sync.TheWorld s'))
    as [[[b o] e] w].
  simpl. now destruct o as [|x o], b.
Qed.

Lemma AfterOpeningQueries_frame (s : Sync.State B) :
  Sync.SameLedgerAndResults s (Sync.AfterOpeningQueries C s)
  /\ Sync.Issued (Sync.AfterOpeningQueries C s) = Sync.Issued s ++ OpeningQueries
  /\ (Forall (ReadOnly B) OpeningQueries ->
      Sync.TheWorld (Sync.AfterOpeningQueries C s) = Sync.TheWorld s).
Proof.
  unfold Sync.AfterOpeningQueries.
  set (s1 := (Sync.RunCheckIndexValid s).2).
  set (s2 := (Sync.GetCommitShaForBranch (Sync.GetRemoteBranch C) s1).2).
  destruct (RunCheckIndexValid_frame s) as (F1 & I1 & W1). fold s1 in F1, I1, W1.
  destruct (GetCommitShaForBranch_frame (Sync.GetRemoteBranch C) s1) as (F2 & I2 & W2).
  fold s2 in F2, I2, W2.
  destruct (GetMergeBase_frame (Sync.Branch C) (Sync.GetRemoteBranch C) s2) as (F3 & I3 & W3).
  split; [|split].
  - eapply SameLedgerAndResults_trans; [|exact F3].
    eapply SameLedgerAndResults_trans; [exact F1 | exact F2].
  - rewrite I3, I2, I1. unfold OpeningQueries. now rewrite <- !app_assoc.
  - intros Hro. inversion Hro as [|? ? R1 Hro1]; subst.
    inversion Hro1 as [|? ? R2 Hro2]; subst.
    inversion Hro2 as [|? ? R3 _]; subst.
    rewrite W3, R3, W2, R2, W1, R1. reflexivity.
Qed.

Lemma OpeningAnswers_world (s s' : Sync.State B) :
  Forall (ReadOnly B) OpeningQueries ->
  Sync.TheWorld s = Sync.TheWorld s' ->
  Sync.OpeningAnswers C s = Sync.OpeningAnswers C s'.
Proof.
  intros Hro Hw. unfold Sync.OpeningAnswers.
  inversion Hro as [|? ? R1 Hro1]; subst.
  inversion Hro1 as [|? ? R2 _]; subst.
  destruct (RunCheckIndexValid_frame s) as (_ & _ & W1).
  destruct (RunCheckIndexValid_frame s') as (_ & _ & W1').
  set (s1 := (Sync.RunCheckIndexValid s).2) in *.
  set (s1' := (Sync.RunCheckIndexValid s').2) in *.
  assert (H1 : Sync.TheWorld s1 = Sync.TheWorld s1') by (rewrite W1, W1', !R1; exact Hw).
  destruct (GetCommitShaForBranch_frame (Sync.GetRemoteBranch C) s1) as (_ & _ & W2).
  destruct (GetCommitShaForBranch_frame (Sync.GetRemoteBranch C) s1') as (_ & _ & W2').
  set (s2 := (Sync.GetCommitShaForBranch (Sync.GetRemoteBranch C) s1).2) in *.
  set (s2' := (Sync.GetCommitShaForBranch (Sync.GetRemoteBranch C) s1').2) in *.
  assert (H2 : Sync.TheWorld s2 = Sync.TheWorld s2') by (rewrite W2, W2', !R2; exact H1).
  rewrite (RunCheckIndexValid_world s s' Hw).
  rewrite (GetCommitShaForBranch_world _ s1 s1' H1).
  rewrite (GetMergeBase_world _ _ s2 s2' H2).
  reflexivity.
Qed.

Lemma GetLatest_nothing_to_sync (fuel : nat) (s : Sync.State B) (RemoteSha : FString) :
  Sync.OpeningAnswers C s = (GitIndexState.Valid, RemoteSha, RemoteSha) ->
  RemoteSha <> "" ->
  Sync.GetLatest C fuel s = Sync.Finished (true, Sync.AfterOpeningQueries C s).
Proof.
  unfold Sync.OpeningAnswers, Sync.AfterOpeningQueries, Sync.GetLatest.
  destruct (Sync.RunCheckIndexValid s) as [IndexValid s1]. simpl.
  destruct (Sync.GetCommitShaForBranch (Sync.GetRemoteBranch C) s1) as [Sha s2]. simpl.
  destruct (Sync.GetMergeBase (Sync.Branch C) (Sync.GetRemoteBranch C) s2) as [Base s3].
  simpl. intros [= -> -> ->] Hsha.
  simpl.
  assert (He : IsEmpty RemoteSha = false) by (destruct RemoteSha; [congruence | reflexivity]).
  rewrite He, String.eqb_refl. reflexivity.
Qed.

End GetLatestProperties.

(** C4 (as amended). When the index is valid and the merge base of the
    local and the remote branch is the (non-empty) head of the remote
    branch, [GetLatest] returns success having run only its three opening
    queries (no stash, no rebase) and leaves the ledger, its file, the
    cache and the worker's results as they were.  When moreover the three
    queries leave the repository as it is, a second run right after the
    first is again a success that runs only the three queries and changes
    neither the ledger nor the repository. *)
Theorem GetLatest_up_to_date_is_noop {B : GitBackend} (C : Sync.Settings)
    (fuel fuel' : nat) (s : Sync.State B) (RemoteSha : FString) :
  Sync.OpeningAnswers C s = (GitIndexState.Valid, RemoteSha, RemoteSha) ->
  RemoteSha <> "" ->
  exists s',
    Sync.GetLatest C fuel s = Sync.Finished (true, s')
    /\ Sync.SameLedgerAndResults s s'
    /\ Sync.Issued s' = Sync.Issued s ++ OpeningQueries
    /\ (Forall (ReadOnly B) OpeningQueries ->
        Sync.TheWorld s' = Sync.TheWorld s
        /\ exists s'',
             Sync.GetLatest C fuel' s' = Sync.Finished (true, s'')
             /\ Sync.SameLedgerAndResults s' s''
             /\ Sync.Issued s'' = Sync.Issued s' ++ OpeningQueries
             /\ Sync.TheWorld s'' = Sync.TheWorld s).
Proof.
  intros Hanswers Hsha.
  exists (Sync.AfterOpeningQueries C s).
  destruct (AfterOpeningQueries_frame C s) as (Hframe & Hissued & Hworld).
  split; [now apply GetLatest_nothing_to_sync with (RemoteSha := RemoteSha)|].
  split; [exact Hframe|]. split; [exact Hissued|].
  intros Hro. specialize (Hworld Hro). split; [exact Hworld|].
  set (s' := Sync.AfterOpeningQueries C s) in *.
  exists (Sync.AfterOpeningQueries C s').
  destruct (AfterOpeningQueries_frame C s') as (Hframe' & Hissued' & Hworld').
  split.
  - apply GetLatest_nothing_to_sync with (RemoteSha := RemoteSha); [|exact Hsha].
    rewrite (OpeningAnswers_world C s' s Hro Hworld). exact Hanswers.
  - split; [exact Hframe'|]. split; [exact Hissued'|].
    rewrite (Hworld' Hro). exact Hworld.
Qed.

Lemma ExampleBackend_queries_read_only : Forall (ReadOnly ExampleBackend) OpeningQueries.
Proof.
  unfold OpeningQueries. repeat constructor; intros Parameters Files w; simpl;
    now destruct w.
Qed.

Lemma GetLatest_up_to_date_is_noop_witness :
  Sync.OpeningAnswers ExampleSettings (ExampleSync false)
    = (GitIndexState.Valid, "9c4e", "9c4e")
  /\ "9c4e" <> ""
  /\ Forall (ReadOnly ExampleBackend) OpeningQueries
  /\ exists s' s'',
       Sync.GetLatest ExampleSettings 0 (ExampleSync false) = Sync.Finished (true, s')
       /\ Sync.StatusFile s' = ExampleLedger
       /\ Sync.Issued s' = OpeningQueries
       /\ Sync.GetLatest ExampleSettings 0 s' = Sync.Finished (true, s'')
       /\ Sync.StatusFile s'' = ExampleLedger.
Proof.
  assert (Hsha : "9c4e" <> "") by discriminate.
  split; [reflexivity|]. split; [exact Hsha|].
  split; [exact ExampleBackend_queries_read_only|].
  destruct (GetLatest_up_to_date_is_noop ExampleSettings 0 0 (ExampleSync false) "9c4e"
              eq_refl Hsha)
    as (s' & Hrun & Hframe & Hissued & Hagain).
  destruct (Hagain ExampleBackend_queries_read_only)
    as (_ & s'' & Hrun' & Hframe' & _ & _).
  exists s', s''.
  destruct Hframe as (Hledger & _). destruct Hframe' as (Hledger' & _).
  split; [exact Hrun|]. split; [exact Hledger|]. split; [exact Hissued|].
  split; [exact Hrun'|]. now rewrite Hledger'.
Defined.

(** C4 (as stated) fails: with a change staged in the index the merge base
    is still the head of the remote branch, yet [GetLatest] stops at its
    index check and returns failure. *)
Lemma GetLatest_up_to_date_invalid_index_fails :
  Sync.OpeningAnswers ExampleSettings (ExampleSync true)
    = (GitIndexState.Invalid, "9c4e", "9c4e")
  /\ exists s',
       Sync.GetLatest ExampleSettings 0 (ExampleSync true) = Sync.Finished (false, s')
       /\ Sync.CommandSuccessful s' = false
       /\ Sync.Issued s' = ["status --porcelain"].
Proof.
  split; [reflexivity|].
  eexists. split; [vm_compute; reflexivity|]. split; reflexivity.
Qed.

(** * Further properties *)

(** ** What can be done with a file *)

(** X1. Check-in, check-out and force-writeable exclude one another: no
    state allows two of them. *)
Theorem CanCheckIn_CanCheckout_CanForceWriteable_exclusive (s : FGitSourceControlState) :
  CanCheckIn s && CanCheckout s = false
  /\ CanCheckIn s && CanForceWriteable s = false
  /\ CanCheckout s && CanForceWriteable s = false
  /\ CanRevert s && CanForceWriteable s = false
  /\ CanRevert s && CanCheckout s = false.
Proof.
  unfold CanCheckIn, CanCheckout, CanForceWriteable, CanRevert, IsSourceControlled,
    IsAdded, IsModified, IsCheckedOut, IsCurrent, IsConflicted, IsCheckedOutOther,
    IsLockedByMe.
  destruct s as [h f w r t c u l o d g]. simpl.
  destruct w, o, d, (IsEmpty u); repeat split; reflexivity.
Qed.

(** X2. The lock of a file is in exactly one of three conditions: free (it
    can be locked), held by the local identity, or held by another one. *)
Theorem lock_holder_trichotomy (s : FGitSourceControlState) :
  (CanLock s = true /\ IsLockedByMe s = false /\ IsCheckedOutOther s = false)
  \/ (CanLock s = false /\ IsLockedByMe s = true /\ IsCheckedOutOther s = false)
  \/ (CanLock s = false /\ IsLockedByMe s = false /\ IsCheckedOutOther s = true).
Proof.
  unfold CanLock, IsLockedByMe, IsCheckedOutOther.
  destruct (IsEmpty (UserLocked s)), (bLockedByOther s); simpl; tauto.
Qed.

(** X3. A file that is modified or checked out locally and comes out of the
    lock fold locked by another identity can only be reverted: it cannot be
    checked in, checked out, edited, deleted or forced writeable. *)
Theorem locked_by_other_only_revert (This Other : FGitSourceControlState) :
  GetFilename Other = GetFilename This ->
  IsEmpty (UserLocked Other) = false ->
  bLockedByOther Other = true ->
  IsModified This = true \/ WorkingCopyState This = CheckedOut ->
  exists s',
    CombineWithLockedState This Other = Done s' []
    /\ WorkingCopyState s' = ForcedWriteable
    /\ CanRevert s' = true
    /\ CanCheckIn s' = false /\ CanCheckout s' = false /\ CanEdit s' = false
    /\ CanDelete s' = false /\ CanForceWriteable s' = false /\ CanUnlock s' = false.
Proof.
  intros Hfile Huser Hother Hdirty.
  rewrite (CombineWithLockedState_unfold _ _ Hfile). cbv zeta.
  rewrite Hother, Huser. simpl.
  set (L := set_Lock _ _ _ This).
  assert (HL : IsModified L || IsCheckedOut L = true).
  { unfold IsModified, IsCheckedOut. subst L. simpl.
    destruct Hdirty as [H | H].
    - unfold IsModified in H. destruct (WorkingCopyState This); try discriminate; reflexivity.
    - rewrite H. reflexivity. }
  rewrite HL. eexists. split; [reflexivity|].
  unfold CanRevert, CanCheckIn, CanCheckout, CanEdit, CanDelete, CanForceWriteable,
    CanUnlock, IsCheckedOut, IsModified, IsCheckedOutOther, IsLockedByMe, IsConflicted,
    IsCurrent, IsAdded, IsSourceControlled; subst L; simpl.
  unfold CanEdit, IsCheckedOutOther, IsModified; simpl.
  rewrite ?Hother, ?Huser. simpl.
  repeat split; try reflexivity; rewrite ?andb_false_r; reflexivity.
Qed.

Lemma locked_by_other_only_revert_witness :
  let This := ExampleState "/repo/d.uasset" Modified in
  let Other := set_Lock "identity X" true 7 (NewState "/repo/d.uasset") in
  exists s',
    CombineWithLockedState This Other = Done s' []
    /\ WorkingCopyState s' = ForcedWriteable
    /\ CanRevert s' = true /\ CanCheckIn s' = false.
Proof.
  intros This Other.
  destruct (locked_by_other_only_revert This Other eq_refl eq_refl eq_refl
              (or_introl eq_refl))
    as (s' & Hrun & Hstate & Hrevert & Hcheckin & _).
  exists s'. repeat split; assumption.
Defined.

(** X4. A file that the remote fold finds modified or deleted on the remote
    (and that is not deleted locally) is outdated afterwards: it can be
    neither checked in, nor checked out, nor deleted until it is synced or
    resolved, and it can be reverted exactly when it came out conflicted. *)
Theorem remote_change_blocks_checkin (This Other : FGitSourceControlState) :
  GetFilename Other = GetFilename This ->
  WorkingCopyState Other = Modified \/ WorkingCopyState Other = Deleted ->
  WorkingCopyState This <> Deleted ->
  exists s',
    CombineWithRemoteState This Other = Done s' []
    /\ IsCurrent s' = false
    /\ CanCheckIn s' = false /\ CanCheckout s' = false /\ CanDelete s' = false
    /\ (WorkingCopyState s' = Conflicted \/ WorkingCopyState s' = Outdated)
    /\ CanRevert s' = IsConflicted s'.
Proof.
  intros Hfile Hremote Hlocal.
  rewrite (CombineWithRemoteState_unfold _ _ Hfile). cbv zeta.
  set (T := set_RemoteState _ _).
  assert (HTu : UserLocked T = UserLocked This
                /\ bLockedByOther T = bLockedByOther This).
  { destruct (TakeMostRecentTimeStamp_state This Other) as (_ & _ & Hu & Hl).
    subst T. simpl. now rewrite Hu, Hl. }
  destruct HTu as (HTu & HTl). clearbody T.
  assert (Hnot : EWorkingCopyState.eqb (WorkingCopyState This) Deleted = false).
  { destruct (WorkingCopyState This); try reflexivity. now destruct Hlocal. }
  set (b := IsModified This || IsCheckedOut This).
  assert (Hgoal : exists s',
    Done (set_bOutdated true
            (set_WorkingCopyState (if b then Conflicted else Outdated) T)) []
      = Done s' []
    /\ IsCurrent s' = false
    /\ CanCheckIn s' = false /\ CanCheckout s' = false /\ CanDelete s' = false
    /\ (WorkingCopyState s' = Conflicted \/ WorkingCopyState s' = Outdated)
    /\ CanRevert s' = IsConflicted s').
  { assert (Hme : b = false -> IsLockedByMe This = false).
    { subst b. intros Hb. apply orb_false_elim in Hb as (_ & Hb).
      unfold IsCheckedOut in Hb.
      destruct (WorkingCopyState This); try discriminate Hb; exact Hb. }
    clearbody b. eexists. split; [reflexivity|].
    unfold IsCurrent, CanCheckIn, CanCheckout, CanDelete, CanRevert, IsCurrent,
      IsConflicted, IsCheckedOut, IsLockedByMe. simpl. rewrite ?HTu, ?HTl.
    rewrite !andb_false_r. simpl.
    repeat split; try reflexivity.
    - destruct b; auto.
    - destruct b; simpl; [reflexivity|].
      unfold IsLockedByMe in Hme. rewrite (Hme eq_refl). reflexivity. }
  destruct Hremote as [-> | ->]; rewrite Hnot; exact Hgoal.
Qed.

Lemma remote_change_blocks_checkin_witness :
  exists s',
    CombineWithRemoteState (ExampleState "/repo/b.uasset" Unchanged)
                           (ExampleState "/repo/b.uasset" Modified) = Done s' []
    /\ WorkingCopyState s' = Outdated
    /\ CanCheckIn s' = false /\ CanCheckout s' = false.
Proof.
  destruct (remote_change_blocks_checkin
              (ExampleState "/repo/b.uasset" Unchanged)
              (ExampleState "/repo/b.uasset" Modified) eq_refl (or_introl eq_refl))
    as (s' & Hrun & _ & Hin & Hout & _ & _ & _); [discriminate|].
  exists s'. split; [exact Hrun|]. split; [|split; assumption].
  vm_compute in Hrun. injection Hrun as <-. reflexivity.
Defined.

(** ** Resolving, and what the folds leave alone *)

(** X5. Resolving with the state a file had before the remote fold undoes
    what the fold did to it: the working-copy state is the one before the
    fold and the file is current, only the remote state and the time stamp
    keeping track of the remote observation.  The one exception is a file
    deleted on the remote that still exists on disk, which resolves to
    Added. *)
Theorem ResolveConflict_undoes_remote_fold (FileExists : FString -> bool)
    (This Other : FGitSourceControlState) :
  GetFilename Other = GetFilename This ->
  exists s',
    StateOf (CombineWithRemoteState This Other) = Some s'
    /\ let Observed := set_bOutdated false
                         (set_RemoteState (WorkingCopyState Other)
                            (TakeMostRecentTimeStamp This Other)) in
       ResolveConflict FileExists (WorkingCopyState This) s'
       = if EWorkingCopyState.eqb (WorkingCopyState Other) Deleted
            && FileExists (GetFilename This)
         then set_WorkingCopyState Added Observed
         else Observed.
Proof.
  intros Hfile. rewrite (CombineWithRemoteState_unfold _ _ Hfile). cbv zeta.
  destruct (TakeMostRecentTimeStamp_state This Other) as (Hw & _).
  assert (Hf : AbsoluteFilename (TakeMostRecentTimeStamp This Other) = AbsoluteFilename This).
  { unfold TakeMostRecentTimeStamp. now destruct (_ >? _). }
  revert Hw Hf. generalize (TakeMostRecentTimeStamp This Other) as T.
  intros [h f w r t c u l o d g]. simpl. intros -> ->.
  unfold ResolveConflict, GetFilename.
  destruct (WorkingCopyState Other), (WorkingCopyState This); simpl;
    eexists; (split; [reflexivity|]); simpl;
    try reflexivity; destruct (FileExists (AbsoluteFilename This)); reflexivity.
Qed.

Lemma ResolveConflict_undoes_remote_fold_witness :
  exists s',
    StateOf (CombineWithRemoteState (ExampleState "/repo/c.uasset" Modified)
                                    (ExampleState "/repo/c.uasset" Modified)) = Some s'
    /\ WorkingCopyState s' = Conflicted
    /\ WorkingCopyState (ResolveConflict (fun _ => true) Modified s') = Modified
    /\ bOutdated (ResolveConflict (fun _ => true) Modified s') = false.
Proof.
  destruct (ResolveConflict_undoes_remote_fold (fun _ => true)
              (ExampleState "/repo/c.uasset" Modified)
              (ExampleState "/repo/c.uasset" Modified) eq_refl)
    as (s' & Hrun & Hresolve).
  exists s'. split; [exact Hrun|].
  cbv zeta in Hresolve.
  change (ResolveConflict (fun _ => true) Modified s') with
    (ResolveConflict (fun _ => true)
       (WorkingCopyState (ExampleState "/repo/c.uasset" Modified)) s').
  rewrite Hresolve.
  vm_compute in Hrun. injection Hrun as <-.
  repeat split.
Defined.

(** X6. No fold touches the file name, the history or the staged flag of a
    state.  Beyond the working-copy state, the local fold only takes the
    later time stamp; the ledger fold only takes the pin; the remote fold
    only records the remote state, the outdated flag and the later time
    stamp; the lock fold only records the lock. *)
Theorem folds_frame (This Other : FGitSourceControlState) (Saved : SavedState.t)
    (LocalBranchSha : FString) :
  GetFilename Other = GetFilename This ->
  (exists s' w,
      StateOf (CombineWithLocalState This Other) = Some s'
      /\ s' = set_WorkingCopyState w
                (set_TimeStamp (Z.max (TimeStamp This) (TimeStamp Other)) This))
  /\ (exists s' w,
      StateOf (CombineWithSavedState This Saved LocalBranchSha) = Some s'
      /\ s' = set_WorkingCopyState w
                (set_CheckedOutRevision (SavedState.CheckedOutRevision Saved) This))
  /\ (exists s' w o,
      StateOf (CombineWithRemoteState This Other) = Some s'
      /\ s' = set_bOutdated o (set_WorkingCopyState w
                (set_RemoteState (WorkingCopyState Other)
                   (set_TimeStamp (Z.max (TimeStamp This) (TimeStamp Other)) This))))
  /\ (exists s' w,
      StateOf (CombineWithLockedState This Other) = Some s'
      /\ s' = set_WorkingCopyState w
                (set_Lock (UserLocked Other) (bLockedByOther Other) (LockId Other) This)).
Proof.
  intros Hfile.
  assert (HT : TakeMostRecentTimeStamp This Other
               = set_TimeStamp (Z.max (TimeStamp This) (TimeStamp Other)) This).
  { unfold TakeMostRecentTimeStamp.
    destruct (Z.gtb_spec (TimeStamp Other) (TimeStamp This)) as [H | H].
    - now rewrite Z.max_r by lia.
    - rewrite Z.max_l by lia. now destruct This. }
  assert (Hid : forall s, set_WorkingCopyState (WorkingCopyState s) s = s)
    by (now intros []).
  assert (Hid' : forall s, set_bOutdated (bOutdated s) s = s) by (now intros []).
  split; [|split; [|split]].
  - unfold CombineWithLocalState. rewrite (same_file_check _ _ Hfile), HT.
    set (T := set_TimeStamp _ This).
    assert (HwT : WorkingCopyState T = WorkingCopyState This) by reflexivity.
    rewrite HwT.
    destruct (WorkingCopyState Other), (WorkingCopyState This) eqn:Hw; simpl;
      eexists; eexists; (split; [reflexivity|]);
      first [reflexivity | symmetry; apply Hid].
  - unfold CombineWithSavedState.
    set (T := set_CheckedOutRevision _ This).
    assert (HwT : WorkingCopyState T = WorkingCopyState This) by reflexivity.
    rewrite HwT.
    destruct (SavedState.State Saved); simpl;
      repeat match goal with
             | |- context [match WorkingCopyState This with _ => _ end] =>
                 destruct (WorkingCopyState This) eqn:Hw; simpl
             | |- context [if ?b then _ else _] => destruct b; simpl
             end;
      eexists; eexists; (split; [reflexivity|]);
      first [reflexivity | symmetry; apply Hid].
  - rewrite (CombineWithRemoteState_unfold _ _ Hfile). cbv zeta. rewrite HT.
    set (T := set_RemoteState _ _).
    destruct (WorkingCopyState Other); simpl;
      repeat match goal with
             | |- context [match WorkingCopyState This with _ => _ end] =>
                 destruct (WorkingCopyState This) eqn:Hw; simpl
             | |- context [if ?b then _ else _] => destruct b; simpl
             end;
      eexists; eexists; eexists; (split; [reflexivity|]);
      first [ reflexivity
            | rewrite <- (Hid' T) at 1; rewrite <- (Hid T) at 1; reflexivity
            | rewrite <- (Hid' (set_WorkingCopyState Unknown T)) at 1; reflexivity ].
  - rewrite (CombineWithLockedState_unfold _ _ Hfile). cbv zeta.
    set (L := set_Lock _ _ _ This).
    destruct (negb (bLockedByOther Other) && negb (IsEmpty (UserLocked Other))).
    + destruct (WorkingCopyState This) eqn:Hw; simpl;
        eexists; eexists; (split; [reflexivity|]);
        first [reflexivity | symmetry; apply Hid].
    + destruct (IsModified L || IsCheckedOut L); simpl;
        eexists; eexists; (split; [reflexivity|]);
        first [reflexivity | symmetry; apply Hid].
Qed.

Lemma folds_frame_witness :
  exists s' w,
    StateOf (CombineWithLocalState
               (set_TimeStamp 5 (ExampleState "/repo/a.uasset" Deleted))
               (set_TimeStamp 9 (ExampleState "/repo/a.uasset" Added))) = Some s'
    /\ s' = set_WorkingCopyState w
              (set_TimeStamp 9 (ExampleState "/repo/a.uasset" Deleted)).
Proof.
  destruct (folds_frame (set_TimeStamp 5 (ExampleState "/repo/a.uasset" Deleted))
              (set_TimeStamp 9 (ExampleState "/repo/a.uasset" Added))
              SavedState.default "" eq_refl)
    as ((s' & w & Hrun & Hs) & _).
  exists s', w. split; [exact Hrun | exact Hs].
Defined.

(** X7. The ledger fold never stops in an assertion and logs nothing; the
    state takes its pin from the ledger entry whatever the states are; an
    entry that says Conflicted always wins; an entry that says Deleted
    leaves the working-copy state alone, and no entry makes a file Deleted
    that was not. *)
Theorem CombineWithSavedState_ledger_rules (This : FGitSourceControlState)
    (Saved : SavedState.t) (LocalBranchSha : FString) :
  exists s',
    CombineWithSavedState This Saved LocalBranchSha = Done s' []
    /\ CheckedOutRevision s' = SavedState.CheckedOutRevision Saved
    /\ (SavedState.State Saved = Conflicted -> WorkingCopyState s' = Conflicted)
    /\ (SavedState.State Saved = Deleted -> WorkingCopyState s' = WorkingCopyState This)
    /\ (WorkingCopyState s' = Deleted -> WorkingCopyState This = Deleted).
Proof.
  unfold CombineWithSavedState.
  set (T := set_CheckedOutRevision _ This).
  assert (HwT : WorkingCopyState T = WorkingCopyState This) by reflexivity.
  assert (HcT : forall w, CheckedOutRevision (set_WorkingCopyState w T)
                          = SavedState.CheckedOutRevision Saved) by reflexivity.
  rewrite HwT.
  destruct (SavedState.State Saved) eqn:HS; simpl;
    repeat match goal with
           | |- context [match WorkingCopyState This with _ => _ end] =>
               destruct (WorkingCopyState This) eqn:Hw; simpl
           | |- context [if ?b then _ else _] => destruct b; simpl
           end;
    eexists; (split; [reflexivity|]); simpl;
    repeat split; intros; try discriminate; try reflexivity; try congruence.
Qed.

(** ** Ledger entries as JSON *)

Lemma ToJSon_fields (s : SavedState.t) (Out : FString) :
  TryGetStringField (SavedStateJson.ToJSon s) "state" Out
    = (true, SavedStateJson.Printf_c (EWorkingCopyState.ToChar (SavedState.State s)))
  /\ TryGetStringField (SavedStateJson.ToJSon s) "revision" Out
    = (true, SavedState.CheckedOutRevision s).
Proof.
  unfold TryGetStringField, SavedStateJson.ToJSon. split.
  - rewrite lookup_insert_ne by discriminate. now rewrite lookup_insert_eq.
  - now rewrite lookup_insert_eq.
Qed.

(** X8. Reading back the JSON object written for a ledger entry always
    succeeds, whatever the entry read into held before; it gives the pinned
    revision as it was and the state as far as its code tells (ForcedWriteable
    comes back as CheckedOut, the states written as '0' as Unknown).  The
    entries that [IsValid] rejects are exactly those that read back as the
    default entry. *)
Theorem FromJson_ToJSon_roundtrip (This s : SavedState.t) :
  SavedStateJson.FromJson This (Some (SavedStateJson.ToJSon s))
    = Returned (true,
        SavedState.mk
          (EWorkingCopyState.FromChar (EWorkingCopyState.ToChar (SavedState.State s)))
          (SavedState.CheckedOutRevision s))
  /\ (In (SavedState.State s)
         [Added; Deleted; Modified; Conflicted; NotControlled; Ignored; CheckedOut] ->
      SavedStateJson.FromJson This (Some (SavedStateJson.ToJSon s)) = Returned (true, s))
  /\ (SavedState.IsValid s = false <->
      SavedStateJson.FromJson This (Some (SavedStateJson.ToJSon s))
        = Returned (true, SavedState.default)).
Proof.
  assert (Hrun : SavedStateJson.FromJson This (Some (SavedStateJson.ToJSon s))
    = Returned (true,
        SavedState.mk
          (EWorkingCopyState.FromChar (EWorkingCopyState.ToChar (SavedState.State s)))
          (SavedState.CheckedOutRevision s))).
  { unfold SavedStateJson.FromJson.
    destruct (ToJSon_fields s "") as (-> & _).
    destruct s as [st rev]. cbn [SavedState.State SavedState.CheckedOutRevision].
    destruct (ToJSon_fields (SavedState.mk st rev) (SavedState.CheckedOutRevision This))
      as (_ & Hrev).
    destruct st; cbn -[SavedStateJson.ToJSon TryGetStringField];
      cbn [SavedState.CheckedOutRevision] in Hrev; rewrite Hrev; reflexivity. }
  split; [exact Hrun|]. split.
  - intros Hin. rewrite Hrun. destruct s as [st rev]. simpl in *.
    repeat (destruct Hin as [<- | Hin]; [reflexivity|]). contradiction.
  - rewrite Hrun. unfold SavedState.IsValid, SavedState.default.
    destruct s as [st rev]. simpl. split.
    + intros H. apply orb_false_iff in H as (Hc & Hr).
      apply negb_false_iff in Hr. apply String.eqb_eq in Hr. subst rev.
      destruct st; try discriminate; reflexivity.
    + intros [= Hst ->]. destruct st; try discriminate; reflexivity.
Qed.

Lemma FromJson_ToJSon_roundtrip_witness :
  In (SavedState.State (SavedState.mk Conflicted "9c4e"))
     [Added; Deleted; Modified; Conflicted; NotControlled; Ignored; CheckedOut]
  /\ SavedStateJson.FromJson SavedState.default
       (Some (SavedStateJson.ToJSon (SavedState.mk Conflicted "9c4e")))
     = Returned (true, SavedState.mk Conflicted "9c4e").
Proof.
  assert (Hin : In (SavedState.State (SavedState.mk Conflicted "9c4e"))
                   [Added; Deleted; Modified; Conflicted; NotControlled; Ignored; CheckedOut])
    by (simpl; tauto).
  split; [exact Hin|].
  destruct (FromJson_ToJSon_roundtrip SavedState.default (SavedState.mk Conflicted "9c4e"))
    as (_ & Hsame & _).
  exact (Hsame Hin).
Defined.

(** ** Ledger edits, snapshots and saves *)

Lemma SetState_unsaved E InFilePath InState Root f d :
  FGitSourceControlStatusFile.SetState E InFilePath InState Root false f d
  = Returned (true,
      FGitSourceControlStatusFile.set_SavedStates
        (<[InFilePath := InState]> (FGitSourceControlStatusFile.SavedStates f))
        (FGitSourceControlStatusFile.set_bDirty true f),
      d).
Proof.
  unfold FGitSourceControlStatusFile.SetState, FGitSourceControlStatusFile.SaveIfAsked.
  cbn [FGitSourceControlStatusFile.SavedStates FGitSourceControlStatusFile.set_bDirty negb].
  destruct (FGitSourceControlStatusFile.SavedStates f !! InFilePath); reflexivity.
Qed.

Lemma ClearState_unsaved E InFilePath Root f d :
  FGitSourceControlStatusFile.ClearState E InFilePath Root false f d
  = Returned (bool_decide (is_Some (FGitSourceControlStatusFile.SavedStates f !! InFilePath)),
      FGitSourceControlStatusFile.set_SavedStates
        (delete InFilePath (FGitSourceControlStatusFile.SavedStates f))
        (FGitSourceControlStatusFile.set_bDirty
           (bool_decide (is_Some (FGitSourceControlStatusFile.SavedStates f !! InFilePath))
            || FGitSourceControlStatusFile.bDirty f) f),
      d).
Proof.
  unfold FGitSourceControlStatusFile.ClearState, FGitSourceControlStatusFile.SaveIfAsked.
  cbn [FGitSourceControlStatusFile.SavedStates FGitSourceControlStatusFile.set_bDirty negb].
  destruct (bool_decide _); reflexivity.
Qed.

(** X9. [SetState] with [bSave] off always succeeds and touches neither the
    disk nor the snapshot: afterwards [GetState] gives the new entry for the
    path and what it gave before for every other path, and the ledger is
    dirty. *)
Theorem SetState_unsaved_then_GetState E (InFilePath : FString) (InState : SavedState.t)
    (Root : FString) (f : FGitSourceControlStatusFile.t)
    (d : FGitSourceControlStatusFile.Disk) :
  exists f',
    FGitSourceControlStatusFile.SetState E InFilePath InState Root false f d
      = Returned (true, f', d)
    /\ FGitSourceControlStatusFile.GetState f' InFilePath = InState
    /\ (forall Path, Path <> InFilePath ->
        FGitSourceControlStatusFile.GetState f' Path
        = FGitSourceControlStatusFile.GetState f Path)
    /\ FGitSourceControlStatusFile.bDirty f' = true
    /\ FGitSourceControlStatusFile.CachedStates f'
       = FGitSourceControlStatusFile.CachedStates f
    /\ FGitSourceControlStatusFile.LoadedData f'
       = FGitSourceControlStatusFile.LoadedData f.
Proof.
  rewrite SetState_unsaved. eexists. split; [reflexivity|].
  unfold FGitSourceControlStatusFile.GetState. simpl.
  rewrite lookup_insert_eq. repeat split.
  intros Path Hne. now rewrite lookup_insert_ne by congruence.
Qed.

(** X10. [ClearState] of a path that has no entry returns false and leaves
    the ledger exactly as it was, whether [bSave] is set or not.  With
    [bSave] off, [ClearState] of a path that has an entry returns true, and
    afterwards [GetState] gives the default entry for the path and what it
    gave before for every other path. *)
Theorem ClearState_missing_and_unsaved E (InFilePath Root : FString) (bSave : bool)
    (f : FGitSourceControlStatusFile.t) (d : FGitSourceControlStatusFile.Disk) :
  (FGitSourceControlStatusFile.SavedStates f !! InFilePath = None ->
   FGitSourceControlStatusFile.ClearState E InFilePath Root bSave f d
   = Returned (false, f, d))
  /\ (is_Some (FGitSourceControlStatusFile.SavedStates f !! InFilePath) ->
      exists f',
        FGitSourceControlStatusFile.ClearState E InFilePath Root false f d
          = Returned (true, f', d)
        /\ FGitSourceControlStatusFile.GetState f' InFilePath = SavedState.default
        /\ (forall Path, Path <> InFilePath ->
            FGitSourceControlStatusFile.GetState f' Path
            = FGitSourceControlStatusFile.GetState f Path)
        /\ FGitSourceControlStatusFile.bDirty f' = true).
Proof.
  split.
  - intros Hnone. unfold FGitSourceControlStatusFile.ClearState.
    cbn [FGitSourceControlStatusFile.SavedStates FGitSourceControlStatusFile.set_bDirty].
    rewrite Hnone, bool_decide_eq_false_2 by (intros [x Hx]; discriminate).
    rewrite delete_id by exact Hnone. now destruct f.
  - intros Hsome. rewrite ClearState_unsaved, bool_decide_eq_true_2 by exact Hsome.
    eexists. split; [reflexivity|].
    unfold FGitSourceControlStatusFile.GetState. simpl.
    rewrite lookup_delete_eq. repeat split.
    intros Path Hne. now rewrite lookup_delete_ne by congruence.
Qed.

Lemma ClearState_missing_and_unsaved_witness :
  FGitSourceControlStatusFile.SavedStates ExampleLedger !! "/repo/z.uasset" = None
  /\ FGitSourceControlStatusFile.ClearState ReadOnlyDisk "/repo/z.uasset" "/repo" true
       ExampleLedger ∅ = Returned (false, ExampleLedger, ∅)
  /\ is_Some (FGitSourceControlStatusFile.SavedStates ExampleLedger !! "/repo/a.uasset")
  /\ exists f',
       FGitSourceControlStatusFile.ClearState ReadOnlyDisk "/repo/a.uasset" "/repo" false
         ExampleLedger ∅ = Returned (true, f', ∅)
       /\ FGitSourceControlStatusFile.GetState f' "/repo/a.uasset" = SavedState.default.
Proof.
  destruct (ClearState_missing_and_unsaved ReadOnlyDisk "/repo/z.uasset" "/repo" true
              ExampleLedger ∅) as (Hmissing & _).
  destruct (ClearState_missing_and_unsaved ReadOnlyDisk "/repo/a.uasset" "/repo" false
              ExampleLedger ∅) as (_ & Hpresent).
  assert (Hsome : is_Some (FGitSourceControlStatusFile.SavedStates ExampleLedger
                             !! "/repo/a.uasset")) by (eexists; reflexivity).
  split; [reflexivity|]. split; [exact (Hmissing eq_refl)|]. split; [exact Hsome|].
  destruct (Hpresent Hsome) as (f' & Hrun & Hget & _).
  exists f'. split; assumption.
Defined.

Lemma ApplyEdit_unsaved E Root e f d :
  exists b f',
    ApplyEdit E Root e f d = Returned (b, f', d)
    /\ FGitSourceControlStatusFile.CachedStates f'
       = FGitSourceControlStatusFile.CachedStates f
    /\ FGitSourceControlStatusFile.LoadedData f'
       = FGitSourceControlStatusFile.LoadedData f.
Proof.
  destruct e as [Path InState | Path]; simpl.
  - rewrite SetState_unsaved. eexists _, _. repeat split.
  - rewrite ClearState_unsaved. eexists _, _. repeat split.
Qed.

Lemma ApplyEdits_unsaved E Root l f d :
  exists f',
    ApplyEdits E Root l f d = Returned (f', d)
    /\ FGitSourceControlStatusFile.CachedStates f'
       = FGitSourceControlStatusFile.CachedStates f
    /\ FGitSourceControlStatusFile.LoadedData f'
       = FGitSourceControlStatusFile.LoadedData f.
Proof.
  revert f. induction l as [|e l IH]; intros f; simpl.
  - exists f. repeat split.
  - destruct (ApplyEdit_unsaved E Root e f d) as (b & f1 & -> & Hc & Hl).
    destruct (IH f1) as (f' & -> & Hc' & Hl').
    exists f'. split; [reflexivity|]. split; congruence.
Qed.

(** X11. A snapshot taken with [CacheStates] survives any batch of
    [SetState] and [ClearState] calls made with [bSave] off: the batch never
    fails and never writes, and [RestoreCachedStates] after it brings back
    exactly the entries the ledger had when the snapshot was taken. *)
Theorem RestoreCachedStates_after_unsaved_edits E (Root : FString) (l : list LedgerEdit)
    (f : FGitSourceControlStatusFile.t) (d : FGitSourceControlStatusFile.Disk) :
  exists f',
    ApplyEdits E Root l (FGitSourceControlStatusFile.CacheStates f) d = Returned (f', d)
    /\ FGitSourceControlStatusFile.SavedStates
         (FGitSourceControlStatusFile.RestoreCachedStates f')
       = FGitSourceControlStatusFile.SavedStates f
    /\ forall Path,
         FGitSourceControlStatusFile.GetState
           (FGitSourceControlStatusFile.RestoreCachedStates f') Path
         = FGitSourceControlStatusFile.GetState f Path.
Proof.
  destruct (ApplyEdits_unsaved E Root l (FGitSourceControlStatusFile.CacheStates f) d)
    as (f' & Hrun & Hcache & _).
  exists f'. split; [exact Hrun|].
  assert (Hsaved : FGitSourceControlStatusFile.SavedStates
                     (FGitSourceControlStatusFile.RestoreCachedStates f')
                   = FGitSourceControlStatusFile.SavedStates f).
  { simpl. rewrite Hcache. reflexivity. }
  split; [exact Hsaved|].
  intros Path. unfold FGitSourceControlStatusFile.GetState. now rewrite Hsaved.
Qed.

Lemma Save_cases E Root bForce f d :
  let StatusFilePath :=
    FGitSourceControlStatusFile.Combine E Root
      FGitSourceControlStatusFile.GitStatusFileName in
  (FGitSourceControlStatusFile.bDirty f || bForce = false
   /\ FGitSourceControlStatusFile.Save E Root bForce f d = Returned (true, f, d))
  \/ (FGitSourceControlStatusFile.bDirty f || bForce = true
      /\ FGitSourceControlStatusFile.SavedStates f = ∅
      /\ FGitSourceControlStatusFile.LoadedData f = None
      /\ FGitSourceControlStatusFile.Save E Root bForce f d = AssertionFailed)
  \/ (FGitSourceControlStatusFile.bDirty f || bForce = true
      /\ (FGitSourceControlStatusFile.SavedStates f <> ∅
          \/ FGitSourceControlStatusFile.LoadedData f <> None)
      /\ exists Loaded,
           (forall K, K <> NamespaceKey E ->
              Loaded !! K = FieldsOf (FGitSourceControlStatusFile.LoadedData f) !! K)
           /\ ((FGitSourceControlStatusFile.CanSerialize E Loaded
                && FGitSourceControlStatusFile.CanWrite E StatusFilePath = false
                /\ FGitSourceControlStatusFile.Save E Root bForce f d
                   = Returned (false,
                       FGitSourceControlStatusFile.set_LoadedData (Some Loaded) f, d))
               \/ (FGitSourceControlStatusFile.CanSerialize E Loaded
                   && FGitSourceControlStatusFile.CanWrite E StatusFilePath = true
                   /\ FGitSourceControlStatusFile.Save E Root bForce f d
                      = Returned (true,
                          FGitSourceControlStatusFile.ClearCache
                            (FGitSourceControlStatusFile.set_bDirty false
                               (FGitSourceControlStatusFile.set_LoadedData (Some Loaded) f)),
                          <[StatusFilePath := Loaded]> d)))).
Proof.
  intros StatusFilePath. unfold FGitSourceControlStatusFile.Save. fold (NamespaceKey E).
  destruct (FGitSourceControlStatusFile.bDirty f || bForce) eqn:Hgo.
  2:{ left. apply orb_false_iff in Hgo as (-> & ->). now split. }
  right.
  assert (Hguard : negb (FGitSourceControlStatusFile.bDirty f) && negb bForce = false).
  { rewrite <- negb_orb, Hgo. reflexivity. }
  rewrite Hguard. fold StatusFilePath.
  assert (Hfinish : forall Loaded,
    (forall K, K <> NamespaceKey E ->
       Loaded !! K = FieldsOf (FGitSourceControlStatusFile.LoadedData f) !! K) ->
    exists Loaded0,
      (forall K, K <> NamespaceKey E ->
         Loaded0 !! K = FieldsOf (FGitSourceControlStatusFile.LoadedData f) !! K)
      /\ ((FGitSourceControlStatusFile.CanSerialize E Loaded0
           && FGitSourceControlStatusFile.CanWrite E StatusFilePath = false
           /\ (if negb (FGitSourceControlStatusFile.CanSerialize E Loaded)
               then Returned (false,
                      FGitSourceControlStatusFile.set_LoadedData (Some Loaded) f, d)
               else if negb (FGitSourceControlStatusFile.CanWrite E StatusFilePath)
                    then Returned (false,
                           FGitSourceControlStatusFile.set_LoadedData (Some Loaded) f, d)
                    else Returned (true,
                           FGitSourceControlStatusFile.ClearCache
                             (FGitSourceControlStatusFile.set_bDirty false
                                (FGitSourceControlStatusFile.set_LoadedData (Some Loaded) f)),
                           <[StatusFilePath := Loaded]> d))
              = Returned (false,
                  FGitSourceControlStatusFile.set_LoadedData (Some Loaded0) f, d))
          \/ (FGitSourceControlStatusFile.CanSerialize E Loaded0
              && FGitSourceControlStatusFile.CanWrite E StatusFilePath = true
              /\ (if negb (FGitSourceControlStatusFile.CanSerialize E Loaded)
                  then Returned (false,
                         FGitSourceControlStatusFile.set_LoadedData (Some Loaded) f, d)
                  else if negb (FGitSourceControlStatusFile.CanWrite E StatusFilePath)
                       then Returned (false,
                              FGitSourceControlStatusFile.set_LoadedData (Some Loaded) f, d)
                       else Returned (true,
                              FGitSourceControlStatusFile.ClearCache
                                (FGitSourceControlStatusFile.set_bDirty false
                                   (FGitSourceControlStatusFile.set_LoadedData
                                      (Some Loaded) f)),
                              <[StatusFilePath := Loaded]> d))
                 = Returned (true,
                     FGitSourceControlStatusFile.ClearCache
                       (FGitSourceControlStatusFile.set_bDirty false
                          (FGitSourceControlStatusFile.set_LoadedData (Some Loaded0) f)),
                     <[StatusFilePath := Loaded0]> d)))).
  { intros Loaded HK. exists Loaded. split; [exact HK|].
    destruct (FGitSourceControlStatusFile.CanSerialize E Loaded),
             (FGitSourceControlStatusFile.CanWrite E StatusFilePath); simpl;
      [right | left | left | left]; split; reflexivity. }
  destruct (0 <? Z.of_nat (size (FGitSourceControlStatusFile.SavedStates f)))%Z eqn:Hsize.
  - right. split; [reflexivity|].
    split.
    { left. intros Hempty. rewrite Hempty, map_size_empty in Hsize. discriminate. }
    destruct (0 <? Z.of_nat (size (FGitSourceControlStatusFile.JsonStatesOf E _ _)))%Z;
      cbn [FGitSourceControlStatusFile.LoadedData FGitSourceControlStatusFile.set_LoadedData];
      apply Hfinish; intros K HK; unfold FieldsOf;
      destruct (FGitSourceControlStatusFile.LoadedData f);
      rewrite ?lookup_insert_ne, ?lookup_delete_ne by congruence; reflexivity.
  - assert (Hempty : FGitSourceControlStatusFile.SavedStates f = ∅).
    { apply map_size_empty_iff. apply Z.ltb_ge in Hsize. lia. }
    destruct (FGitSourceControlStatusFile.LoadedData f) as [Loaded|] eqn:HL.
    + right. split; [reflexivity|]. split; [right; discriminate|].
      cbn [FGitSourceControlStatusFile.LoadedData FGitSourceControlStatusFile.set_LoadedData].
      apply Hfinish. intros K HK. unfold FieldsOf.
      now rewrite lookup_delete_ne by congruence.
    + left. rewrite HL. repeat split; assumption.
Qed.

(** X12. What a [Save] that returns does.  It never changes the entries of
    the ledger and never touches the namespaces of other remotes and
    branches in the loaded document.  When the ledger is neither dirty nor
    the save forced, nothing happens and the result is true.  A save that
    returns false has written nothing and has left the dirty flag and the
    snapshot alone; a save that goes to disk and returns true has written
    the loaded document to the status file and to no other file, and has
    cleared the dirty flag and the snapshot. *)
Theorem Save_effects E (Root : FString) (bForce : bool)
    (f f' : FGitSourceControlStatusFile.t) (d d' : FGitSourceControlStatusFile.Disk)
    (b : bool) :
  FGitSourceControlStatusFile.Save E Root bForce f d = Returned (b, f', d') ->
  let StatusFilePath :=
    FGitSourceControlStatusFile.Combine E Root
      FGitSourceControlStatusFile.GitStatusFileName in
  FGitSourceControlStatusFile.SavedStates f' = FGitSourceControlStatusFile.SavedStates f
  /\ (forall K, K <> NamespaceKey E ->
      FieldsOf (FGitSourceControlStatusFile.LoadedData f') !! K
      = FieldsOf (FGitSourceControlStatusFile.LoadedData f) !! K)
  /\ (FGitSourceControlStatusFile.bDirty f || bForce = false ->
      b = true /\ f' = f /\ d' = d)
  /\ (b = false ->
      d' = d
      /\ FGitSourceControlStatusFile.bDirty f' = FGitSourceControlStatusFile.bDirty f
      /\ FGitSourceControlStatusFile.CachedStates f'
         = FGitSourceControlStatusFile.CachedStates f)
  /\ (b = true -> FGitSourceControlStatusFile.bDirty f || bForce = true ->
      d' !! StatusFilePath = FGitSourceControlStatusFile.LoadedData f'
      /\ (forall Path, Path <> StatusFilePath -> d' !! Path = d !! Path)
      /\ FGitSourceControlStatusFile.bDirty f' = false
      /\ FGitSourceControlStatusFile.CachedStates f' = ∅).
Proof.
  intros Hrun StatusFilePath.
  split; [exact (Save_SavedStates _ _ _ _ _ _ _ _ Hrun)|].
  destruct (Save_cases E Root bForce f d)
    as [(Hgo & Hsave) | [(Hgo & _ & _ & Hsave)
                        | (Hgo & _ & Loaded & HK & [(_ & Hsave) | (_ & Hsave)])]];
    rewrite Hsave in Hrun; try discriminate;
    injection Hrun as <- <- <-; fold StatusFilePath.
  - repeat split; try reflexivity; try discriminate; congruence.
  - split; [exact HK|].
    repeat split; try reflexivity; try discriminate; congruence.
  - split; [exact HK|].
    repeat split; try reflexivity; try discriminate; try congruence.
    + simpl. apply lookup_insert_eq.
    + intros Path Hne. unfold FGitSourceControlStatusFile.Disk in *.
      now rewrite lookup_insert_ne by congruence.
Qed.

Lemma Save_effects_witness :
  let L : gmap string FJsonValue :=
    <[NamespaceKey WritableDisk :=
        FJsonValueObject
          (FGitSourceControlStatusFile.JsonStatesOf WritableDisk "/repo/"
             (FGitSourceControlStatusFile.SavedStates ExampleLedger))]> ∅ in
  let f' := FGitSourceControlStatusFile.ClearCache
              (FGitSourceControlStatusFile.set_bDirty false
                 (FGitSourceControlStatusFile.set_LoadedData (Some L) ExampleLedger)) in
  let d' : FGitSourceControlStatusFile.Disk := <["/repo/.git/gitcentral/status" := L]> ∅ in
  FGitSourceControlStatusFile.Save WritableDisk "/repo" true ExampleLedger ∅
    = Returned (true, f', d')
  /\ d' !! "/repo/.git/gitcentral/status" = FGitSourceControlStatusFile.LoadedData f'
  /\ FGitSourceControlStatusFile.bDirty f' = false
  /\ FGitSourceControlStatusFile.CachedStates f' = ∅
  /\ FGitSourceControlStatusFile.SavedStates f'
     = FGitSourceControlStatusFile.SavedStates ExampleLedger.
Proof.
  intros L f' d'.
  assert (Hrun : FGitSourceControlStatusFile.Save WritableDisk "/repo" true ExampleLedger ∅
                 = Returned (true, f', d')) by reflexivity.
  split; [exact Hrun|].
  destruct (Save_effects WritableDisk "/repo" true ExampleLedger f' ∅ d' true Hrun)
    as (Hsaved & _ & _ & _ & Hwritten).
  destruct (Hwritten eq_refl eq_refl) as (Hfile & _ & Hdirty & Hcache).
  repeat split; assumption.
Defined.

(** X13. [Save] stops in a failed assertion in exactly one situation: the
    ledger is dirty or the save is forced, it has no entry, and no document
    was ever loaded or built (the writer is handed a null document). *)
Theorem Save_assertion_iff E (Root : FString) (bForce : bool)
    (f : FGitSourceControlStatusFile.t) (d : FGitSourceControlStatusFile.Disk) :
  FGitSourceControlStatusFile.Save E Root bForce f d = AssertionFailed <->
  FGitSourceControlStatusFile.bDirty f || bForce = true
  /\ FGitSourceControlStatusFile.SavedStates f = ∅
  /\ FGitSourceControlStatusFile.LoadedData f = None.
Proof.
  destruct (Save_cases E Root bForce f d)
    as [(Hgo & Hsave) | [(Hgo & He & Hl & Hsave)
                        | (Hgo & Hne & Loaded & _ & [(_ & Hsave) | (_ & Hsave)])]];
    rewrite Hsave; split; try discriminate; try tauto;
    intros (Hgo' & He & Hl); try congruence; destruct Hne; contradiction.
Qed.

(** ** Get latest: messages, updated files and the ledger *)

(** [RemoveSingleSwap] takes one occurrence of the file out of the array
    and keeps every other element, with its multiplicity; an array that
    does not hold the file is left as it is. *)
Lemma RemoveSingleSwap_spec (Item : FString) (l : list FString) :
  (Item ∉ l -> Sync.RemoveSingleSwap Item l = l)
  /\ (Item ∈ l -> Item :: Sync.RemoveSingleSwap Item l ≡ₚ l).
Proof.
  induction l as [|x l IH]; simpl.
  - split; [reflexivity | intros H; inversion H].
  - destruct (String.eqb_spec x Item) as [-> | Hne].
    + split; [intros Hnot; exfalso; apply Hnot; left|].
      intros _. destruct (reverse l) as [|y r] eqn:Hrev.
      * apply (f_equal reverse) in Hrev. rewrite reverse_involutive in Hrev.
        now subst l.
      * apply (f_equal reverse) in Hrev. rewrite reverse_involutive in Hrev.
        subst l. rewrite reverse_cons. apply Permutation_cons; [reflexivity|].
        apply Permutation_cons_append.
    + destruct IH as (IHnot & IHin). split.
      * intros Hnot. f_equal. apply IHnot. intros Hin. apply Hnot. now right.
      * intros Hin. apply elem_of_cons in Hin as [-> | Hin]; [congruence|].
        rewrite Permutation_swap. apply Permutation_cons; [reflexivity|]. now apply IHin.
Qed.

Section ConflictLoop.
Context {B : GitBackend} (C : Sync.Settings).

Lemma RunLogged_UpdatedFiles Command Parameters Files (s : Sync.State B) :
  Sync.UpdatedFiles (Sync.RunLogged Command Parameters Files s).2 = Sync.UpdatedFiles s.
Proof.
  unfold Sync.RunLogged, Sync.Run.
  destruct (RunCommand B Command Parameters Files (Sync.TheWorld s)) as [[[b o] e] w].
  reflexivity.
Qed.

(** X14. The loop of the rebase that resolves conflicts takes out of
    [UpdatedFiles] one occurrence of each conflicted file it comes across
    that is listed, and nothing else: the files taken out and the files
    left make up the list from before, every file taken out is a conflicted
    file of the status result, and every conflicted file that was listed
    is among those taken out. *)
Theorem ResolveConflicts_UpdatedFiles (RemoteSha : FString)
    (StatusResult : list (FString * FGitSourceControlState)) (s s' : Sync.State B) :
  Sync.ResolveConflicts C RemoteSha StatusResult s = Some s' ->
  exists Removed,
    Sync.UpdatedFiles s ≡ₚ Removed ++ Sync.UpdatedFiles s'
    /\ Forall (fun File => exists State, (File, State) ∈ StatusResult
                                         /\ IsConflicted State = true) Removed
    /\ (forall File State, (File, State) ∈ StatusResult -> IsConflicted State = true ->
          File ∈ Sync.UpdatedFiles s -> File ∈ Removed).
Proof.
  revert s. induction StatusResult as [|[File State] l IH]; intros s; simpl.
  - intros [= <-]. exists []. split; [reflexivity|]. split; [constructor|].
    intros File State Hin. now apply elem_of_nil in Hin.
  - destruct (IsConflicted State) eqn:Hconf.
    + pose proof (RunLogged_UpdatedFiles "checkout --theirs" [] [File] s) as Hu.
      destruct (Sync.RunLogged "checkout --theirs" [] [File] s) as [[b o] s1].
      simpl in Hu. cbn [Sync.Cache Sync.set_CommandSuccessful].
      destruct (GetStateInternal File (Sync.Cache s1)) as [LocalState cache].
      set (Marked := if IsConflicted LocalState then _ else _).
      destruct Marked as [[[bMarked f] d]|]; [|discriminate].
      intros Hrec. apply IH in Hrec as (Removed & Hperm & Hall & Hcover).
      cbn [Sync.UpdatedFiles Sync.set_UpdatedFiles Sync.set_Ledger Sync.set_Cache
           Sync.set_CommandSuccessful] in Hperm, Hcover.
      rewrite Hu in Hperm, Hcover.
      destruct (RemoveSingleSwap_spec File (Sync.UpdatedFiles s)) as (Hnot & Hin).
      destruct (decide (File ∈ Sync.UpdatedFiles s)) as [Hmem | Hmem].
      * exists (File :: Removed). split; [|split].
        -- rewrite <- (Hin Hmem). simpl. now rewrite Hperm.
        -- constructor; [exists State; split; [left | exact Hconf]|].
           eapply Forall_impl; [exact Hall|]. intros F (St & HF & HSt).
           exists St. split; [now right | exact HSt].
        -- intros F St HF HSt HFin. destruct (decide (F = File)) as [-> | Hne]; [left|].
           right. apply elem_of_cons in HF as [[= -> ->] | HF]; [congruence|].
           apply (Hcover F St HF HSt).
           assert (Hin' : F ∈ File :: Sync.RemoveSingleSwap File (Sync.UpdatedFiles s))
             by (rewrite (Hin Hmem); exact HFin).
           apply elem_of_cons in Hin' as [-> | Hin']; [congruence | exact Hin'].
      * rewrite (Hnot Hmem) in Hperm, Hcover. exists Removed. split; [exact Hperm|]. split.
        -- eapply Forall_impl; [exact Hall|]. intros F (St & HF & HSt).
           exists St. split; [now right | exact HSt].
        -- intros F St HF HSt HFin.
           apply elem_of_cons in HF as [[= -> ->] | HF]; [contradiction|].
           now apply (Hcover F St HF HSt).
    + intros Hrec. apply IH in Hrec as (Removed & Hperm & Hall & Hcover).
      exists Removed. split; [exact Hperm|]. split.
      * eapply Forall_impl; [exact Hall|]. intros F (St & HF & HSt).
        exists St. split; [now right | exact HSt].
      * intros F St HF HSt HFin.
        apply elem_of_cons in HF as [[= -> ->] | HF]; [congruence|].
        now apply (Hcover F St HF HSt).
Qed.

End ConflictLoop.

Lemma ResolveConflicts_UpdatedFiles_witness :
  exists s',
    Sync.ResolveConflicts ExampleSettingsWritable "9c4e"
      [("/repo/a.uasset", ExampleState "/repo/a.uasset" Conflicted);
       ("/repo/b.uasset", ExampleState "/repo/b.uasset" Modified)]
      (ConflictedSync ["/repo/b.uasset"; "/repo/a.uasset"; "/repo/c.uasset"]) = Some s'
    /\ Sync.UpdatedFiles s' = ["/repo/b.uasset"; "/repo/c.uasset"]
    /\ exists Removed,
         ["/repo/b.uasset"; "/repo/a.uasset"; "/repo/c.uasset"]
           ≡ₚ Removed ++ Sync.UpdatedFiles s'.
Proof.
  destruct (Sync.ResolveConflicts ExampleSettingsWritable "9c4e"
      [("/repo/a.uasset", ExampleState "/repo/a.uasset" Conflicted);
       ("/repo/b.uasset", ExampleState "/repo/b.uasset" Modified)]
      (ConflictedSync ["/repo/b.uasset"; "/repo/a.uasset"; "/repo/c.uasset"]))
    as [s'|] eqn:Hrun; [|vm_compute in Hrun; discriminate].
  exists s'. split; [reflexivity|].
  destruct (ResolveConflicts_UpdatedFiles _ _ _ _ _ Hrun) as (Removed & Hperm & _).
  split; [|exists Removed; exact Hperm].
  vm_compute in Hrun. injection Hrun as <-. reflexivity.
Defined.

(** X15. [RemoveRedundantErrors] loses no message: the errors that contain
    the filter are moved, in order, to the end of the info messages and the
    other errors stay, in order.  Afterwards no error contains the filter.
    The command is successful afterwards exactly when it was before or when
    some error was moved and none is left; nothing else changes. *)
Theorem RemoveRedundantErrors_moves_errors {B : GitBackend} (InFilter : FString)
    (s : Sync.State B) :
  let s' := Sync.RemoveRedundantErrors InFilter s in
  Sync.Infos s' ++ Sync.Errors s' ≡ₚ Sync.Infos s ++ Sync.Errors s
  /\ Sync.Infos s' = Sync.Infos s
       ++ List.filter (fun e => Contains B e InFilter) (Sync.Errors s)
  /\ Sync.Errors s' = List.filter (fun e => negb (Contains B e InFilter)) (Sync.Errors s)
  /\ Forall (fun e => Contains B e InFilter = false) (Sync.Errors s')
  /\ Sync.CommandSuccessful s'
     = Sync.CommandSuccessful s
       || (existsb (fun e => Contains B e InFilter) (Sync.Errors s)
           && forallb (fun e => Contains B e InFilter) (Sync.Errors s))
  /\ Sync.SameLedgerAndResults s (Sync.set_CommandSuccessful (Sync.CommandSuccessful s) s')
  /\ Sync.TheWorld s' = Sync.TheWorld s /\ Sync.Issued s' = Sync.Issued s.
Proof.
  assert (Hf1 : forall l : list FString,
            filter (fun e => Contains B e InFilter = true) l
            = List.filter (fun e => Contains B e InFilter) l).
  { induction l as [|x l IH]; [reflexivity|].
    rewrite filter_cons. destruct (decide _) as [H | H]; simpl.
    - rewrite H. now rewrite IH.
    - destruct (Contains B x InFilter); [now destruct H | exact IH]. }
  assert (Hf2 : forall l : list FString,
            filter (fun e => Contains B e InFilter <> true) l
            = List.filter (fun e => negb (Contains B e InFilter)) l).
  { induction l as [|x l IH]; [reflexivity|].
    rewrite filter_cons. destruct (decide _) as [H | H]; simpl.
    - destruct (Contains B x InFilter); [now destruct H | simpl; now rewrite IH].
    - destruct (Contains B x InFilter); [exact IH | destruct H; discriminate]. }
  assert (Hperm : forall l : list FString,
            List.filter (fun e => Contains B e InFilter) l
            ++ List.filter (fun e => negb (Contains B e InFilter)) l ≡ₚ l).
  { induction l as [|x l IH]; [reflexivity|]. simpl.
    destruct (Contains B x InFilter); simpl.
    - now apply Permutation_cons.
    - rewrite <- Permutation_middle. now apply Permutation_cons. }
  assert (Hnone : forall l : list FString,
            bool_decide (List.filter (fun e => Contains B e InFilter) l = [])
            = negb (existsb (fun e => Contains B e InFilter) l)).
  { induction l as [|x l IH]; [reflexivity|]. simpl.
    destruct (Contains B x InFilter); simpl; [reflexivity | exact IH]. }
  assert (Hall : forall l : list FString,
            bool_decide (List.filter (fun e => negb (Contains B e InFilter)) l = [])
            = forallb (fun e => Contains B e InFilter) l).
  { induction l as [|x l IH]; [reflexivity|]. simpl.
    destruct (Contains B x InFilter); simpl; [exact IH | reflexivity]. }
  intros s'. subst s'. unfold Sync.RemoveRedundantErrors.
  cbn [Sync.Errors Sync.Infos Sync.set_Infos Sync.set_Errors Sync.CommandSuccessful].
  rewrite Hf1, Hf2, Hnone, Hall, negb_involutive.
  set (moved := List.filter (fun e => Contains B e InFilter) (Sync.Errors s)).
  set (kept := List.filter (fun e => negb (Contains B e InFilter)) (Sync.Errors s)).
  assert (Hkept : Forall (fun e => Contains B e InFilter = false) kept).
  { apply List.Forall_forall. intros e He. apply List.filter_In in He as (_ & He).
    now apply negb_true_iff. }
  destruct (existsb _ _ && forallb _ _ && negb (Sync.CommandSuccessful s)) eqn:Hpromote;
    simpl.
  - apply andb_true_iff in Hpromote as (-> & Hfail). apply negb_true_iff in Hfail.
    rewrite Hfail. simpl.
    repeat split; try reflexivity; try exact Hkept.
    + rewrite <- app_assoc. apply Permutation_app_head. apply Hperm.
    + symmetry; exact Hfail.
  - repeat split; try reflexivity; try exact Hkept.
    + rewrite <- app_assoc. apply Permutation_app_head. apply Hperm.
    + destruct (Sync.CommandSuccessful s); [reflexivity|].
      simpl in *. now rewrite andb_true_r in Hpromote.
Qed.

Section GetLatestLedger.
Context {B : GitBackend} (C : Sync.Settings).

Lemma Run_ledger Command Parameters Files (s : Sync.State B) :
  Sync.StatusFile (Sync.Run Command Parameters Files s).2 = Sync.StatusFile s
  /\ Sync.TheDisk (Sync.Run Command Parameters Files s).2 = Sync.TheDisk s.
Proof.
  unfold Sync.Run.
  destruct (RunCommand B Command Parameters Files (Sync.TheWorld s)) as [[[b o] e] w].
  split; reflexivity.
Qed.

Lemma RunLogged_ledger Command Parameters Files (s : Sync.State B) :
  Sync.StatusFile (Sync.RunLogged Command Parameters Files s).2 = Sync.StatusFile s
  /\ Sync.TheDisk (Sync.RunLogged Command Parameters Files s).2 = Sync.TheDisk s.
Proof.
  unfold Sync.RunLogged.
  pose proof (Run_ledger Command Parameters Files s) as H.
  destruct (Sync.Run Command Parameters Files s) as [[[b o] e] s1]. exact H.
Qed.

Lemma RemoveRedundantErrors_ledger InFilter (s : Sync.State B) :
  Sync.StatusFile (Sync.RemoveRedundantErrors InFilter s) = Sync.StatusFile s
  /\ Sync.TheDisk (Sync.RemoveRedundantErrors InFilter s) = Sync.TheDisk s.
Proof.
  unfold Sync.RemoveRedundantErrors.
  destruct (_ && _ && _); split; reflexivity.
Qed.

Lemma ResolveConflicts_snapshot RemoteSha StatusResult (s s' : Sync.State B) :
  Sync.ResolveConflicts C RemoteSha StatusResult s = Some s' ->
  SameSnapshot s s'.
Proof.
  revert s. induction StatusResult as [|It l IH]; intros s; simpl.
  - intros [= <-]. split; reflexivity.
  - destruct (IsConflicted It.2); [|apply IH].
    pose proof (RunLogged_ledger "checkout --theirs" [] [It.1] s) as (Hf & Hd).
    destruct (Sync.RunLogged "checkout --theirs" [] [It.1] s) as [[b o] s1].
    simpl in Hf, Hd.
    cbn [Sync.Cache Sync.set_CommandSuccessful].
    destruct (GetStateInternal It.1 (Sync.Cache s1)) as [LocalState cache].
    cbn [Sync.StatusFile Sync.TheDisk Sync.set_Cache Sync.set_CommandSuccessful].
    destruct (IsConflicted LocalState).
    + rewrite SetState_unsaved. intros Hrec. apply IH in Hrec as (Hc & Hd').
      simpl in Hc, Hd'. split; congruence.
    + intros Hrec. apply IH in Hrec as (Hc & Hd').
      simpl in Hc, Hd'. split; congruence.
Qed.

Lemma RebaseLoop_snapshot fuel RemoteSha PullRebaseResult StdErr (s s' : Sync.State B)
    StdErr' :
  Sync.RebaseLoop C fuel RemoteSha PullRebaseResult StdErr s = Sync.Finished (StdErr', s') ->
  SameSnapshot s s'.
Proof.
  revert PullRebaseResult StdErr s.
  induction fuel as [|fuel IH]; intros PullRebaseResult StdErr s; simpl.
  - destruct (_ && _); [discriminate|]. intros [= _ <-]. split; reflexivity.
  - destruct (_ && _); [|intros [= _ <-]; split; reflexivity].
    pose proof (RunLogged_ledger "status --porcelain" [] []
                  (Sync.set_CommandSuccessful true s)) as (Hf1 & Hd1).
    destruct (Sync.RunLogged "status --porcelain" [] []
                (Sync.set_CommandSuccessful true s)) as [[b1 o1] s1].
    simpl in Hf1, Hd1.
    destruct (Sync.ResolveConflicts C RemoteSha _ s1) as [s2|] eqn:Hres; [|discriminate].
    apply ResolveConflicts_snapshot in Hres as (Hc2 & Hd2).
    pose proof (RunLogged_ledger "add ." [] [] s2) as (Hf3 & Hd3).
    destruct (Sync.RunLogged "add ." [] [] s2) as [[b3 o3] s3].
    simpl in Hf3, Hd3.
    pose proof (Run_ledger "rebase --continue" [] []
                  (Sync.set_CommandSuccessful (Sync.CommandSuccessful s3 && b3) s3))
      as (Hf4 & Hd4).
    destruct (Sync.Run "rebase --continue" [] []
                (Sync.set_CommandSuccessful (Sync.CommandSuccessful s3 && b3) s3))
      as [[[b4 o4] e4] s4].
    simpl in Hf4, Hd4.
    intros Hrec. apply IH in Hrec as (Hc & Hd). simpl in Hc, Hd.
    split; congruence.
Qed.

Lemma ResetCheckedOutRevisions_spec (l : list (FString * SavedState.t))
    (f : FGitSourceControlStatusFile.t) (d : FGitSourceControlStatusFile.Disk) :
  exists f',
    Sync.ResetCheckedOutRevisions C l f d = Returned (f', d)
    /\ FGitSourceControlStatusFile.CachedStates f'
       = FGitSourceControlStatusFile.CachedStates f
    /\ FGitSourceControlStatusFile.LoadedData f'
       = FGitSourceControlStatusFile.LoadedData f
    /\ forall Path e,
         FGitSourceControlStatusFile.SavedStates f' !! Path = Some e ->
         PinReset e
         \/ ((Path ∉ l.*1) /\ FGitSourceControlStatusFile.SavedStates f !! Path = Some e).
Proof.
  revert f. induction l as [|It l IH]; intros f; simpl.
  - exists f. repeat split. intros Path e He. right. split; [|exact He].
    intros H. inversion H.
  - rewrite SetState_unsaved.
    edestruct IH as (f' & -> & Hc & Hl & Hentries).
    exists f'. split; [reflexivity|]. split; [exact Hc|]. split; [exact Hl|].
    intros Path e He. destruct (Hentries Path e He) as [Hgood | (Hnot & Hold)];
      [now left|].
    simpl in Hold. destruct (decide (It.1 = Path)) as [<- | Hne].
    + rewrite lookup_insert_eq in Hold. injection Hold as <-. left.
      split; [reflexivity|]. simpl.
      destruct (EWorkingCopyState.eqb (SavedState.State It.2) Deleted) eqn:Hdel; simpl.
      * discriminate.
      * intros Heq. rewrite Heq in Hdel. discriminate.
    + rewrite lookup_insert_ne in Hold by exact Hne. right. split; [|exact Hold].
      intros Hin. apply elem_of_cons in Hin as [-> | Hin]; [now apply Hne | now apply Hnot].
Qed.

End GetLatestLedger.

Section GetLatestOutcome.
Context {B : GitBackend} (C : Sync.Settings).

Ltac top H :=
  lazymatch type of H with
  | (match ?x with _ => _ end) = _ =>
      lazymatch x with
      | Sync.RunLogged ?c ?p ?f ?s =>
          let Hf := fresh "Hf" in let Hd := fresh "Hd" in
          pose proof (RunLogged_ledger c p f s) as (Hf & Hd);
          destruct x as [[? ?] ?]; cbn [fst snd] in Hf, Hd
      | Sync.Run ?c ?p ?f ?s =>
          let Hf := fresh "Hf" in let Hd := fresh "Hd" in
          pose proof (Run_ledger c p f s) as (Hf & Hd);
          destruct x as [[[? ?] ?] ?]; cbn [fst snd] in Hf, Hd
      | Sync.RebaseLoop _ _ _ _ _ _ =>
          let E := fresh "Eloop" in
          destruct x as [[? ?]| |] eqn:E; [apply RebaseLoop_snapshot in E | discriminate H | discriminate H]
      | _ => let E := fresh "E" in destruct x eqn:E
      end
  | (if ?c then _ else _) = _ => let E := fresh "E" in destruct c eqn:E
  end.

Ltac chase :=
  repeat (simpl;
          match goal with
          | Hx : Sync.StatusFile ?a = _ |- context [Sync.StatusFile ?a] => rewrite Hx
          | Hx : Sync.TheDisk ?a = _ |- context [Sync.TheDisk ?a] => rewrite Hx
          end);
  simpl; try assumption; try congruence.

Ltac topg :=
  match goal with
  | |- context [Sync.Run ?c ?p ?f ?s] =>
      let Hf := fresh "Hf" in let Hd := fresh "Hd" in
      pose proof (Run_ledger c p f s) as (Hf & Hd);
      destruct (Sync.Run c p f s) as [[[? ?] ?] ?]; cbn [fst snd] in Hf, Hd
  | |- context [Sync.RunLogged ?c ?p ?f ?s] =>
      let Hf := fresh "Hf" in let Hd := fresh "Hd" in
      pose proof (RunLogged_ledger c p f s) as (Hf & Hd);
      destruct (Sync.RunLogged c p f s) as [[? ?] ?]; cbn [fst snd] in Hf, Hd
  end.

Lemma GetLatest_outcome (fuel : nat) (s s' : Sync.State B) (b : bool) :
  Sync.GetLatest C fuel s = Sync.Finished (b, s') ->
  (b = false ->
   FGitSourceControlStatusFile.SavedStates (Sync.StatusFile s')
   = FGitSourceControlStatusFile.SavedStates (Sync.StatusFile s)
   /\ Sync.TheDisk s' = Sync.TheDisk s)
  /\ (b = true ->
      s' = Sync.AfterOpeningQueries C s
      \/ (FGitSourceControlStatusFile.bDirty (Sync.StatusFile s') = false
          /\ forall Path e,
               FGitSourceControlStatusFile.SavedStates (Sync.StatusFile s') !! Path = Some e ->
               PinReset e)).
Proof.
  unfold Sync.GetLatest.
  assert (Hafter : Sync.AfterOpeningQueries C s
                   = (Sync.GetMergeBase (Sync.Branch C) (Sync.GetRemoteBranch C)
                        (Sync.GetCommitShaForBranch (Sync.GetRemoteBranch C)
                           (Sync.RunCheckIndexValid s).2).2).2) by reflexivity.
  pose proof (RunCheckIndexValid_frame s) as ((Hf1 & Hd1 & _) & _).
  destruct (Sync.RunCheckIndexValid s) as [IndexValid s1]. simpl in Hf1, Hd1, Hafter.
  destruct (negb (GitIndexState.eqb IndexValid GitIndexState.Valid)).
  { intros [= <- <-]. split; [|discriminate]. intros _. simpl. split; congruence. }
  pose proof (GetCommitShaForBranch_frame (Sync.GetRemoteBranch C) s1) as ((Hf2 & Hd2 & _) & _).
  destruct (Sync.GetCommitShaForBranch (Sync.GetRemoteBranch C) s1) as [RemoteSha s2].
  simpl in Hf2, Hd2, Hafter.
  destruct (IsEmpty RemoteSha).
  { intros [= <- <-]. split; [|discriminate]. intros _. simpl. split; congruence. }
  pose proof (GetMergeBase_frame (Sync.Branch C) (Sync.GetRemoteBranch C) s2)
    as ((Hf3 & Hd3 & _) & _).
  destruct (Sync.GetMergeBase (Sync.Branch C) (Sync.GetRemoteBranch C) s2) as [MergeBase s3].
  simpl in Hf3, Hd3, Hafter.
  destruct (IsEmpty MergeBase).
  { intros [= <- <-]. split; [|discriminate]. intros _. simpl. split; congruence. }
  destruct (String.eqb MergeBase RemoteSha).
  { intros [= <- <-]. split; [discriminate|]. intros _. left. now rewrite Hafter. }
  assert (Hsaved0 : FGitSourceControlStatusFile.SavedStates (Sync.StatusFile s3)
                    = FGitSourceControlStatusFile.SavedStates (Sync.StatusFile s))
    by congruence.
  assert (Hdisk0 : Sync.TheDisk s3 = Sync.TheDisk s) by congruence.
  clear Hf1 Hd1 Hf2 Hd2 Hf3 Hd3. revert Hsaved0 Hdisk0.
  generalize (Sync.AfterOpeningQueries C s) as After. clear Hafter. intros After.
  generalize (FGitSourceControlStatusFile.SavedStates (Sync.StatusFile s)) as Saved0.
  generalize (Sync.TheDisk s) as Disk0. clear s s1 s2.
  intros Disk0 Saved0 Hsaved0 Hdisk0 H.
  cbv zeta in H.
  top H. simpl in Hf, Hd.
  (* the stash *)
  match type of H with
  | (match ?x with _ => _ end) = _ => destruct x as [bStashFailed s5] eqn:Estash
  end.
  assert (Hstash :
    (bStashFailed = true ->
     FGitSourceControlStatusFile.SavedStates (Sync.StatusFile s5) = Saved0
     /\ Sync.TheDisk s5 = Disk0)
    /\ (bStashFailed = false ->
        FGitSourceControlStatusFile.CachedStates (Sync.StatusFile s5) = Saved0
        /\ Sync.TheDisk s5 = Disk0)).
  { clear H. repeat top Estash; injection Estash as <- <-;
      (split; intros Hb; [try discriminate Hb | try discriminate Hb]);
      simpl in *; split; chase. }
  clear Estash. destruct Hstash as (Hfailed & Hstashed).
  destruct bStashFailed.
  { injection H as <- <-. split; [intros _; now apply Hfailed | discriminate]. }
  destruct (Hstashed eq_refl) as (Hc5 & Hd5). clear Hfailed Hstashed Hf Hd Hsaved0 Hdisk0.
  (* the diff *)
  top H. simpl in Hf, Hd. top H.
  { injection H as <- <-. split; [|discriminate]. intros _. split; chase. }
  (* the rebase *)
  top H. simpl in Hf0, Hd0. top H. destruct Eloop as (Hc7 & Hd7). simpl in Hc7, Hd7.
  top H.
  { top H. injection H as <- <-. split; [intros _ | discriminate].
    destruct (negb (bool_decide (l = []))); [topg|]; split; chase. }
  (* the rebase went through *)
  match type of H with
  | context [Sync.ResetCheckedOutRevisions C
               (map_to_list (FGitSourceControlStatusFile.SavedStates
                               (Sync.StatusFile ?x)))] =>
      remember x as s8 eqn:Hs8
  end.
  assert (H8 : FGitSourceControlStatusFile.CachedStates (Sync.StatusFile s8) = Saved0
               /\ Sync.TheDisk s8 = Disk0).
  { clear H.
    pose proof (RemoveRedundantErrors_ledger "path from the index" s2) as (Hr1 & Hr2).
    subst s8.
    match goal with |- context [if ?c then _ else _] => destruct c end;
      [topg; topg|]; split; chase. }
  clear Hs8. destruct H8 as (Hc8 & Hd8).
  destruct (ResetCheckedOutRevisions_spec C
              (map_to_list (FGitSourceControlStatusFile.SavedStates (Sync.StatusFile s8)))
              (Sync.StatusFile s8) (Sync.TheDisk s8))
    as (f9 & Hreset & Hc9 & _ & Hentries).
  rewrite Hreset in H.
  destruct (FGitSourceControlStatusFile.Save (Sync.Ledger C) (Sync.PathToRepositoryRoot C)
              false f9 (Sync.TheDisk s8)) as [[[bs f10] d10]|] eqn:Hsave; [|discriminate].
  pose proof (Save_effects _ _ _ _ _ _ _ _ Hsave) as (Hs10 & _ & Hnoop & Hfail & Hok).
  destruct bs.
  - destruct (RunUpdateStatus B _ _ _) as [[[? ?] ?] ?]. injection H as <- <-.
    split; [discriminate|]. intros _. right. simpl. split.
    + destruct (FGitSourceControlStatusFile.bDirty f9 || false) eqn:Hgo.
      * now apply Hok.
      * destruct (Hnoop eq_refl) as (_ & -> & _).
        now apply orb_false_iff in Hgo as (-> & _).
    + intros Path e He. rewrite Hs10 in He.
      destruct (Hentries Path e He) as [Hgood | (Hnot & Hold)]; [exact Hgood|].
      exfalso. apply Hnot. apply list_elem_of_fmap. exists (Path, e).
      split; [reflexivity|]. now apply elem_of_map_to_list.
  - injection H as <- <-. split; [intros _ | discriminate].
    destruct (Hfail eq_refl) as (-> & _ & Hc10). simpl. split; congruence.
Qed.

End GetLatestOutcome.

(** X16. A get-latest that returns failure leaves the entries of the ledger
    as they were when it started, whatever it did to them on the way, and
    has written nothing to the status file. *)
Theorem GetLatest_failure_keeps_ledger {B : GitBackend} (C : Sync.Settings)
    (fuel : nat) (s s' : Sync.State B) :
  Sync.GetLatest C fuel s = Sync.Finished (false, s') ->
  FGitSourceControlStatusFile.SavedStates (Sync.StatusFile s')
  = FGitSourceControlStatusFile.SavedStates (Sync.StatusFile s)
  /\ (forall Path,
      FGitSourceControlStatusFile.GetState (Sync.StatusFile s') Path
      = FGitSourceControlStatusFile.GetState (Sync.StatusFile s) Path)
  /\ Sync.TheDisk s' = Sync.TheDisk s.
Proof.
  intros Hrun. destruct (GetLatest_outcome C fuel s s' false Hrun) as (Hfail & _).
  destruct (Hfail eq_refl) as (Hsaved & Hdisk).
  split; [exact Hsaved|]. split; [|exact Hdisk].
  intros Path. unfold FGitSourceControlStatusFile.GetState. now rewrite Hsaved.
Qed.

Lemma GetLatest_failure_keeps_ledger_witness :
  exists s',
    Sync.GetLatest ExampleSettingsWritable 0 (ExampleSyncBehind true)
      = Sync.Finished (false, s')
    /\ In "pull --rebase" (Sync.Issued s')
    /\ FGitSourceControlStatusFile.GetState (Sync.StatusFile s') "/repo/a.uasset"
       = SavedState.mk Unknown "1f3a"
    /\ Sync.TheDisk s' = ∅.
Proof.
  destruct (Sync.GetLatest ExampleSettingsWritable 0 (ExampleSyncBehind true))
    as [[b s']| |] eqn:Hrun; try (vm_compute in Hrun; discriminate).
  assert (Hb : b = false) by (vm_compute in Hrun; congruence). subst b.
  exists s'. split; [reflexivity|].
  destruct (GetLatest_failure_keeps_ledger _ _ _ _ Hrun) as (_ & Hget & Hdisk).
  split; [|split; [rewrite Hget; reflexivity | exact Hdisk]].
  vm_compute in Hrun. injection Hrun as <-. simpl. tauto.
Defined.

(** X17. A get-latest that returns success has either run nothing but its
    three opening queries, or has left a ledger that is not dirty and in
    which every entry has its pin reset to "0" and none says Deleted. *)
Theorem GetLatest_success_resets_pins {B : GitBackend} (C : Sync.Settings)
    (fuel : nat) (s s' : Sync.State B) :
  Sync.GetLatest C fuel s = Sync.Finished (true, s') ->
  s' = Sync.AfterOpeningQueries C s
  \/ (FGitSourceControlStatusFile.bDirty (Sync.StatusFile s') = false
      /\ forall Path e,
           FGitSourceControlStatusFile.SavedStates (Sync.StatusFile s') !! Path = Some e ->
           SavedState.CheckedOutRevision e = "0" /\ SavedState.State e <> Deleted).
Proof.
  intros Hrun. destruct (GetLatest_outcome C fuel s s' true Hrun) as (_ & Hok).
  exact (Hok eq_refl).
Qed.

Lemma GetLatest_success_resets_pins_witness :
  exists s',
    Sync.GetLatest ExampleSettingsWritable 0 (ExampleSyncBehind false)
      = Sync.Finished (true, s')
    /\ s' <> Sync.AfterOpeningQueries ExampleSettingsWritable (ExampleSyncBehind false)
    /\ FGitSourceControlStatusFile.GetState (Sync.StatusFile s') "/repo/a.uasset"
       = SavedState.mk Unknown "0"
    /\ FGitSourceControlStatusFile.GetState (Sync.StatusFile s') "/repo/b.uasset"
       = SavedState.mk Unknown "0"
    /\ FGitSourceControlStatusFile.bDirty (Sync.StatusFile s') = false.
Proof.
  destruct (Sync.GetLatest ExampleSettingsWritable 0 (ExampleSyncBehind false))
    as [[b s']| |] eqn:Hrun; try (vm_compute in Hrun; discriminate).
  assert (Hb : b = true) by (vm_compute in Hrun; congruence). subst b.
  exists s'. split; [reflexivity|].
  assert (Hissued : In "pull --rebase" (Sync.Issued s')).
  { vm_compute in Hrun. injection Hrun as <-. simpl. tauto. }
  assert (Hnot : s' <> Sync.AfterOpeningQueries ExampleSettingsWritable
                         (ExampleSyncBehind false)).
  { intros Heq. rewrite Heq in Hissued. vm_compute in Hissued.
    intuition discriminate. }
  split; [exact Hnot|].
  destruct (GetLatest_success_resets_pins _ _ _ _ Hrun) as [Heq | (Hclean & Hpins)];
    [contradiction|].
  split; [|split; [|exact Hclean]].
  - vm_compute in Hrun. injection Hrun as <-. reflexivity.
  - vm_compute in Hrun. injection Hrun as <-. reflexivity.
Defined.

(** X18. When the index is not valid, the head of the remote branch cannot
    be resolved or no merge base is found, get-latest returns failure
    having run only the queries up to that point: nothing is stashed,
    rebased or reset. *)
Theorem GetLatest_precondition_failure {B : GitBackend} (C : Sync.Settings)
    (fuel : nat) (s : Sync.State B) :
  (let '(IndexValid, RemoteSha, MergeBase) := Sync.OpeningAnswers C s in
   IndexValid <> GitIndexState.Valid \/ RemoteSha = "" \/ MergeBase = "") ->
  exists s' n,
    Sync.GetLatest C fuel s = Sync.Finished (false, s')
    /\ Sync.Issued s' = Sync.Issued s ++ take n OpeningQueries
    /\ Sync.StatusFile s' = Sync.StatusFile s
    /\ Sync.TheDisk s' = Sync.TheDisk s.
Proof.
  unfold Sync.OpeningAnswers, Sync.GetLatest.
  pose proof (RunCheckIndexValid_frame s) as ((Hf1 & Hd1 & _) & Hi1 & _).
  destruct (Sync.RunCheckIndexValid s) as [IndexValid s1]. simpl in Hf1, Hd1, Hi1 |- *.
  pose proof (GetCommitShaForBranch_frame (Sync.GetRemoteBranch C) s1)
    as ((Hf2 & Hd2 & _) & Hi2 & _).
  destruct (Sync.GetCommitShaForBranch (Sync.GetRemoteBranch C) s1) as [RemoteSha s2].
  simpl in Hf2, Hd2, Hi2 |- *.
  pose proof (GetMergeBase_frame (Sync.Branch C) (Sync.GetRemoteBranch C) s2)
    as ((Hf3 & Hd3 & _) & Hi3 & _).
  destruct (Sync.GetMergeBase (Sync.Branch C) (Sync.GetRemoteBranch C) s2) as [MergeBase s3].
  simpl in Hf3, Hd3, Hi3 |- *.
  intros Hpre.
  destruct (GitIndexState.eqb IndexValid GitIndexState.Valid) eqn:Hvalid; simpl.
  2:{ eexists _, 1%nat. split; [reflexivity|]. unfold OpeningQueries. simpl.
      repeat split; first [assumption | congruence]. }
  destruct (IsEmpty RemoteSha) eqn:Hsha.
  { eexists _, 2%nat. split; [reflexivity|]. unfold OpeningQueries. simpl.
    rewrite Hi2, Hi1, <- app_assoc. repeat split; first [reflexivity | congruence]. }
  destruct (IsEmpty MergeBase) eqn:Hbase.
  { eexists _, 3%nat. split; [reflexivity|]. unfold OpeningQueries. simpl.
    rewrite Hi3, Hi2, Hi1, <- !app_assoc. repeat split; first [reflexivity | congruence]. }
  exfalso. destruct Hpre as [Hpre | [-> | ->]]; try discriminate.
  apply Hpre. now destruct IndexValid.
Qed.

Lemma GetLatest_precondition_failure_witness :
  exists s' n,
    Sync.GetLatest ExampleSettings 0 (ExampleSync true) = Sync.Finished (false, s')
    /\ Sync.Issued s' = Sync.Issued (ExampleSync true) ++ take n OpeningQueries
    /\ Sync.StatusFile s' = ExampleLedger.
Proof.
  destruct (GetLatest_precondition_failure ExampleSettings 0 (ExampleSync true))
    as (s' & n & Hrun & Hissued & Hledger & _).
  - vm_compute. left. discriminate.
  - exists s', n. repeat split; assumption.
Defined.

(** ** The queue over several ticks, and the cache *)

Lemma Tick_queue_one (Polls : FGitSourceControlCommand -> nat) (fuel : nat)
    (p : FGitSourceControlProvider) :
  NothingIssued (CommandQueue p) ->
  exists p' Events,
    Tick Polls fuel p = Some (p', Events)
    /\ Completed (CommandQueue p') = drop 1 (Completed (CommandQueue p))
    /\ Running (CommandQueue p') = Running (CommandQueue p)
    /\ NothingIssued (CommandQueue p').
Proof.
  intros Hquiet.
  assert (Hasync : forall c, head (Completed (CommandQueue p)) = Some c ->
                     Asynchronous (ExecuteCalls c (ResultOf c))).
  { intros c Hc. unfold NothingIssued in Hquiet. rewrite List.Forall_forall in Hquiet.
    rewrite (Hquiet c); [constructor|].
    assert (Hin : In c (Completed (CommandQueue p))).
    { destruct (Completed (CommandQueue p)); [discriminate|].
      injection Hc as ->. now left. }
    unfold Completed in Hin. now apply List.filter_In in Hin as (Hin & _). }
  rewrite Tick_unfold.
  destruct (Tick_body_at_most_one Polls
              (match fuel with O => fun _ => None | S fuel => Tick Polls fuel end)
              p Hasync)
    as (p' & Events & Hrun & _ & _ & _ & Hone & Hidle).
  exists p', Events. split; [exact Hrun|].
  destruct (queue_split (CommandQueue p)) as [Hnone | (pre & c & post & Hsplit & Hpre & Hc)].
  - destruct (Hidle Hnone) as (Hqueue & _).
    rewrite Hqueue, Hnone. repeat split; assumption.
  - destruct (Hone pre c post Hsplit Hpre Hc) as (Hqueue & _).
    assert (Hafter : CommandQueue p' = pre ++ post).
    { rewrite Hqueue. rewrite Hsplit in Hquiet. apply Forall_app in Hquiet as (_ & Hq).
      apply Forall_cons in Hq as (Hq & _). rewrite Hq. now rewrite app_nil_r. }
    rewrite Hafter, Hsplit in *. clear Hafter Hsplit Hqueue Hone Hidle Hasync.
    unfold Completed, Running in *.
    rewrite !List.filter_app. simpl. rewrite Hc, Hpre. simpl.
    repeat split.
    unfold NothingIssued in *. apply Forall_app in Hquiet as (Hq1 & Hq2).
    apply Forall_cons in Hq2 as (_ & Hq2). apply Forall_app. split; assumption.
Qed.



(** ** The state cache *)

Lemma UpdateCachedState_agrees Now InState acc :
  Agrees (UpdateCachedState Now InState acc).1 InState.
Proof.
  unfold Agrees.
  destruct (UpdateCachedState_cases Now InState acc) as [[Hsame ->] | [_ ->]]; simpl.
  - eexists. split; [apply GetStateInternal_lookup|].
    apply State_eq_SameComparedFields. unfold State_neq in Hsame.
    now apply negb_false_iff in Hsame.
  - eexists. split; [apply lookup_insert_eq|].
    unfold SameComparedFields. simpl. repeat split.
Qed.

Lemma UpdateCachedStates_loop_agrees Now InStates acc :
  NoDup (AbsoluteFilename <$> InStates) ->
  Forall (Agrees (UpdateCachedStates_loop Now InStates acc).1) InStates.
Proof.
  revert acc. induction InStates as [|x l IH]; intros acc Hnd; simpl; [constructor|].
  rewrite fmap_cons in Hnd. apply NoDup_cons in Hnd as (Hx & Hl).
  constructor; [|now apply IH].
  destruct (UpdateCachedState_agrees Now x acc) as (s & Hs & Hsame).
  exists s. split; [|exact Hsame].
  rewrite UpdateCachedStates_loop_other by assumption. exact Hs.
Qed.

Lemma UpdateCachedStates_loop_fixed Now InStates c n :
  Forall (Agrees c) InStates ->
  UpdateCachedStates_loop Now InStates (c, n) = (c, n).
Proof.
  induction 1 as [|x l (s & Hs & Hsame) _ IH]; [reflexivity|].
  assert (Hstep : UpdateCachedState Now x (c, n) = (c, n)).
  { unfold UpdateCachedState, GetStateInternal. rewrite Hs.
    apply State_eq_SameComparedFields in Hsame. unfold State_neq. now rewrite Hsame. }
  change (UpdateCachedStates_loop Now (x :: l) (c, n))
    with (UpdateCachedStates_loop Now l (UpdateCachedState Now x (c, n))).
  now rewrite Hstep.
Qed.

(** X20. When the states handed to [UpdateCachedStates] are for files that
    are all different, the cache holds afterwards, for each of them, a state
    equal to it under [operator==]; so a second call with the same states
    changes nothing in the cache and returns false, whatever the clock. *)
Theorem UpdateCachedStates_twice (Now Now' : nat -> FDateTime)
    (InStates : list FGitSourceControlState)
    (StateCache : gmap string FGitSourceControlState) :
  NoDup (AbsoluteFilename <$> InStates) ->
  let StateCache' := (UpdateCachedStates Now InStates StateCache).2 in
  Forall (fun InState =>
            SameComparedFields (CachedState (AbsoluteFilename InState) StateCache') InState)
         InStates
  /\ UpdateCachedStates Now' InStates StateCache' = (false, StateCache').
Proof.
  intros Hnd StateCache'.
  pose proof (UpdateCachedStates_loop_agrees Now InStates (StateCache, 0%nat) Hnd) as Hag.
  assert (Hc : StateCache' = (UpdateCachedStates_loop Now InStates (StateCache, 0%nat)).1).
  { unfold StateCache', UpdateCachedStates.
    now destruct (UpdateCachedStates_loop Now InStates (StateCache, 0%nat)). }
  rewrite <- Hc in Hag. clearbody StateCache'. split.
  - eapply Forall_impl; [exact Hag|]. intros x (s & Hs & Hsame).
    unfold CachedState, GetStateInternal. now rewrite Hs.
  - unfold UpdateCachedStates. now rewrite UpdateCachedStates_loop_fixed.
Qed.

Lemma UpdateCachedStates_twice_witness :
  let InStates := [ExampleState "/repo/a.uasset" CheckedOut;
                   ExampleState "/repo/b.uasset" Deleted] in
  let StateCache' := (UpdateCachedStates (fun n => Z.of_nat n) InStates ∅).2 in
  NoDup (AbsoluteFilename <$> InStates)
  /\ UpdateCachedStates (fun _ => 7) InStates StateCache' = (false, StateCache').
Proof.
  intros InStates StateCache'.
  assert (Hnd : NoDup (AbsoluteFilename <$> InStates)).
  { apply (bool_decide_unpack _). vm_compute. reflexivity. }
  split; [exact Hnd|].
  exact (proj2 (UpdateCachedStates_twice (fun n => Z.of_nat n) (fun _ => 7) InStates ∅ Hnd)).
Defined.

(** X21. Reading a file's state twice gives the same state and leaves the
    cache as the first read left it; taking the file out of the cache after
    a read reports an entry and goes back to the cache without the file,
    which is the cache from before the read when the file was not in it; a
    second removal reports nothing and changes nothing; and a read after a
    removal gives the placeholder of an unknown file. *)
Theorem GetStateInternal_RemoveFileFromCache (Filename : FString)
    (StateCache : gmap string FGitSourceControlState) :
  let Read := GetStateInternal Filename StateCache in
  let Removed := RemoveFileFromCache Filename StateCache in
  GetStateInternal Filename Read.2 = Read
  /\ RemoveFileFromCache Filename Read.2 = (true, delete Filename StateCache)
  /\ (StateCache !! Filename = None -> delete Filename Read.2 = StateCache)
  /\ RemoveFileFromCache Filename Removed.2 = (false, Removed.2)
  /\ GetStateInternal Filename Removed.2
     = (NewState Filename, <[Filename := NewState Filename]> StateCache)
  /\ (forall Other, Other <> Filename ->
        Read.2 !! Other = StateCache !! Other
        /\ Removed.2 !! Other = StateCache !! Other).
Proof.
  unfold GetStateInternal, RemoveFileFromCache. simpl.
  destruct (StateCache !! Filename) as [s|] eqn:Hs; simpl; repeat split.
  - now rewrite Hs.
  - f_equal. apply bool_decide_eq_true. now rewrite Hs.
  - discriminate.
  - rewrite delete_delete_eq. f_equal. apply bool_decide_eq_false.
    rewrite lookup_delete_eq. now intros [? ?].
  - rewrite lookup_delete_eq. f_equal. apply insert_delete_eq.
  - now rewrite lookup_delete_ne.
  - now rewrite lookup_insert_eq.
  - f_equal; [|apply delete_insert_eq]. apply bool_decide_eq_true.
    rewrite lookup_insert_eq. now eexists.
  - intros _. rewrite delete_insert_eq. now apply delete_id.
  - rewrite delete_delete_eq. f_equal. apply bool_decide_eq_false.
    rewrite lookup_delete_eq. now intros [? ?].
  - rewrite lookup_delete_eq. f_equal. apply insert_delete_eq.
  - now rewrite lookup_insert_ne.
  - now rewrite lookup_delete_ne.
Qed.

(** ** Saving and loading the ledger *)

Lemma FromJson_ToJSon_ReadBack (This s : SavedState.t) :
  SavedStateJson.FromJson This (Some (SavedStateJson.ToJSon s))
  = Returned (true, ReadBack s).
Proof.
  unfold SavedStateJson.FromJson, ReadBack.
  destruct (ToJSon_fields s "") as (-> & _).
  destruct s as [st rev]. cbn [SavedState.State SavedState.CheckedOutRevision].
  destruct (ToJSon_fields (SavedState.mk st rev) (SavedState.CheckedOutRevision This))
    as (_ & Hrev).
  destruct st; cbn -[SavedStateJson.ToJSon TryGetStringField];
    cbn [SavedState.CheckedOutRevision] in Hrev; rewrite Hrev; reflexivity.
Qed.

Lemma ToJSon_ReadBack (s s' : SavedState.t) :
  SavedStateJson.ToJSon s = SavedStateJson.ToJSon s' -> ReadBack s = ReadBack s'.
Proof.
  intros Heq. unfold ReadBack, SavedStateJson.ToJSon in *.
  assert (Hrev : SavedState.CheckedOutRevision s = SavedState.CheckedOutRevision s').
  { apply (f_equal (fun m : gmap string FJsonValue => m !! "revision")) in Heq.
    rewrite !lookup_insert_eq in Heq. congruence. }
  assert (Hst : SavedStateJson.Printf_c (ToChar (SavedState.State s))
                = SavedStateJson.Printf_c (ToChar (SavedState.State s'))).
  { apply (f_equal (fun m : gmap string FJsonValue => m !! "state")) in Heq.
    rewrite !(lookup_insert_ne _ "revision" "state") in Heq by discriminate.
    rewrite !lookup_insert_eq in Heq. congruence. }
  rewrite Hrev. f_equal.
  destruct (SavedState.State s), (SavedState.State s'); try reflexivity;
    discriminate Hst.
Qed.

Section SaveThenLoad.
Context (E : FGitSourceControlStatusFile.Env) (L : LoadEnv) (Root : FString).

Local Abbreviation rel k :=
  (FGitSourceControlStatusFile.MakePathRelativeTo E k (FixedPathToRepoRoot Root)).
Local Abbreviation conv r := (ConvertRelativePathToFull L Root r).
Local Abbreviation JsonOf l :=
  (foldr (fun (It : string * SavedState.t) (JsonStatesMap : gmap string FJsonValue) =>
            if negb (SavedState.IsValid It.2) then JsonStatesMap
            else <[rel It.1 := FJsonValueObject (SavedStateJson.ToJSon It.2)]> JsonStatesMap)
         ∅ l).

Lemma JsonOf_lookup (l : list (string * SavedState.t)) r x :
  JsonOf l !! r = Some x ->
  exists k v, (k, v) ∈ l /\ SavedState.IsValid v = true /\ rel k = r
              /\ x = FJsonValueObject (SavedStateJson.ToJSon v).
Proof.
  induction l as [|[k v] l IH]; simpl; [now rewrite lookup_empty|].
  destruct (SavedState.IsValid v) eqn:Hv; simpl.
  - destruct (decide (rel k = r)) as [<- | Hne].
    + rewrite lookup_insert_eq. intros [= <-]. exists k, v. repeat split; auto. left.
    + rewrite lookup_insert_ne by assumption. intros H.
      destruct (IH H) as (k' & v' & Hin & ?). exists k', v'. split; [now right | assumption].
  - intros H. destruct (IH H) as (k' & v' & Hin & ?). exists k', v'.
    split; [now right | assumption].
Qed.

Lemma JsonOf_lookup_valid (l : list (string * SavedState.t)) k v :
  NoDup l.*1 -> (k, v) ∈ l -> SavedState.IsValid v = true ->
  (forall k' v', (k', v') ∈ l -> SavedState.IsValid v' = true -> rel k' = rel k -> k' = k) ->
  JsonOf l !! rel k = Some (FJsonValueObject (SavedStateJson.ToJSon v)).
Proof.
  induction l as [|[k0 v0] l IH]; intros Hnd Hin Hv Hinj; [now apply elem_of_nil in Hin|].
  simpl in Hnd. apply NoDup_cons in Hnd as (Hk0 & Hnd). simpl.
  apply elem_of_cons in Hin as [[= <- <-] | Hin].
  - rewrite Hv. simpl. apply lookup_insert_eq.
  - assert (Hrec : JsonOf l !! rel k = Some (FJsonValueObject (SavedStateJson.ToJSon v))).
    { apply IH; auto. intros k' v' Hin' Hv' Hrel. apply (Hinj k' v'); auto. now right. }
    destruct (SavedState.IsValid v0) eqn:Hv0; simpl; [|exact Hrec].
    rewrite lookup_insert_ne; [exact Hrec|].
    intros Hrel. apply (Hinj k0 v0) in Hrel; [|left|assumption]. subst k0.
    apply Hk0. apply list_elem_of_fmap. exists (k, v). split; [reflexivity | assumption].
Qed.

Lemma LoadStatusFile_loop_written (l : list (string * FJsonValue))
    (acc : gmap string SavedState.t) :
  Forall (fun It => exists v, It.2 = FJsonValueObject (SavedStateJson.ToJSon v)) l ->
  NoDup ((fun It : string * FJsonValue => conv It.1) <$> l) ->
  exists acc', LoadStatusFile_loop L Root l acc = Returned acc'
    /\ (forall r v, (r, FJsonValueObject (SavedStateJson.ToJSon v)) ∈ l ->
          acc' !! conv r = Some (ReadBack v))
    /\ (forall p, p ∉ (fun It : string * FJsonValue => conv It.1) <$> l ->
          acc' !! p = acc !! p).
Proof.
  revert acc. induction l as [|[r x] l IH]; intros acc Hall Hnd.
  - exists acc. repeat split; auto. intros r v Hin. now apply elem_of_nil in Hin.
  - apply Forall_cons in Hall as ((v & Hx) & Hall). simpl in Hx. subst x.
    rewrite fmap_cons in Hnd. apply NoDup_cons in Hnd as (Hr & Hnd). simpl in Hr.
    cbn [LoadStatusFile_loop fst snd AsObject]. rewrite FromJson_ToJSon_ReadBack.
    destruct (IH (<[conv r := ReadBack v]> acc) Hall Hnd) as (acc' & Hrun & Hin & Hout).
    exists acc'. split; [exact Hrun|]. split.
    + intros r' v' Hin'. apply elem_of_cons in Hin' as [Heq | Hin'].
      * assert (Hr' : r' = r) by congruence.
        assert (Hv' : SavedStateJson.ToJSon v' = SavedStateJson.ToJSon v) by congruence.
        subst r'. rewrite Hout by assumption. rewrite lookup_insert_eq.
        f_equal. symmetry. now apply ToJSon_ReadBack.
      * now apply Hin.
    + intros p Hp. rewrite fmap_cons, not_elem_of_cons in Hp. destruct Hp as (Hp & Hp').
      rewrite Hout by assumption. now rewrite lookup_insert_ne.
Qed.

Lemma Save_written (bForce : bool) (f f' : FGitSourceControlStatusFile.t)
    (d d' : FGitSourceControlStatusFile.Disk) :
  FGitSourceControlStatusFile.bDirty f || bForce = true ->
  FGitSourceControlStatusFile.Save E Root bForce f d = Returned (true, f', d') ->
  let JsonStatesMap :=
    FGitSourceControlStatusFile.JsonStatesOf E (FixedPathToRepoRoot Root)
      (FGitSourceControlStatusFile.SavedStates f) in
  exists Loaded,
    d' = <[FGitSourceControlStatusFile.Combine E Root
             FGitSourceControlStatusFile.GitStatusFileName := Loaded]> d
    /\ f' = FGitSourceControlStatusFile.ClearCache
              (FGitSourceControlStatusFile.set_bDirty false
                 (FGitSourceControlStatusFile.set_LoadedData (Some Loaded) f))
    /\ TryGetObjectField Loaded (NamespaceKey E)
       = if bool_decide (JsonStatesMap = ∅) then None else Some JsonStatesMap.
Proof.
  intros Hgo Hsave JsonStatesMap.
  unfold FGitSourceControlStatusFile.Save in Hsave.
  fold (NamespaceKey E) in Hsave.
  change (if negb (FGitSourceControlStatusFile.EndsWithSlash Root)
          then String.append Root "/" else Root)
    with (FixedPathToRepoRoot Root) in Hsave.
  fold JsonStatesMap in Hsave.
  assert (Hguard : negb (FGitSourceControlStatusFile.bDirty f) && negb bForce = false).
  { rewrite <- negb_orb, Hgo. reflexivity. }
  rewrite Hguard in Hsave.
  assert (Hfinish : forall Loaded,
    match FGitSourceControlStatusFile.LoadedData
            (FGitSourceControlStatusFile.set_LoadedData (Some Loaded) f) with
    | None => AssertionFailed
    | Some Loaded0 =>
        if negb (FGitSourceControlStatusFile.CanSerialize E Loaded0)
        then Returned (false, FGitSourceControlStatusFile.set_LoadedData (Some Loaded) f, d)
        else if negb (FGitSourceControlStatusFile.CanWrite E
                        (FGitSourceControlStatusFile.Combine E Root
                           FGitSourceControlStatusFile.GitStatusFileName))
             then Returned (false,
                            FGitSourceControlStatusFile.set_LoadedData (Some Loaded) f, d)
             else Returned (true,
                    FGitSourceControlStatusFile.ClearCache
                      (FGitSourceControlStatusFile.set_bDirty false
                         (FGitSourceControlStatusFile.set_LoadedData (Some Loaded) f)),
                    <[FGitSourceControlStatusFile.Combine E Root
                        FGitSourceControlStatusFile.GitStatusFileName := Loaded0]> d)
    end = Returned (true, f', d') ->
    d' = <[FGitSourceControlStatusFile.Combine E Root
             FGitSourceControlStatusFile.GitStatusFileName := Loaded]> d
    /\ f' = FGitSourceControlStatusFile.ClearCache
              (FGitSourceControlStatusFile.set_bDirty false
                 (FGitSourceControlStatusFile.set_LoadedData (Some Loaded) f))).
  { intros Loaded. simpl.
    destruct (FGitSourceControlStatusFile.CanSerialize E Loaded); simpl; [|discriminate].
    destruct (FGitSourceControlStatusFile.CanWrite E _); simpl; [|discriminate].
    intros [= <- <-]. split; reflexivity. }
  assert (Hempty : forall m : gmap string FJsonValue,
            (0 <? Z.of_nat (size m))%Z = false -> m = ∅).
  { intros m Hm. apply Z.ltb_ge in Hm. apply map_size_empty_iff. lia. }
  assert (Hnonempty : forall m : gmap string FJsonValue,
            (0 <? Z.of_nat (size m))%Z = true -> m <> ∅).
  { intros m Hm. apply Z.ltb_lt in Hm. intros ->. rewrite map_size_empty in Hm. lia. }
  assert (Hdeleted : forall Loaded : gmap string FJsonValue,
            TryGetObjectField (delete (NamespaceKey E) Loaded) (NamespaceKey E) = None).
  { intros Loaded. unfold TryGetObjectField. now rewrite lookup_delete_eq. }
  destruct (0 <? Z.of_nat (size (FGitSourceControlStatusFile.SavedStates f)))%Z eqn:Hsize.
  - destruct (0 <? Z.of_nat (size JsonStatesMap))%Z eqn:Hjson.
    + apply Hfinish in Hsave as (? & ?). eexists. split; [eassumption|]. split; [assumption|].
      rewrite bool_decide_eq_false_2 by now apply Hnonempty.
      unfold TryGetObjectField. now rewrite lookup_insert_eq.
    + apply Hfinish in Hsave as (? & ?). eexists. split; [eassumption|]. split; [assumption|].
      rewrite bool_decide_eq_true_2 by now apply Hempty. apply Hdeleted.
  - assert (Hno : JsonStatesMap = ∅).
    { unfold JsonStatesMap, FGitSourceControlStatusFile.JsonStatesOf.
      assert (Hs : FGitSourceControlStatusFile.SavedStates f = ∅).
      { apply Z.ltb_ge in Hsize. apply map_size_empty_iff. lia. }
      rewrite Hs, map_to_list_empty. reflexivity. }
    destruct (FGitSourceControlStatusFile.LoadedData f) as [Loaded|] eqn:Hloaded.
    + apply Hfinish in Hsave as (? & ?). eexists. split; [eassumption|]. split; [assumption|].
      rewrite bool_decide_eq_true_2 by assumption. apply Hdeleted.
    + rewrite Hloaded in Hsave. discriminate.
Qed.

(** X22. A ledger that was saved and is loaded again from the file written
    holds the entries that [IsValid] accepts, each as [FromJson] reads what
    [ToJSon] wrote, and none of the others; the document is the one written,
    the dirty flag is down and the snapshot is empty, whatever the ledger
    held before loading.  The paths have to survive being made relative to
    the repository root and absolute again. *)
Theorem Save_then_LoadStatusFile (bForce : bool) (f f' g : FGitSourceControlStatusFile.t)
    (d d' : FGitSourceControlStatusFile.Disk) :
  FGitSourceControlStatusFile.bDirty f || bForce = true ->
  FGitSourceControlStatusFile.Save E Root bForce f d = Returned (true, f', d') ->
  (forall k v, FGitSourceControlStatusFile.SavedStates f !! k = Some v ->
               SavedState.IsValid v = true -> conv (rel k) = k) ->
  LoadStatusFile L E Root
    (FGitSourceControlStatusFile.Combine E Root FGitSourceControlStatusFile.GitStatusFileName)
    g (Written d')
  = Returned (true,
      FGitSourceControlStatusFile.mk false
        (ReadBack <$> filter (fun kv => SavedState.IsValid kv.2 = true)
                        (FGitSourceControlStatusFile.SavedStates f))
        ∅ (FGitSourceControlStatusFile.LoadedData f'),
      []).
Proof.
  intros Hgo Hsave Hpaths.
  destruct (Save_written bForce f f' d d' Hgo Hsave) as (Loaded & -> & -> & Hfield).
  set (States := FGitSourceControlStatusFile.SavedStates f) in *.
  set (J := FGitSourceControlStatusFile.JsonStatesOf E (FixedPathToRepoRoot Root) States) in *.
  assert (HJ : forall r x, J !! r = Some x ->
            exists k v, States !! k = Some v /\ SavedState.IsValid v = true /\ rel k = r
                        /\ x = FJsonValueObject (SavedStateJson.ToJSon v)).
  { intros r x Hr. apply JsonOf_lookup in Hr as (k & v & Hin & Hv & Hrel & Hx).
    exists k, v. repeat split; auto.
    apply elem_of_reverse, elem_of_map_to_list in Hin. exact Hin. }
  assert (HJ' : forall k v, States !! k = Some v -> SavedState.IsValid v = true ->
            J !! rel k = Some (FJsonValueObject (SavedStateJson.ToJSon v))).
  { intros k v Hk Hv. apply JsonOf_lookup_valid; auto.
    - rewrite fmap_reverse, reverse_Permutation. apply NoDup_fst_map_to_list.
    - apply elem_of_reverse, elem_of_map_to_list. exact Hk.
    - intros k' v' Hin Hv' Hrel. apply elem_of_reverse, elem_of_map_to_list in Hin.
      rewrite <- (Hpaths k' v' Hin Hv'), <- (Hpaths k v Hk Hv). now rewrite Hrel. }
  assert (Hfile : Written
                    (<[FGitSourceControlStatusFile.Combine E Root
                         FGitSourceControlStatusFile.GitStatusFileName := Loaded]> d)
                    !! FGitSourceControlStatusFile.Combine E Root
                         FGitSourceControlStatusFile.GitStatusFileName
                  = Some (JsonDocument Loaded)).
  { unfold Written, FGitSourceControlStatusFile.Disk.
    etrans; [apply lookup_fmap|]. rewrite lookup_insert_eq. reflexivity. }
  unfold LoadStatusFile. rewrite Hfile. cbn zeta.
  fold (NamespaceKey E). rewrite Hfield.
  destruct (bool_decide (J = ∅)) eqn:Hdec.
  - apply bool_decide_eq_true in Hdec.
    unfold FGitSourceControlStatusFile.ClearCache, FGitSourceControlStatusFile.set_bDirty,
      FGitSourceControlStatusFile.set_LoadedData, FGitSourceControlStatusFile.ClearSavedStates,
      FGitSourceControlStatusFile.set_SavedStates, FGitSourceControlStatusFile.set_CachedStates.
    simpl. do 3 f_equal. f_equal. symmetry. apply map_eq. intros p.
    rewrite lookup_fmap, lookup_empty.
    destruct (filter _ States !! p) as [v|] eqn:Hp; [|reflexivity].
    apply map_lookup_filter_Some in Hp as (Hp & Hv). simpl in Hv.
    pose proof (HJ' p v Hp Hv) as Hin. rewrite Hdec, lookup_empty in Hin. discriminate.
  - clear Hdec.
    assert (Hall : Forall (fun It : string * FJsonValue =>
                     exists v, It.2 = FJsonValueObject (SavedStateJson.ToJSon v))
                   (map_to_list J)).
    { apply Forall_forall. intros [r x] Hin. apply elem_of_map_to_list in Hin.
      apply HJ in Hin as (k & v & _ & _ & _ & ->). now exists v. }
    assert (Hnd : NoDup ((fun It : string * FJsonValue => conv It.1) <$> map_to_list J)).
    { apply NoDup_fmap_2_strong; [|apply NoDup_map_to_list].
      intros [r1 x1] [r2 x2] H1 H2 Hconv. simpl in Hconv.
      apply elem_of_map_to_list in H1, H2.
      destruct (HJ _ _ H1) as (k1 & v1 & Hk1 & Hv1 & <- & ->).
      destruct (HJ _ _ H2) as (k2 & v2 & Hk2 & Hv2 & <- & ->).
      rewrite (Hpaths k1 v1 Hk1 Hv1), (Hpaths k2 v2 Hk2 Hv2) in Hconv. subst k2.
      rewrite Hk1 in Hk2. now injection Hk2 as ->. }
    destruct (LoadStatusFile_loop_written (map_to_list J) ∅ Hall Hnd)
      as (acc' & Hrun & Hin & Hout).
    cbn [FGitSourceControlStatusFile.SavedStates FGitSourceControlStatusFile.set_LoadedData
         FGitSourceControlStatusFile.ClearSavedStates
         FGitSourceControlStatusFile.set_SavedStates].
    rewrite Hrun.
    unfold FGitSourceControlStatusFile.ClearCache, FGitSourceControlStatusFile.set_bDirty,
      FGitSourceControlStatusFile.set_LoadedData, FGitSourceControlStatusFile.ClearSavedStates,
      FGitSourceControlStatusFile.set_SavedStates, FGitSourceControlStatusFile.set_CachedStates.
    simpl. do 3 f_equal. f_equal. apply map_eq. intros p.
    rewrite lookup_fmap.
    destruct (filter _ States !! p) as [v|] eqn:Hp; simpl.
    + apply map_lookup_filter_Some in Hp as (Hp & Hv). simpl in Hv.
      rewrite <- (Hpaths p v Hp Hv). apply Hin.
      apply elem_of_map_to_list. now apply HJ'.
    + rewrite Hout; [apply lookup_empty|].
      intros Hmem. apply list_elem_of_fmap in Hmem as ([r x] & -> & Hmem). cbn [fst] in Hp.
      apply elem_of_map_to_list in Hmem.
      destruct (HJ _ _ Hmem) as (k & v & Hk & Hv & <- & ->).
      rewrite (Hpaths k v Hk Hv) in Hp.
      apply map_lookup_filter_None in Hp as [Hnone | Hnot].
      * assert (Hboth : Some v = None) by (etrans; [symmetry; exact Hk | exact Hnone]).
        discriminate Hboth.
      * apply (Hnot v Hk). exact Hv.
Qed.

End SaveThenLoad.

Lemma Save_then_LoadStatusFile_witness :
  let L : gmap string FJsonValue :=
    <[NamespaceKey WritableDisk :=
        FJsonValueObject
          (FGitSourceControlStatusFile.JsonStatesOf WritableDisk "/repo/"
             (FGitSourceControlStatusFile.SavedStates ExampleUnsavedLedger))]> ∅ in
  let f' := FGitSourceControlStatusFile.ClearCache
              (FGitSourceControlStatusFile.set_bDirty false
                 (FGitSourceControlStatusFile.set_LoadedData (Some L) ExampleUnsavedLedger)) in
  let d' : FGitSourceControlStatusFile.Disk := <["/repo/.git/gitcentral/status" := L]> ∅ in
  FGitSourceControlStatusFile.Save WritableDisk "/repo" false ExampleUnsavedLedger ∅
    = Returned (true, f', d')
  /\ LoadStatusFile ExampleLoadEnv WritableDisk "/repo" "/repo/.git/gitcentral/status"
       FGitSourceControlStatusFile.new (Written d')
     = Returned (true,
         FGitSourceControlStatusFile.mk false
           (ReadBack <$> filter (fun kv => SavedState.IsValid kv.2 = true)
                           (FGitSourceControlStatusFile.SavedStates ExampleUnsavedLedger))
           ∅ (Some L),
         []).
Proof.
  intros L f' d'.
  assert (Hrun : FGitSourceControlStatusFile.Save WritableDisk "/repo" false
                   ExampleUnsavedLedger ∅ = Returned (true, f', d')) by reflexivity.
  split; [exact Hrun|].
  exact (Save_then_LoadStatusFile WritableDisk ExampleLoadEnv "/repo" false
           ExampleUnsavedLedger f' FGitSourceControlStatusFile.new ∅ d'
           eq_refl Hrun (fun k v _ _ => eq_refl)).
Defined.

(** ** Loading: how it ends *)

(** [Save] reads no file: run on any disk, it does what it does on the
    empty disk, the file it writes laid over the others. *)
Lemma Save_reads_no_file E (Root : FString) (bForce : bool)
    (f : FGitSourceControlStatusFile.t) (d : FGitSourceControlStatusFile.Disk) :
  FGitSourceControlStatusFile.Save E Root bForce f d
  = match FGitSourceControlStatusFile.Save E Root bForce f ∅ with
    | AssertionFailed => AssertionFailed
    | Returned (b, f', d') => Returned (b, f', d' ∪ d)
    end.
Proof.
  assert (Hleft : (∅ : FGitSourceControlStatusFile.Disk) ∪ d = d).
  { unfold FGitSourceControlStatusFile.Disk. apply (left_id _ _). }
  unfold FGitSourceControlStatusFile.Save.
  destruct (negb (FGitSourceControlStatusFile.bDirty f) && negb bForce);
    [now rewrite Hleft|].
  set (g := if (0 <? Z.of_nat (size (FGitSourceControlStatusFile.SavedStates f)))%Z
            then _ else _).
  destruct (FGitSourceControlStatusFile.LoadedData g) as [Loaded|]; [|reflexivity].
  destruct (negb (FGitSourceControlStatusFile.CanSerialize E Loaded)); [now rewrite Hleft|].
  destruct (negb (FGitSourceControlStatusFile.CanWrite E _)); [now rewrite Hleft|].
  do 2 f_equal. unfold FGitSourceControlStatusFile.Disk.
  rewrite insert_empty. apply insert_union_singleton_l.
Qed.

Lemma LoadStatusFile_cases L E Root StatusFilePath f fs b g Log :
  LoadStatusFile L E Root StatusFilePath f fs = Returned (b, g, Log) ->
  (b = true /\ Log = []
   /\ FGitSourceControlStatusFile.bDirty g = false
   /\ FGitSourceControlStatusFile.CachedStates g = ∅
   /\ FileExists fs StatusFilePath = true)
  \/ (b = false /\ Log = [] /\ g = f)
  \/ (b = false /\ Log = [NotValidJsonFile StatusFilePath]
      /\ FileExists fs StatusFilePath = true
      /\ FGitSourceControlStatusFile.SavedStates g = ∅
      /\ FGitSourceControlStatusFile.LoadedData g = None).
Proof.
  unfold LoadStatusFile, FileExists.
  destruct (fs !! StatusFilePath) as [[| | |Values]|] eqn:Hfile; cbn zeta.
  - intros [= <- <- <-]. right. left. repeat split.
  - intros [= <- <- <-]. left. repeat split.
  - intros [= <- <- <-]. right. right. repeat split.
  - destruct (TryGetObjectField Values _) as [JsonStatesMap|].
    + destruct (LoadStatusFile_loop _ _ _ _); [|discriminate].
      intros [= <- <- <-]. left. repeat split.
    + intros [= <- <- <-]. left. repeat split.
  - intros [= <- <- <-]. right. left. repeat split.
Qed.

(** X23. How [Load] ends when it returns.  A failure is always logged and
    leaves every file as it was; a success leaves the ledger clean (not
    dirty, no snapshot) unless neither the status file nor the legacy file
    exists, where nothing changes at all; the only line a success can log
    is the one for the legacy file that could not be deleted.  When the
    status file exists the legacy file plays no part: no file changes. *)
Theorem Load_outcomes L E (Root : FString) (f f' : FGitSourceControlStatusFile.t)
    (fs fs' : FileSystem) (b : bool) (Log : list LoadError) :
  let StatusFilePath :=
    FGitSourceControlStatusFile.Combine E Root
      FGitSourceControlStatusFile.GitStatusFileName in
  let LegacyStatusFilePath :=
    FGitSourceControlStatusFile.Combine E Root GitStatusLegacyFileName in
  Load L E Root f fs = Returned (b, f', fs', Log) ->
  (b = false -> fs' = fs /\ Log <> [])
  /\ (b = true ->
      (Log = [] \/ Log = [FailedToDeleteLegacy LegacyStatusFilePath])
      /\ ((FGitSourceControlStatusFile.bDirty f' = false
           /\ FGitSourceControlStatusFile.CachedStates f' = ∅)
          \/ (FileExists fs StatusFilePath = false
              /\ FileExists fs LegacyStatusFilePath = false
              /\ f' = f /\ fs' = fs /\ Log = [])))
  /\ (FileExists fs StatusFilePath = true -> fs' = fs)
  /\ (forall Path, Path <> StatusFilePath -> Path <> LegacyStatusFilePath ->
        fs' !! Path = fs !! Path).
Proof.
  intros StatusFilePath LegacyStatusFilePath. unfold Load.
  fold StatusFilePath LegacyStatusFilePath.
  destruct (LoadStatusFile L E Root StatusFilePath f fs) as [[[b1 g1] Log1]|] eqn:H1;
    [|discriminate].
  apply LoadStatusFile_cases in H1
    as [(-> & -> & Hd1 & Hc1 & Hex1) | [(-> & -> & ->) | (-> & -> & Hex1 & Hs1 & Hl1)]].
  - intros [= <- <- <- <-]. repeat split; try discriminate; auto.
  - destruct (FileExists fs StatusFilePath) eqn:Hex; simpl.
    { intros [= <- <- <- <-]. repeat split; try discriminate; auto. }
    destruct (FileExists fs LegacyStatusFilePath) eqn:Hexl; simpl.
    2:{ intros [= <- <- <- <-]. repeat split; try discriminate; auto.
        right. repeat split. }
    destruct (LoadStatusFile L E Root LegacyStatusFilePath f fs) as [[[b2 g2] Log2]|] eqn:H2;
      [|discriminate].
    apply LoadStatusFile_cases in H2
      as [(-> & -> & Hd2 & Hc2 & Hex2) | [(-> & -> & ->) | (-> & -> & Hex2 & Hs2 & Hl2)]].
    + assert (Hover : forall (Loaded : gmap string FJsonValue) Path,
                Path <> StatusFilePath ->
                (Written (<[StatusFilePath := Loaded]> ∅) ∪ fs) !! Path = fs !! Path).
      { intros Loaded Path Hp. apply lookup_union_r.
        unfold Written. etrans; [apply lookup_fmap|].
        unfold FGitSourceControlStatusFile.Disk.
        rewrite lookup_insert_ne by congruence. reflexivity. }
      destruct (Save_cases E Root true g2 ∅)
        as [(Hgo & _) | [(_ & _ & _ & ->) | (_ & _ & Loaded & _ & [(_ & ->) | (_ & ->)])]].
      * rewrite orb_true_r in Hgo. discriminate.
      * discriminate.
      * intros [= <- <- <- <-]. repeat split; try discriminate; auto.
      * destruct (CanDeleteFile L LegacyStatusFilePath); simpl;
          intros [= <- <- <- <-]; (split; [discriminate|]); (split; [|split]);
          try discriminate.
        -- intros _. split; [now left|]. left. split; reflexivity.
        -- intros Path Hp Hpl.
           etrans; [apply lookup_delete_ne; congruence|]. now apply Hover.
        -- intros _. split; [now right|]. left. split; reflexivity.
        -- intros Path Hp Hpl. now apply Hover.
    + intros [= <- <- <- <-]. repeat split; try discriminate; auto.
    + intros [= <- <- <- <-]. repeat split; try discriminate; auto.
  - rewrite Hex1. simpl. intros [= <- <- <- <-]. repeat split; try discriminate; auto.
Qed.

(** X24. A repository whose only status file is a legacy file without
    text cannot be loaded: the legacy file loads as an empty ledger with no
    document, and the forced [Save] that is to migrate it runs into the
    assertion on the missing document. *)
Theorem Load_empty_legacy_file L E (Root : FString) (f : FGitSourceControlStatusFile.t)
    (fs : FileSystem) :
  fs !! FGitSourceControlStatusFile.Combine E Root
          FGitSourceControlStatusFile.GitStatusFileName = None ->
  fs !! FGitSourceControlStatusFile.Combine E Root GitStatusLegacyFileName = Some EmptyFile ->
  Load L E Root f fs = AssertionFailed.
Proof.
  intros Hstatus Hlegacy. unfold Load, LoadStatusFile, FileExists.
  rewrite Hstatus, Hlegacy. cbn zeta.
  rewrite bool_decide_eq_false_2 by (intros [? ?]; discriminate).
  rewrite bool_decide_eq_true_2 by (eexists; reflexivity).
  simpl. reflexivity.
Qed.

Lemma Load_empty_legacy_file_witness :
  Load ExampleLoadEnv WritableDisk "/repo" FGitSourceControlStatusFile.new EmptyLegacyFile
  = AssertionFailed.
Proof.
  apply Load_empty_legacy_file; reflexivity.
Defined.

Lemma Load_outcomes_witness :
  Load ExampleLoadEnv WritableDisk "/repo" ExampleLedger BrokenStatusFile
    = Returned (false,
        FGitSourceControlStatusFile.ClearSavedStates
          (FGitSourceControlStatusFile.set_LoadedData None ExampleLedger),
        BrokenStatusFile,
        [NotValidJsonFile "/repo/.git/gitcentral/status";
         FailedToLoad "/repo/.git/gitcentral/status"])
  /\ [NotValidJsonFile "/repo/.git/gitcentral/status";
      FailedToLoad "/repo/.git/gitcentral/status"] <> [].
Proof.
  assert (Hrun : Load ExampleLoadEnv WritableDisk "/repo" ExampleLedger BrokenStatusFile
    = Returned (false,
        FGitSourceControlStatusFile.ClearSavedStates
          (FGitSourceControlStatusFile.set_LoadedData None ExampleLedger),
        BrokenStatusFile,
        [NotValidJsonFile "/repo/.git/gitcentral/status";
         FailedToLoad "/repo/.git/gitcentral/status"])) by reflexivity.
  split; [exact Hrun|].
  destruct (Load_outcomes _ _ _ _ _ _ _ _ _ Hrun) as (Hfail & _).
  exact (proj2 (Hfail eq_refl)).
Defined.

(** ** Cleaning the ledger *)

Lemma ClearState_saving E (InFilePath Root : FString) (f f' : FGitSourceControlStatusFile.t)
    (d d' : FGitSourceControlStatusFile.Disk) (b : bool) :
  FGitSourceControlStatusFile.ClearState E InFilePath Root true f d = Returned (b, f', d') ->
  FGitSourceControlStatusFile.SavedStates f'
    = delete InFilePath (FGitSourceControlStatusFile.SavedStates f)
  /\ ((FGitSourceControlStatusFile.CachedStates f' = FGitSourceControlStatusFile.CachedStates f
       /\ FGitSourceControlStatusFile.bDirty f' = FGitSourceControlStatusFile.bDirty f)
      \/ FGitSourceControlStatusFile.bDirty f' = false)
  /\ (forall Path,
        Path <> FGitSourceControlStatusFile.Combine E Root
                  FGitSourceControlStatusFile.GitStatusFileName ->
        d' !! Path = d !! Path).
Proof.
  unfold FGitSourceControlStatusFile.ClearState, FGitSourceControlStatusFile.SaveIfAsked.
  cbn [negb].
  destruct (bool_decide _).
  2:{ intros [= <- <- <-]. repeat split. left. split; reflexivity. }
  set (g := FGitSourceControlStatusFile.set_SavedStates _ _).
  destruct (Save_cases E Root false g d)
    as [(Hgo & _) | [(_ & _ & _ & ->) | (_ & _ & Loaded & _ & [(_ & ->) | (_ & ->)])]].
  - discriminate Hgo.
  - discriminate.
  - intros [= <- <- <-]. repeat split. left. split; reflexivity.
  - intros [= <- <- <-]. repeat split.
    + right. reflexivity.
    + intros Path Hp. unfold FGitSourceControlStatusFile.Disk in *.
      now rewrite lookup_insert_ne by congruence.
Qed.

Section CleaningProperties.
Context {B : GitBackend} (C : Sync.Settings) (FileExistsInTree : FString -> World B -> bool).

Local Abbreviation StatusFilePath :=
  (FGitSourceControlStatusFile.Combine (Sync.Ledger C) (Sync.PathToRepositoryRoot C)
     FGitSourceControlStatusFile.GitStatusFileName).
Local Abbreviation Entries s := (FGitSourceControlStatusFile.SavedStates (Sync.StatusFile s)).
Local Abbreviation Snapshot s := (FGitSourceControlStatusFile.CachedStates (Sync.StatusFile s)).
Local Abbreviation Dirty s := (FGitSourceControlStatusFile.bDirty (Sync.StatusFile s)).

(** What every step of the cleaning keeps: the provider's cache and the
    result members of the command, the files other than the status file,
    and git commands that only query. *)
Lemma CleanupEntry_step MergeBase RemoteStates It (s s' : Sync.State B) :
  CleanupEntry C FileExistsInTree MergeBase RemoteStates It s = Returned s' ->
  (Entries s' = Entries s
   \/ (Settled It.2 = true /\ Entries s' = delete It.1 (Entries s)))
  /\ ((Snapshot s' = Snapshot s /\ Dirty s' = Dirty s) \/ Dirty s' = false)
  /\ (exists l, Sync.Issued s' = Sync.Issued s ++ l /\ Forall (fun c => c ∈ CleanupQueries) l)
  /\ (forall Path, Path <> StatusFilePath -> Sync.TheDisk s' !! Path = Sync.TheDisk s !! Path)
  /\ Sync.Cache s' = Sync.Cache s.
Proof.
  unfold CleanupEntry.
  set (Decision := if EWorkingCopyState.eqb (SavedState.State It.2) Deleted && _
                   then _ else _).
  assert (HD : (Decision.1 = true -> Settled It.2 = true)
               /\ Sync.StatusFile Decision.2 = Sync.StatusFile s
               /\ Sync.TheDisk Decision.2 = Sync.TheDisk s
               /\ Sync.Cache Decision.2 = Sync.Cache s
               /\ exists l, Sync.Issued Decision.2 = Sync.Issued s ++ l
                            /\ Forall (fun c => c ∈ CleanupQueries) l).
  { subst Decision. unfold Settled.
    assert (Hnil : exists l, Sync.Issued s = Sync.Issued s ++ l
                             /\ Forall (fun c => c ∈ CleanupQueries) l)
      by (exists []; split; [now rewrite app_nil_r | constructor]).
    destruct (EWorkingCopyState.eqb (SavedState.State It.2) Deleted) eqn:Hdel; simpl.
    - destruct (negb (FileExistsInTree It.1 (Sync.TheWorld s))); simpl.
      + destruct (FindState It.1 RemoteStates); simpl; repeat split; auto.
      + destruct (_ && _) eqn:Hzero; simpl; [|repeat split; auto; discriminate].
        destruct (String.eqb _ MergeBase); simpl; [repeat split; auto|].
        pose proof (Run_frame "merge-base --is-ancestor"
                      [SavedState.CheckedOutRevision It.2; MergeBase] [] s)
          as ((H1 & H2 & H3 & _) & Hi & _).
        destruct (Sync.Run _ _ _ s) as [[[bResult o] e] s1]. simpl in *.
        repeat split; auto.
        exists ["merge-base --is-ancestor"]. split; [exact Hi|].
        repeat constructor.
    - destruct (_ && _) eqn:Hzero; simpl; [|repeat split; auto; discriminate].
      destruct (String.eqb _ MergeBase); simpl; [repeat split; auto|].
      pose proof (Run_frame "merge-base --is-ancestor"
                    [SavedState.CheckedOutRevision It.2; MergeBase] [] s)
        as ((H1 & H2 & H3 & _) & Hi & _).
      destruct (Sync.Run _ _ _ s) as [[[bResult o] e] s1]. simpl in *.
      repeat split; auto.
      exists ["merge-base --is-ancestor"]. split; [exact Hi|].
      repeat constructor. }
  destruct Decision as [bClearState s1]. simpl in HD.
  destruct HD as (Hsettled & Hf & Hd & Hc & Hissued).
  destruct bClearState.
  - destruct (FGitSourceControlStatusFile.ClearState _ _ _ _ _ _) as [[[b f'] d']|] eqn:Hclear;
      [|discriminate].
    intros [= <-]. simpl. rewrite Hf, Hd in Hclear.
    apply ClearState_saving in Hclear as (Hs & Hj & Hdisk).
    split; [right; split; [now apply Hsettled | exact Hs]|].
    split; [exact Hj|]. split; [exact Hissued|]. split; [exact Hdisk | exact Hc].
  - intros [= <-]. rewrite Hf, Hd, Hc.
    split; [now left|]. split; [left; split; reflexivity|].
    split; [exact Hissued|]. split; [reflexivity | reflexivity].
Qed.

Lemma CleanupEntries_spec MergeBase RemoteStates SavedStates (s s' : Sync.State B) :
  CleanupEntries C FileExistsInTree MergeBase RemoteStates SavedStates s = Returned s' ->
  (forall k v, Entries s' !! k = Some v -> Entries s !! k = Some v)
  /\ (forall k v, Entries s !! k = Some v -> Entries s' !! k = None ->
        exists v0, (k, v0) ∈ SavedStates /\ Settled v0 = true)
  /\ ((Snapshot s' = Snapshot s /\ Dirty s' = Dirty s) \/ Dirty s' = false)
  /\ (exists l, Sync.Issued s' = Sync.Issued s ++ l /\ Forall (fun c => c ∈ CleanupQueries) l)
  /\ (forall Path, Path <> StatusFilePath -> Sync.TheDisk s' !! Path = Sync.TheDisk s !! Path)
  /\ Sync.Cache s' = Sync.Cache s.
Proof.
  revert s. induction SavedStates as [|It l IH]; intros s; simpl.
  - intros [= <-].
    split; [auto|]. split; [intros k v H1 H2; rewrite H1 in H2; discriminate|].
    split; [left; split; reflexivity|].
    split; [exists []; split; [now rewrite app_nil_r | constructor]|].
    split; [auto | reflexivity].
  - destruct (CleanupEntry C FileExistsInTree MergeBase RemoteStates It s) as [s1|] eqn:Hstep;
      [|discriminate].
    intros Hrest.
    apply CleanupEntry_step in Hstep as (Hs1 & Hj1 & (l1 & Hi1 & Hq1) & Hd1 & Hc1).
    apply IH in Hrest as (Hsub & Hgone & Hj & (l2 & Hi2 & Hq2) & Hd & Hc).
    split; [|split; [|split; [|split; [|split]]]].
    + intros k v Hk. apply Hsub in Hk. destruct Hs1 as [Hs1 | (_ & Hs1)].
      * now rewrite Hs1 in Hk.
      * rewrite Hs1 in Hk. apply lookup_delete_Some in Hk as (_ & Hk). exact Hk.
    + intros k v Hk Hnone. destruct Hs1 as [Hs1 | (Hset & Hs1)].
      * rewrite <- Hs1 in Hk. destruct (Hgone k v Hk Hnone) as (v0 & Hin & Hv0).
        exists v0. split; [now right | assumption].
      * destruct (decide (k = It.1)) as [-> | Hne].
        -- exists It.2. split; [|exact Hset]. destruct It. left.
        -- assert (Hk1 : Entries s1 !! k = Some v)
             by (rewrite Hs1; now rewrite lookup_delete_ne).
           destruct (Hgone k v Hk1 Hnone) as (v0 & Hin & Hv0).
           exists v0. split; [now right | assumption].
    + destruct Hj as [(Hsn & Hdi) | Hclean]; [|now right].
      destruct Hj1 as [(Hsn1 & Hdi1) | Hclean1].
      * left. split; congruence.
      * right. congruence.
    + exists (l1 ++ l2). split; [rewrite Hi2, Hi1; now rewrite app_assoc|].
      apply Forall_app. split; assumption.
    + intros Path Hp. rewrite Hd by assumption. now apply Hd1.
    + congruence.
Qed.

Lemma CleanupStatusFile_spec (s s' : Sync.State B) :
  CleanupStatusFile C FileExistsInTree s = Returned s' ->
  (forall k v, Entries s' !! k = Some v -> Entries s !! k = Some v)
  /\ (forall k v, Entries s !! k = Some v -> Entries s' !! k = None -> Settled v = true)
  /\ (exists l, Sync.Issued s' = Sync.Issued s ++ l /\ Forall (fun c => c ∈ CleanupQueries) l)
  /\ (forall Path, Path <> StatusFilePath -> Sync.TheDisk s' !! Path = Sync.TheDisk s !! Path)
  /\ Sync.Cache s' = Sync.Cache s.
Proof.
  unfold CleanupStatusFile.
  set (s0 := Sync.set_StatusFile _ s).
  assert (Hid : (forall k v, Entries s !! k = Some v -> Entries s !! k = None -> Settled v = true)).
  { intros k v H1 H2. rewrite H1 in H2. discriminate. }
  assert (Hnil : exists l, Sync.Issued s = Sync.Issued s ++ l
                           /\ Forall (fun c => c ∈ CleanupQueries) l)
    by (exists []; split; [now rewrite app_nil_r | constructor]).
  assert (Hs0 : Sync.StatusFile s0
                = FGitSourceControlStatusFile.CacheStates (Sync.StatusFile s)
                /\ Sync.TheDisk s0 = Sync.TheDisk s /\ Sync.Cache s0 = Sync.Cache s
                /\ Sync.Issued s0 = Sync.Issued s) by (repeat split).
  clearbody s0. destruct Hs0 as (Hf0 & Hd0 & Hc0 & Hi0).
  destruct (Nat.eqb _ 0).
  { intros [= <-]. rewrite Hf0, Hd0, Hc0, Hi0. simpl. repeat split; auto. }
  pose proof (GetMergeBase_frame (Sync.Branch C) (Sync.GetRemoteBranch C) s0)
    as ((Hf1 & Hd1 & Hc1 & _) & Hi1 & _).
  destruct (Sync.GetMergeBase _ _ s0) as [MergeBase s1]. simpl in Hf1, Hd1, Hc1, Hi1.
  pose proof (GetCommitShaForBranch_frame (Sync.GetRemoteBranch C) s1)
    as ((Hf2 & Hd2 & Hc2 & _) & Hi2 & _).
  destruct (Sync.GetCommitShaForBranch _ s1) as [RemoteBranchSha s2].
  simpl in Hf2, Hd2, Hc2, Hi2.
  set (Diff := if negb (IsEmpty MergeBase) && _ then _ else _).
  assert (HD : Sync.StatusFile Diff.2 = Sync.StatusFile s0
               /\ Sync.TheDisk Diff.2 = Sync.TheDisk s
               /\ Sync.Cache Diff.2 = Sync.Cache s
               /\ exists l, Sync.Issued Diff.2 = Sync.Issued s ++ l
                            /\ Forall (fun c => c ∈ CleanupQueries) l).
  { subst Diff. destruct (_ && _).
    - pose proof (Run_frame "diff --name-status" [MergeBase; Sync.GetRemoteBranch C]
                    (map fst (map_to_list (Entries s0))) s2)
        as ((Hf3 & Hd3 & Hc3 & _) & Hi3 & _).
      destruct (Sync.Run _ _ _ s2) as [[[bDiff o] e] s3]. simpl in Hf3, Hd3, Hc3, Hi3.
      assert (Hall : Sync.StatusFile s3 = Sync.StatusFile s0
               /\ Sync.TheDisk s3 = Sync.TheDisk s
               /\ Sync.Cache s3 = Sync.Cache s
               /\ exists l, Sync.Issued s3 = Sync.Issued s ++ l
                            /\ Forall (fun c => c ∈ CleanupQueries) l).
      { split; [congruence|]. split; [congruence|]. split; [congruence|].
        exists ["merge-base"; "rev-parse --verify"; "diff --name-status"].
        split; [rewrite Hi3, Hi2, Hi1, Hi0; simpl; now rewrite <- !app_assoc|].
        repeat constructor. }
      destruct bDiff; exact Hall.
    - simpl. split; [congruence|]. split; [congruence|]. split; [congruence|].
      exists ["merge-base"; "rev-parse --verify"].
      split; [rewrite Hi2, Hi1, Hi0; simpl; now rewrite <- !app_assoc|].
      repeat constructor. }
  destruct Diff as [[Success RemoteStates] s3]. simpl in HD.
  destruct HD as (Hf3 & Hd3 & Hc3 & (l3 & Hi3 & Hq3)).
  destruct Success.
  - destruct (CleanupEntries _ _ _ _ _ s3) as [s4|] eqn:Hloop; [|discriminate].
    apply CleanupEntries_spec in Hloop as (Hsub & Hgone & Hj & (l4 & Hi4 & Hq4) & Hd4 & Hc4).
    rewrite Hf3, Hf0 in Hsub, Hgone, Hj. simpl in Hsub, Hgone, Hj.
    assert (Hgone' : forall k v, Entries s !! k = Some v -> Entries s4 !! k = None ->
                       Settled v = true).
    { intros k v Hk Hnone. destruct (Hgone k v Hk Hnone) as (v0 & Hin & Hv0).
      apply elem_of_map_to_list in Hin. simpl in Hin. congruence. }
    assert (Hissued : exists l, Sync.Issued s4 = Sync.Issued s ++ l
                                /\ Forall (fun c => c ∈ CleanupQueries) l).
    { exists (l3 ++ l4). split; [rewrite Hi4, Hi3; now rewrite app_assoc|].
      apply Forall_app. split; assumption. }
    assert (Hdisk : forall Path, Path <> StatusFilePath ->
                      Sync.TheDisk s4 !! Path = Sync.TheDisk s !! Path).
    { intros Path Hp. rewrite Hd4 by assumption. now rewrite Hd3. }
    destruct (Save_cases (Sync.Ledger C) (Sync.PathToRepositoryRoot C) false
                (Sync.StatusFile s4) (Sync.TheDisk s4))
      as [(Hgo & ->) | [(_ & _ & _ & ->) | (Hgo & _ & Loaded & _ & [(_ & ->) | (_ & ->)])]].
    + intros [= <-]. simpl. repeat split; auto. congruence.
    + discriminate.
    + intros [= <-]. simpl.
      rewrite orb_false_r in Hgo.
      destruct Hj as [(Hsnap & _) | Hclean]; [|congruence].
      rewrite Hsnap. repeat split; auto. congruence.
    + intros [= <-]. simpl. repeat split; auto; [|congruence].
      intros Path Hp. unfold FGitSourceControlStatusFile.Disk in *.
      rewrite lookup_insert_ne by congruence. now apply Hdisk.
  - intros [= <-]. simpl. rewrite Hf3, Hf0. simpl.
    split; [auto|]. split; [exact Hid|].
    split; [exists l3; split; assumption|].
    split; [intros Path _; now rewrite Hd3 | exact Hc3].
Qed.

End CleaningProperties.

(** X25. [CleanupStatusFile] only ever takes entries out of the ledger: an
    entry that is still there is as it was, and an entry that is gone was a
    deletion or an entry written as '0' with a pinned revision.  So the
    entries for files added, modified, checked out, conflicted, not
    controlled or ignored all stay, whatever git answers and whether or not
    the saves succeed. *)
Theorem CleanupStatusFile_only_drops_settled {B : GitBackend} (C : Sync.Settings)
    (FileExistsInTree : FString -> World B -> bool) (s s' : Sync.State B) :
  CleanupStatusFile C FileExistsInTree s = Returned s' ->
  (forall k v, FGitSourceControlStatusFile.SavedStates (Sync.StatusFile s') !! k = Some v ->
               FGitSourceControlStatusFile.SavedStates (Sync.StatusFile s) !! k = Some v)
  /\ (forall k v, FGitSourceControlStatusFile.SavedStates (Sync.StatusFile s) !! k = Some v ->
                  FGitSourceControlStatusFile.SavedStates (Sync.StatusFile s') !! k = None ->
                  Settled v = true)
  /\ (forall k v, FGitSourceControlStatusFile.SavedStates (Sync.StatusFile s) !! k = Some v ->
                  In (SavedState.State v)
                     [Added; Modified; CheckedOut; Conflicted; ForcedWriteable;
                      NotControlled; Ignored] ->
                  FGitSourceControlStatusFile.GetState (Sync.StatusFile s') k = v).
Proof.
  intros Hrun.
  destruct (CleanupStatusFile_spec C FileExistsInTree s s' Hrun) as (Hsub & Hgone & _).
  split; [exact Hsub|]. split; [exact Hgone|].
  intros k v Hk Hin. unfold FGitSourceControlStatusFile.GetState.
  destruct (FGitSourceControlStatusFile.SavedStates (Sync.StatusFile s') !! k) as [v'|] eqn:Hk'.
  - apply Hsub in Hk'.
    assert (Hboth : Some v' = Some v) by (etrans; [symmetry; exact Hk' | exact Hk]).
    now injection Hboth.
  - pose proof (Hgone k v Hk Hk') as Hset. unfold Settled in Hset.
    destruct v as [st rev]. simpl in *.
    repeat (destruct Hin as [<- | Hin]; [discriminate Hset|]). contradiction.
Qed.

Lemma CleanupStatusFile_only_drops_settled_witness :
  exists s',
    CleanupStatusFile ExampleSettingsWritable (fun _ _ => false) (ExampleSyncBehind false)
      = Returned s'
    /\ (forall k v,
          FGitSourceControlStatusFile.SavedStates (Sync.StatusFile s') !! k = Some v ->
          FGitSourceControlStatusFile.SavedStates ExamplePinnedLedger !! k = Some v).
Proof.
  destruct (CleanupStatusFile ExampleSettingsWritable (fun _ _ => false)
              (ExampleSyncBehind false)) as [s'|] eqn:Hrun;
    [|vm_compute in Hrun; discriminate].
  exists s'. split; [reflexivity|].
  exact (proj1 (CleanupStatusFile_only_drops_settled _ _ _ _ Hrun)).
Defined.

(** X26. [CleanupStatusFile] asks git nothing but queries (merge-base,
    rev-parse, diff --name-status, merge-base --is-ancestor), writes no file
    but the status file and leaves the provider's cache alone. *)
Theorem CleanupStatusFile_only_queries {B : GitBackend} (C : Sync.Settings)
    (FileExistsInTree : FString -> World B -> bool) (s s' : Sync.State B) :
  CleanupStatusFile C FileExistsInTree s = Returned s' ->
  (exists l, Sync.Issued s' = Sync.Issued s ++ l /\ Forall (fun c => c ∈ CleanupQueries) l)
  /\ (forall Path,
        Path <> FGitSourceControlStatusFile.Combine (Sync.Ledger C)
                  (Sync.PathToRepositoryRoot C)
                  FGitSourceControlStatusFile.GitStatusFileName ->
        Sync.TheDisk s' !! Path = Sync.TheDisk s !! Path)
  /\ Sync.Cache s' = Sync.Cache s.
Proof.
  intros Hrun.
  destruct (CleanupStatusFile_spec C FileExistsInTree s s' Hrun) as (_ & _ & H).
  exact H.
Qed.

Lemma CleanupStatusFile_only_queries_witness :
  exists s',
    CleanupStatusFile ExampleSettingsWritable (fun _ _ => true) (ExampleSyncBehind false)
      = Returned s'
    /\ Sync.Cache s' = ∅.
Proof.
  destruct (CleanupStatusFile ExampleSettingsWritable (fun _ _ => true)
              (ExampleSyncBehind false)) as [s'|] eqn:Hrun;
    [|vm_compute in Hrun; discriminate].
  exists s'. split; [reflexivity|].
  exact (proj2 (proj2 (CleanupStatusFile_only_queries _ _ _ _ Hrun))).
Defined.

(** ** The parsers *)

Lemma FindState_None (File : FString) (Map : list (FString * FGitSourceControlState)) :
  FindState File Map = None <-> File ∉ Map.*1.
Proof.
  unfold FindState. induction Map as [|[k v] m IH]; simpl.
  - split; [intros _ H; now apply elem_of_nil in H | reflexivity].
  - destruct (String.eqb_spec k File) as [-> | Hne].
    + split; [discriminate | intros H; exfalso; apply H; left].
    + rewrite IH. rewrite not_elem_of_cons.
      split; [intros H; split; [intros Heq; now apply Hne | exact H] | tauto].
Qed.

Lemma FindState_Some (File : FString) (Map : list (FString * FGitSourceControlState)) :
  is_Some (FindState File Map) <-> File ∈ Map.*1.
Proof.
  destruct (FindState File Map) eqn:H.
  - split; [intros _ | intros _; now eexists].
    destruct (decide (File ∈ Map.*1)) as [Hin | Hnot]; [exact Hin|].
    apply FindState_None in Hnot. congruence.
  - apply FindState_None in H. split; [intros [? ?]; discriminate | contradiction].
Qed.

Lemma TMapAdd_keys (Key : FString) (Value : FGitSourceControlState)
    (Map : list (FString * FGitSourceControlState)) :
  (TMapAdd Key Value Map).*1 = if bool_decide (Key ∈ Map.*1) then Map.*1 else Map.*1 ++ [Key].
Proof.
  induction Map as [|[k v] m IH]; [reflexivity|].
  cbn [TMapAdd fst]. destruct (String.eqb_spec k Key) as [-> | Hne].
  - rewrite !fmap_cons. cbn [fst]. rewrite bool_decide_eq_true_2 by left. reflexivity.
  - rewrite !fmap_cons, IH. cbn [fst]. destruct (bool_decide (Key ∈ m.*1)) eqn:Hm.
    + apply bool_decide_eq_true in Hm. rewrite bool_decide_eq_true_2 by now right.
      reflexivity.
    + apply bool_decide_eq_false in Hm.
      rewrite bool_decide_eq_false_2; [reflexivity|].
      rewrite not_elem_of_cons. split; [intros Heq; now apply Hne | exact Hm].
Qed.

Lemma TMapAdd_values (Key : FString) (Value : FGitSourceControlState)
    (Map : list (FString * FGitSourceControlState)) (P : FString * FGitSourceControlState -> Prop) :
  P (Key, Value) -> Forall P Map -> Forall P (TMapAdd Key Value Map).
Proof.
  intros HP. induction 1 as [|[k v] m Hx Hm IH]; simpl; [repeat constructor; exact HP|].
  destruct (String.eqb k Key); constructor; assumption.
Qed.

Lemma TMapAdd_keyed (Value : FGitSourceControlState)
    (Map : list (FString * FGitSourceControlState)) :
  KeyedByFilename Map ->
  KeyedByFilename (TMapAdd (GetFilename Value) Value Map)
  /\ Map.*1 ⊆ (TMapAdd (GetFilename Value) Value Map).*1
  /\ GetFilename Value ∈ (TMapAdd (GetFilename Value) Value Map).*1.
Proof.
  intros (Hall & Hnd). rewrite TMapAdd_keys. split; [split|split].
  - apply TMapAdd_values; [reflexivity | exact Hall].
  - rewrite TMapAdd_keys. destruct (bool_decide _) eqn:Hm; [exact Hnd|].
    apply bool_decide_eq_false in Hm. apply NoDup_app. split; [exact Hnd|].
    split; [|apply NoDup_singleton].
    intros x Hx Hx'. apply list_elem_of_singleton in Hx'. subst x. contradiction.
  - destruct (bool_decide _); [reflexivity|]. intros x Hx. apply elem_of_app. now left.
  - destruct (bool_decide _) eqn:Hm; [now apply bool_decide_eq_true in Hm|].
    apply elem_of_app. right. left.
Qed.

Lemma FString_at_two (s : FString) :
  (Len s <? 2)%Z = false ->
  exists a b, FString_at s 0 = Some a /\ FString_at s 1 = Some b.
Proof.
  unfold Len, FString_at. destruct s as [|a [|b s]]; simpl; intros H; try discriminate.
  - eexists _, _. split; reflexivity.
Qed.

Section ParserProperties.
Context (PathsCombine : FString -> FString -> FString) (Now : nat -> FDateTime).

(** What a step of a parser keeps. *)
Local Abbreviation Grows acc acc' :=
  (KeyedByFilename (fst acc') /\ (fst acc).*1 ⊆ (fst acc').*1
   /\ Nat.le (snd acc) (snd acc')).

Lemma Grows_step (State : FGitSourceControlState)
    (Map0 Map : list (FString * FGitSourceControlState)) (Reads0 Reads : nat) :
  KeyedByFilename Map -> Map0.*1 ⊆ Map.*1 -> (Reads0 <= Reads)%nat ->
  Grows (Map0, Reads0) (TMapAdd (GetFilename State) State Map, Reads).
Proof.
  intros Hk Hsub Hr. destruct (TMapAdd_keyed State Map Hk) as (Hk' & Hsub' & _).
  split; [exact Hk'|]. split; [etrans; eassumption | exact Hr].
Qed.

Lemma ParseStatusLine_grows (InLine InRepositoryRoot : FString) (acc : Parsed) :
  KeyedByFilename acc.1 ->
  exists acc', ParseStatusLine PathsCombine Now InLine InRepositoryRoot acc = Returned acc'
               /\ Grows acc acc'.
Proof.
  intros Hk. destruct acc as [OutStates Reads].
  assert (Hsame : Grows (OutStates, Reads) (OutStates, Reads))
    by (split; [exact Hk|]; split; [reflexivity | lia]).
  unfold ParseStatusLine.
  destruct (Len InLine <? 2)%Z eqn:Hlen; [eexists; split; [reflexivity | exact Hsame]|].
  destruct (FString_at_two InLine Hlen) as (a & b & -> & ->).
  destruct (match Find " -> " (RightChop 3 InLine) with Some _ => _ | None => _ end)
    as [RelativeFilename RelativeFilenameRenamed].
  destruct (IsEmpty RelativeFilename); [eexists; split; [reflexivity | exact Hsame]|].
  repeat match goal with
         | |- context [if ?c then _ else _] => destruct c
         end;
    (eexists; split; [reflexivity|]);
    first [ apply Grows_step; [exact Hk | reflexivity | lia]
          | apply Grows_step; [apply TMapAdd_keyed, Hk | apply TMapAdd_keyed, Hk | lia] ].
Qed.

Lemma ParseNameStatusLine_grows (InLine InRepositoryRoot : FString) (acc : Parsed) :
  KeyedByFilename acc.1 ->
  exists acc', ParseNameStatusLine PathsCombine Now InLine InRepositoryRoot acc = Returned acc'
               /\ Grows acc acc'.
Proof.
  intros Hk. destruct acc as [OutStates Reads].
  assert (Hsame : Grows (OutStates, Reads) (OutStates, Reads))
    by (split; [exact Hk|]; split; [reflexivity | lia]).
  unfold ParseNameStatusLine.
  destruct (Len InLine <? 2)%Z eqn:Hlen; [eexists; split; [reflexivity | exact Hsame]|].
  destruct (FString_at_two InLine Hlen) as (a & b & -> & _).
  destruct (FindChar "009" InLine) as [TabIndex|];
    [|eexists; split; [reflexivity | exact Hsame]].
  destruct (match FindLastChar "009" _ with Some _ => _ | None => _ end)
    as [RelativeFilename RelativeFilenameRenamed].
  repeat match goal with
         | |- context [if ?c then _ else _] => destruct c
         end;
    (eexists; split; [reflexivity|]);
    first [ apply Grows_step; [exact Hk | reflexivity | lia]
          | apply Grows_step; [apply TMapAdd_keyed, Hk | apply TMapAdd_keyed, Hk | lia] ].
Qed.

Lemma ParseLines_grows ParseLine (InRepositoryRoot : FString) (InResults : list FString) :
  (forall Line acc, KeyedByFilename acc.1 ->
     exists acc', ParseLine Line InRepositoryRoot acc = Returned acc' /\ Grows acc acc') ->
  forall acc, KeyedByFilename acc.1 ->
  exists acc', ParseLines ParseLine InRepositoryRoot InResults acc = Returned acc'
               /\ Grows acc acc'.
Proof.
  intros Hline. induction InResults as [|Line l IH]; intros acc Hk; simpl.
  - exists acc. split; [reflexivity|]. split; [exact Hk|]. split; [reflexivity | lia].
  - destruct (Hline Line acc Hk) as (acc1 & -> & Hk1 & Hsub1 & Hr1).
    destruct (IH acc1 Hk1) as (acc' & -> & Hk' & Hsub' & Hr').
    exists acc'. split; [reflexivity|]. split; [exact Hk'|].
    split; [etrans; eassumption | lia].
Qed.

Lemma DefaultStates_grows (bIsDirectory FileExists : FString -> bool)
    (InFiles : list FString) (acc : Parsed) :
  KeyedByFilename acc.1 ->
  let acc' := DefaultStates Now bIsDirectory FileExists InFiles acc in
  Grows acc acc'
  /\ (forall File, File ∈ InFiles -> bIsDirectory File = false -> File ∈ acc'.1.*1).
Proof.
  revert acc. induction InFiles as [|File l IH]; intros [OutStates Reads] Hk; simpl.
  - split; [split; [exact Hk|]; split; [reflexivity | lia]|].
    intros File H. now apply elem_of_nil in H.
  - set (Step := if negb (bIsDirectory File) && _ then _ else _).
    assert (HS : Grows (OutStates, Reads) Step
                 /\ (bIsDirectory File = false -> File ∈ Step.1.*1)).
    { subst Step. destruct (bIsDirectory File) eqn:Hdir; simpl.
      - split; [split; [exact Hk|]; split; [reflexivity | lia]|]. discriminate.
      - destruct (bool_decide (is_Some (FindState File OutStates))) eqn:Hfound; simpl.
        + apply bool_decide_eq_true, FindState_Some in Hfound.
          split; [split; [exact Hk|]; split; [reflexivity | lia]|].
          intros _. exact Hfound.
        + set (FileState := set_TimeStamp (Now Reads) _).
          assert (HF : GetFilename FileState = File)
            by (subst FileState; destruct (FileExists File); reflexivity).
          pose proof (TMapAdd_keyed FileState OutStates Hk) as (Hk' & Hsub & Hin).
          rewrite HF in Hk', Hsub, Hin.
          split; [split; [exact Hk'|]; split; [exact Hsub | lia]|].
          intros _. exact Hin. }
    destruct HS as ((Hk1 & Hsub1 & Hr1) & Hcov1).
    destruct (IH Step Hk1) as ((Hk' & Hsub' & Hr') & Hcov).
    split; [split; [exact Hk'|]; split; [etrans; eassumption | simpl in *; lia]|].
    intros F HF Hdir. apply elem_of_cons in HF as [-> | HF].
    + apply Hsub'. now apply Hcov1.
    + now apply Hcov.
Qed.

(** X27. [ParseStatusResults] (here [ParseStatusLines]) never reads a line
    out of range, whatever the lines are.  Started from states that are each
    filed under their own file name, no file twice, it ends with such
    states; it drops no file that had a state; and every file listed in the
    command that is not a directory has a state afterwards. *)
Theorem ParseStatusLines_keyed (bIsDirectory FileExists : FString -> bool)
    (InRepositoryRoot : FString) (InFiles InResults : list FString) (acc : Parsed) :
  KeyedByFilename acc.1 ->
  exists acc',
    ParseStatusLines PathsCombine Now bIsDirectory FileExists InRepositoryRoot
      InFiles InResults acc = Returned acc'
    /\ KeyedByFilename acc'.1
    /\ acc.1.*1 ⊆ acc'.1.*1
    /\ (forall File, File ∈ InFiles -> bIsDirectory File = false ->
          is_Some (FindState File acc'.1)).
Proof.
  intros Hk. unfold ParseStatusLines.
  destruct (ParseLines_grows (ParseStatusLine PathsCombine Now) InRepositoryRoot InResults
              (fun Line => ParseStatusLine_grows Line InRepositoryRoot) acc Hk)
    as (acc1 & -> & Hk1 & Hsub1 & _).
  destruct (DefaultStates_grows bIsDirectory FileExists InFiles acc1 Hk1)
    as ((Hk' & Hsub' & _) & Hcov).
  eexists. split; [reflexivity|]. split; [exact Hk'|]. split; [etrans; eassumption|].
  intros File HF Hdir. apply FindState_Some. now apply Hcov.
Qed.

(** X28. [ParseNameStatusResults] (here [ParseNameStatusLines]) never reads
    a line out of range either, and keeps states that are each filed under
    their own file name, no file twice, without dropping a file that had a
    state. *)
Theorem ParseNameStatusLines_keyed (InRepositoryRoot : FString)
    (InResults : list FString) (acc : Parsed) :
  KeyedByFilename acc.1 ->
  exists acc',
    ParseNameStatusLines PathsCombine Now InRepositoryRoot InResults acc = Returned acc'
    /\ KeyedByFilename acc'.1
    /\ acc.1.*1 ⊆ acc'.1.*1.
Proof.
  intros Hk. unfold ParseNameStatusLines.
  destruct (ParseLines_grows (ParseNameStatusLine PathsCombine Now) InRepositoryRoot InResults
              (fun Line => ParseNameStatusLine_grows Line InRepositoryRoot) acc Hk)
    as (acc1 & -> & Hk1 & Hsub1 & _).
  eexists. split; [reflexivity|]. split; assumption.
Qed.

End ParserProperties.

Lemma KeyedByFilename_nil : KeyedByFilename [].
Proof. split; constructor. Qed.

Lemma ParseStatusLines_keyed_witness :
  KeyedByFilename []
  /\ exists acc',
       ParseStatusLines ExamplePathsCombine (fun n => Z.of_nat n) (fun _ => false)
         (fun _ => true) "/repo"
         ["/repo/Content/c.uasset"]
         ["M  Content/a.uasset"; "R  Content/a.uasset -> Content/b.uasset"; "??"]
         ([], 0%nat)
       = Returned acc'
       /\ acc'.1.*1 = ["/repo/Content/a.uasset"; "/repo/Content/b.uasset";
                       "/repo/Content/c.uasset"]
       /\ KeyedByFilename acc'.1.
Proof.
  split; [exact KeyedByFilename_nil|].
  destruct (ParseStatusLines_keyed ExamplePathsCombine (fun n => Z.of_nat n) (fun _ => false)
              (fun _ => true) "/repo" ["/repo/Content/c.uasset"]
              ["M  Content/a.uasset"; "R  Content/a.uasset -> Content/b.uasset"; "??"]
              ([], 0%nat) KeyedByFilename_nil) as (acc' & Hrun & Hk & _).
  exists acc'. split; [exact Hrun|]. split; [|exact Hk].
  vm_compute in Hrun. injection Hrun as <-. reflexivity.
Defined.

Lemma ParseNameStatusLines_keyed_witness :
  KeyedByFilename []
  /\ exists acc',
       ParseNameStatusLines ExamplePathsCombine (fun n => Z.of_nat n) "/repo"
         [String "M" (String "009" "Content/a.uasset"); "x"] ([], 0%nat)
       = Returned acc'
       /\ acc'.1.*1 = ["/repo/Content/a.uasset"]
       /\ KeyedByFilename acc'.1.
Proof.
  split; [exact KeyedByFilename_nil|].
  destruct (ParseNameStatusLines_keyed ExamplePathsCombine (fun n => Z.of_nat n) "/repo"
              [String "M" (String "009" "Content/a.uasset"); "x"] ([], 0%nat)
              KeyedByFilename_nil) as (acc' & Hrun & Hk & _).
  exists acc'. split; [exact Hrun|]. split; [|exact Hk].
  vm_compute in Hrun. injection Hrun as <-. reflexivity.
Defined.

(** ** The status update *)

Lemma TakeMostRecentTimeStamp_filename (This Other : FGitSourceControlState) :
  GetFilename (TakeMostRecentTimeStamp This Other) = GetFilename This.
Proof. unfold TakeMostRecentTimeStamp. now destruct (_ >? _). Qed.

Lemma CombineWithLocalState_filename (This Other : FGitSourceControlState) :
  GetFilename Other = GetFilename This ->
  exists T L, CombineWithLocalState This Other = Done T L /\ GetFilename T = GetFilename This.
Proof.
  intros H. unfold CombineWithLocalState. rewrite (same_file_check _ _ H).
  pose proof (TakeMostRecentTimeStamp_filename This Other) as HT.
  revert HT. generalize (TakeMostRecentTimeStamp This Other). intros T HT. cbn zeta.
  destruct (WorkingCopyState Other), (WorkingCopyState T);
    eexists _, _; (split; [reflexivity | exact HT]).
Qed.

Lemma CombineWithSavedState_filename (This : FGitSourceControlState) (Saved : SavedState.t)
    (LocalBranchSha : FString) :
  exists T L, CombineWithSavedState This Saved LocalBranchSha = Done T L
              /\ GetFilename T = GetFilename This.
Proof.
  unfold CombineWithSavedState. cbn zeta. cbn [WorkingCopyState set_CheckedOutRevision].
  destruct (SavedState.State Saved), (WorkingCopyState This);
    repeat match goal with
           | |- context [if ?c then _ else _] => destruct c
           end;
    eexists _, _; (split; [reflexivity | reflexivity]).
Qed.

Lemma CombineWithRemoteState_filename (This Other : FGitSourceControlState) :
  GetFilename Other = GetFilename This ->
  exists T L, CombineWithRemoteState This Other = Done T L /\ GetFilename T = GetFilename This.
Proof.
  intros H. unfold CombineWithRemoteState. rewrite (same_file_check _ _ H).
  pose proof (TakeMostRecentTimeStamp_filename This Other) as HT.
  revert HT. generalize (TakeMostRecentTimeStamp This Other). intros T HT. cbn zeta.
  cbn [RemoteState WorkingCopyState set_RemoteState].
  destruct (WorkingCopyState Other), (WorkingCopyState T);
    repeat match goal with
           | |- context [if ?c then _ else _] => destruct c
           end;
    eexists _, _; (split; [reflexivity | exact HT]).
Qed.

Lemma CombineWithLockedState_filename (This Other : FGitSourceControlState) :
  GetFilename Other = GetFilename This ->
  exists T L, CombineWithLockedState This Other = Done T L /\ GetFilename T = GetFilename This.
Proof.
  intros H. unfold CombineWithLockedState. rewrite (same_file_check _ _ H). cbn zeta.
  cbn [WorkingCopyState set_Lock].
  destruct (IsLockedByMe _); [destruct (WorkingCopyState This) | destruct (_ || _)];
    eexists _, _; (split; [reflexivity | reflexivity]).
Qed.

Lemma ResolveConflict_filename FileExists OldState (This : FGitSourceControlState) :
  GetFilename (ResolveConflict FileExists OldState This) = GetFilename This.
Proof. unfold ResolveConflict. cbn zeta. now destruct (_ && _). Qed.

Lemma FindState_filed (Key : FString) (Map : list (FString * FGitSourceControlState))
    (State : FGitSourceControlState) :
  FiledByName Map -> FindState Key Map = Some State -> GetFilename State = Key.
Proof.
  unfold FindState, FiledByName. induction 1 as [|[k v] m Hx Hm IH]; simpl; [discriminate|].
  destruct (String.eqb_spec k Key) as [-> | Hne].
  - intros [= <-]. now symmetry.
  - exact IH.
Qed.

Lemma TMapAdd_filed (Key : FString) (Value : FGitSourceControlState)
    (Map : list (FString * FGitSourceControlState)) :
  FiledByName Map -> GetFilename Value = Key -> FiledByName (TMapAdd Key Value Map).
Proof. intros Hm Hv. apply TMapAdd_values; [now symmetry | exact Hm]. Qed.

Lemma TMapAdd_NoDup (Key : FString) (Value : FGitSourceControlState)
    (Map : list (FString * FGitSourceControlState)) :
  NoDup Map.*1 -> NoDup (TMapAdd Key Value Map).*1.
Proof.
  intros Hnd. rewrite TMapAdd_keys. destruct (bool_decide _) eqn:Hm; [exact Hnd|].
  apply bool_decide_eq_false in Hm. apply NoDup_app. split; [exact Hnd|].
  split; [|apply NoDup_singleton].
  intros x Hx Hx'. apply list_elem_of_singleton in Hx'. subst x. contradiction.
Qed.

Section StatusProperties.
Context {B : GitBackend} (C : Sync.Settings).
Context (bUseLocking : bool)
        (StartsWith : FString -> FString -> bool)
        (bIsDirectory bIsValid FileExistsInTree : FString -> World B -> bool)
        (ParseLocksResults : list FString -> World B ->
                             list (FString * FGitSourceControlState)).

Lemma CombineLocalStates_filed StatusStates States Log :
  FiledByName StatusStates -> FiledByName States ->
  exists States' Log',
    Status.CombineLocalStates StatusStates States Log = Returned (States', Log')
    /\ FiledByName States' /\ (NoDup States.*1 -> NoDup States'.*1).
Proof.
  intros HS. revert States Log. induction HS as [|[k v] m Hx Hm IH]; intros States Log Hk; simpl.
  - eexists _, _. split; [reflexivity|]. split; [exact Hk | auto].
  - simpl in Hx. destruct (FindState k States) as [StateResult|] eqn:Hfind.
    + pose proof (FindState_filed _ _ _ Hk Hfind) as Hfile.
      destruct (CombineWithLocalState_filename StateResult v) as (T & L & -> & HT);
        [congruence|].
      destruct (IH (TMapAdd k T States) (Log ++ L)) as (States' & Log' & -> & Hk' & Hnd');
        [apply TMapAdd_filed; [exact Hk | congruence]|].
      eexists _, _. split; [reflexivity|]. split; [exact Hk'|].
      intros Hnd. apply Hnd'. now apply TMapAdd_NoDup.
    + destruct (IH (TMapAdd k v States) Log) as (States' & Log' & -> & Hk' & Hnd');
        [apply TMapAdd_filed; [exact Hk | now symmetry]|].
      eexists _, _. split; [reflexivity|]. split; [exact Hk'|].
      intros Hnd. apply Hnd'. now apply TMapAdd_NoDup.
Qed.

Lemma CombineSavedStates_filed LocalBranchSha f w States Log :
  FiledByName States ->
  exists States' Log',
    Status.CombineSavedStates bIsValid LocalBranchSha f w States Log = Returned (States', Log')
    /\ FiledByName States' /\ States'.*1 = States.*1.
Proof.
  intros Hk. revert Log. induction Hk as [|[k v] m Hx Hm IH]; intros Log; simpl.
  - eexists _, _. split; [reflexivity|]. split; [constructor | reflexivity].
  - simpl in Hx.
    destruct (CombineWithSavedState_filename v
                (FGitSourceControlStatusFile.GetState f (GetFilename v)) LocalBranchSha)
      as (T & L & -> & HT).
    destruct (IH (Log ++ L)) as (States' & Log' & -> & Hk' & Hkeys).
    eexists _, _. split; [reflexivity|]. split.
    + constructor; [|exact Hk']. unfold GetFilename in *.
      destruct (negb (EWorkingCopyState.eqb (WorkingCopyState T) Unknown));
        [destruct (negb (bIsValid (AbsoluteFilename v) w))|]; simpl; congruence.
    + rewrite !fmap_cons. simpl. now rewrite Hkeys.
Qed.

Local Abbreviation Queried := OnlyQueried.

Lemma Queried_refl (s : Sync.State B) : Queried s s.
Proof.
  split; [repeat split|]. split; [reflexivity|]. split; [reflexivity|].
  exists []. split; [now rewrite app_nil_r | constructor].
Qed.

Lemma Queried_trans (s1 s2 s3 : Sync.State B) : Queried s1 s2 -> Queried s2 s3 -> Queried s1 s3.
Proof.
  intros (Ha & Ha1 & Ha2 & la & Hia & Hqa) (Hb & Hb1 & Hb2 & lb & Hib & Hqb).
  split; [eapply SameLedgerAndResults_trans; eassumption|].
  split; [congruence|]. split; [congruence|].
  exists (la ++ lb). split; [rewrite Hib, Hia; now rewrite app_assoc|].
  apply Forall_app. split; assumption.
Qed.

Lemma Run_queried Command Parameters Files (s : Sync.State B) :
  Command ∈ StatusQueries ->
  Queried s (Sync.Run Command Parameters Files s).2.
Proof.
  intros Hq. pose proof (Run_frame Command Parameters Files s) as (Hsame & Hi & _).
  unfold Sync.Run in *.
  destruct (RunCommand B Command Parameters Files (Sync.TheWorld s)) as [[[b o] e] w].
  simpl in *. split; [exact Hsame|]. split; [reflexivity|]. split; [reflexivity|].
  exists [Command]. split; [exact Hi | constructor; [exact Hq | constructor]].
Qed.

Lemma GetMergeBase_queried InCommit1 InCommit2 (s : Sync.State B) :
  Queried s (Sync.GetMergeBase InCommit1 InCommit2 s).2.
Proof.
  unfold Sync.GetMergeBase.
  pose proof (Run_queried "merge-base" [InCommit1; InCommit2] [] s) as H.
  destruct (Sync.Run "merge-base" [InCommit1; InCommit2] [] s) as [[[b o] e] s1].
  simpl in H. destruct o as [|x o], b; simpl; apply H; repeat constructor.
Qed.

Lemma GetCommitShaForBranch_queried InBranch (s : Sync.State B) :
  Queried s (Sync.GetCommitShaForBranch InBranch s).2.
Proof.
  unfold Sync.GetCommitShaForBranch.
  pose proof (Run_queried "rev-parse --verify" [InBranch] [] s) as H.
  destruct (Sync.Run "rev-parse --verify" [InBranch] [] s) as [[[b o] e] s1].
  simpl in H. destruct o as [|x [|y o]], b; simpl; apply H; repeat constructor.
Qed.

Lemma CombineRemoteStates_filed RemoteBranchSha RemoteStates States Log (s : Sync.State B) :
  FiledByName RemoteStates -> FiledByName States ->
  exists States' Log' s',
    Status.CombineRemoteStates C FileExistsInTree RemoteBranchSha RemoteStates States Log s
      = Returned (States', Log', s')
    /\ FiledByName States' /\ (NoDup States.*1 -> NoDup States'.*1)
    /\ Queried s s'.
Proof.
  intros HR. revert States Log s.
  induction HR as [|[k v] m Hx Hm IH]; intros States Log s Hk; simpl.
  - eexists _, _, _. split; [reflexivity|]. split; [exact Hk|]. split; [auto|].
    apply Queried_refl.
  - simpl in Hx. destruct (FindState k States) as [StateResult|] eqn:Hfind.
    2:{ apply IH. exact Hk. }
    pose proof (FindState_filed _ _ _ Hk Hfind) as Hfile.
    destruct (CombineWithRemoteState_filename StateResult v) as (T & L & -> & HT);
      [congruence|].
    set (Step := if negb (IsCurrent T) && _ then _ else _).
    assert (HStep : GetFilename Step.1 = k /\ Queried s Step.2).
    { subst Step. destruct (negb (IsCurrent T) && _); simpl.
      2:{ split; [congruence | apply Queried_refl]. }
      destruct (String.eqb (CheckedOutRevision T) RemoteBranchSha); simpl.
      { split; [rewrite ResolveConflict_filename; congruence | apply Queried_refl]. }
      pose proof (Run_queried LogLastChangedRevision [Sync.GetRemoteBranch C] [k] s) as Hq.
      destruct (Sync.Run LogLastChangedRevision [Sync.GetRemoteBranch C] [k] s)
        as [[[b o] e] s1].
      simpl in Hq.
      assert (Hq1 : Queried s s1) by (apply Hq; repeat constructor).
      destruct o as [|LastChangedRev [|y o]]; simpl; try (split; [congruence | exact Hq1]).
      destruct b; simpl; [|split; [congruence | exact Hq1]].
      pose proof (GetMergeBase_queried LastChangedRev (CheckedOutRevision T) s1) as Hq2.
      destruct (Sync.GetMergeBase LastChangedRev (CheckedOutRevision T) s1) as [MB s2].
      simpl in Hq2.
      destruct (String.eqb MB LastChangedRev); simpl;
        (split; [rewrite ?ResolveConflict_filename; congruence
                | eapply Queried_trans; eassumption]). }
    destruct Step as [This s1]. simpl in HStep. destruct HStep as (HThis & Hq1).
    destruct (IH (TMapAdd k This States) (Log ++ L) s1)
      as (States' & Log' & s' & -> & Hk' & Hnd' & Hq');
      [apply TMapAdd_filed; assumption|].
    eexists _, _, _. split; [reflexivity|]. split; [exact Hk'|].
    split; [intros Hnd; apply Hnd'; now apply TMapAdd_NoDup|].
    eapply Queried_trans; eassumption.
Qed.

Lemma CombineLockStates_filed LockStates States Log :
  FiledByName LockStates -> FiledByName States ->
  exists States' Log',
    Status.CombineLockStates LockStates States Log = Returned (States', Log')
    /\ FiledByName States' /\ (NoDup States.*1 -> NoDup States'.*1).
Proof.
  intros HS. revert States Log. induction HS as [|[k v] m Hx Hm IH]; intros States Log Hk; simpl.
  - eexists _, _. split; [reflexivity|]. split; [exact Hk | auto].
  - simpl in Hx. destruct (FindState k States) as [StateResult|] eqn:Hfind.
    + pose proof (FindState_filed _ _ _ Hk Hfind) as Hfile.
      destruct (CombineWithLockedState_filename StateResult v) as (T & L & -> & HT);
        [congruence|].
      destruct (IH (TMapAdd k T States) (Log ++ L)) as (States' & Log' & -> & Hk' & Hnd');
        [apply TMapAdd_filed; [exact Hk | congruence]|].
      eexists _, _. split; [reflexivity|]. split; [exact Hk'|].
      intros Hnd. apply Hnd'. now apply TMapAdd_NoDup.
    + apply IH. exact Hk.
Qed.

Lemma CombineRemoteStates_queried RemoteBranchSha RemoteStates States Log (s : Sync.State B)
    States' Log' s' :
  Status.CombineRemoteStates C FileExistsInTree RemoteBranchSha RemoteStates States Log s
    = Returned (States', Log', s') ->
  Queried s s'.
Proof.
  revert States Log s. induction RemoteStates as [|[k v] m IH]; intros States Log s; simpl.
  - intros [= _ _ <-]. apply Queried_refl.
  - destruct (FindState k States) as [StateResult|]; [|apply IH].
    destruct (CombineWithRemoteState StateResult v) as [T L|]; [|discriminate].
    set (Step := if negb (IsCurrent T) && _ then _ else _).
    assert (HStep : Queried s Step.2).
    { subst Step. destruct (negb (IsCurrent T) && _); simpl; [|apply Queried_refl].
      destruct (String.eqb (CheckedOutRevision T) RemoteBranchSha); simpl;
        [apply Queried_refl|].
      pose proof (Run_queried LogLastChangedRevision [Sync.GetRemoteBranch C] [k] s) as Hq.
      destruct (Sync.Run LogLastChangedRevision [Sync.GetRemoteBranch C] [k] s)
        as [[[b o] e] s1].
      simpl in Hq.
      assert (Hq1 : Queried s s1) by (apply Hq; repeat constructor).
      destruct o as [|LastChangedRev [|y o]]; simpl; try exact Hq1.
      destruct b; simpl; [|exact Hq1].
      pose proof (GetMergeBase_queried LastChangedRev (CheckedOutRevision T) s1) as Hq2.
      destruct (Sync.GetMergeBase LastChangedRev (CheckedOutRevision T) s1) as [MB s2].
      simpl in Hq2.
      destruct (String.eqb MB LastChangedRev); simpl; eapply Queried_trans; eassumption. }
    destruct Step as [This s1]. simpl in HStep. intros Hrec. apply IH in Hrec.
    eapply Queried_trans; eassumption.
Qed.

Lemma CombineStates_queried Errors LocalBranchSha RemoteBranchSha
    StatusStates RemoteStates States (s : Sync.State B) r :
  Status.CombineStates C bUseLocking bIsValid FileExistsInTree ParseLocksResults
    Errors LocalBranchSha RemoteBranchSha StatusStates RemoteStates States s = Returned r ->
  Queried s (Status.After r) /\ (Status.bResult r = false -> Status.OutStates r = []).
Proof.
  unfold Status.CombineStates.
  destruct (Status.CombineLocalStates _ _ _) as [[States1 Log1]|]; [|discriminate].
  destruct (Status.CombineSavedStates _ _ _ _ _ _) as [[States2 Log2]|]; [|discriminate].
  destruct (Status.CombineRemoteStates _ _ _ _ _ _ _) as [[[States3 Log3] s3]|] eqn:Hremote;
    [|discriminate].
  apply CombineRemoteStates_queried in Hremote.
  destruct bUseLocking.
  - pose proof (Run_queried "lfs locks -r" [Sync.Remote C] [] s3) as Hq.
    destruct (Sync.Run "lfs locks -r" [Sync.Remote C] [] s3) as [[[b o] e] s4].
    simpl in Hq.
    assert (Hq4 : Queried s s4).
    { eapply Queried_trans; [exact Hremote|]. apply Hq. repeat constructor. }
    destruct b.
    + destruct (Status.CombineLockStates _ _ _) as [[States4 Log4]|]; [|discriminate].
      intros [= <-]. simpl. split; [exact Hq4 | discriminate].
    + intros [= <-]. simpl. split; [exact Hq4 | reflexivity].
  - intros [= <-]. simpl. split; [exact Hremote | discriminate].
Qed.

Lemma FiledByName_filenames (Map : list (FString * FGitSourceControlState)) :
  FiledByName Map -> GetFilename <$> map snd Map = Map.*1.
Proof.
  induction 1 as [|[k v] m Hx Hm IH]; [reflexivity|].
  cbn in *. rewrite <- Hx. f_equal. exact IH.
Qed.

Lemma CombineStates_filed Errors LocalBranchSha RemoteBranchSha
    StatusStates RemoteStates States (s : Sync.State B) :
  (forall Results w, FiledByName (ParseLocksResults Results w)) ->
  FiledByName StatusStates -> FiledByName RemoteStates -> FiledByName States ->
  exists r,
    Status.CombineStates C bUseLocking bIsValid FileExistsInTree ParseLocksResults
      Errors LocalBranchSha RemoteBranchSha StatusStates RemoteStates States s = Returned r
    /\ (NoDup States.*1 -> NoDup (GetFilename <$> Status.OutStates r)).
Proof.
  intros HLocks HS HR Hk. unfold Status.CombineStates.
  destruct (CombineLocalStates_filed StatusStates States [] HS Hk)
    as (States1 & Log1 & -> & Hk1 & Hnd1).
  destruct (CombineSavedStates_filed LocalBranchSha (Sync.StatusFile s) (Sync.TheWorld s)
              States1 Log1 Hk1) as (States2 & Log2 & -> & Hk2 & Hkeys2).
  destruct (CombineRemoteStates_filed RemoteBranchSha RemoteStates States2 Log2 s HR Hk2)
    as (States3 & Log3 & s3 & -> & Hk3 & Hnd3 & _).
  assert (Hnd : NoDup States.*1 -> NoDup States3.*1).
  { intros H. apply Hnd3. rewrite Hkeys2. now apply Hnd1. }
  destruct bUseLocking.
  - destruct (Sync.Run "lfs locks -r" [Sync.Remote C] [] s3) as [[[b o] e] s4].
    destruct b.
    + destruct (CombineLockStates_filed (ParseLocksResults o (Sync.TheWorld s4)) States3 Log3
                  (HLocks _ _) Hk3) as (States4 & Log4 & -> & Hk4 & Hnd4).
      eexists. split; [reflexivity|]. simpl. intros H.
      rewrite (FiledByName_filenames _ Hk4). apply Hnd4, Hnd, H.
    + eexists. split; [reflexivity|]. simpl. intros _. constructor.
  - eexists. split; [reflexivity|]. simpl. intros H.
    rewrite (FiledByName_filenames _ Hk3). apply Hnd, H.
Qed.

Lemma RunUpdateStatus_front (InFiles : list FString) (s : Sync.State B) :
  (exists Errors s',
     Status.RunUpdateStatus C bUseLocking StartsWith bIsDirectory bIsValid FileExistsInTree
       ParseLocksResults InFiles s = Status.Failed Errors [] s'
     /\ Queried s s')
  \/ (exists Errors LocalBranchSha RemoteBranchSha FilesParam Results RemoteStates States s',
        Status.RunUpdateStatus C bUseLocking StartsWith bIsDirectory bIsValid FileExistsInTree
          ParseLocksResults InFiles s
        = Status.CombineStates C bUseLocking bIsValid FileExistsInTree ParseLocksResults
            Errors LocalBranchSha RemoteBranchSha
            (ParseStatusResults B FilesParam Results (Sync.TheWorld s'))
            RemoteStates States s'
        /\ Queried s s'
        /\ (RemoteStates = []
            \/ exists R w, RemoteStates = ParseNameStatusResults B R w)
        /\ (States = [] \/ exists R w, States = ParseNameStatusResults B R w)).
Proof.
  unfold Status.RunUpdateStatus.
  destruct (Status.SelectFiles _ _ _ _ _ _ _) as [[FilesParam FilesToDiff] bIsDirUpdate].
  destruct (Nat.eqb (length FilesParam) 0).
  { left. eexists _, _. split; [reflexivity | apply Queried_refl]. }
  pose proof (GetMergeBase_queried (Sync.Branch C) (Sync.GetRemoteBranch C) s) as Hq1.
  destruct (Sync.GetMergeBase _ _ s) as [MergeBase s1]. simpl in Hq1.
  destruct (IsEmpty MergeBase).
  { left. eexists _, _. split; [reflexivity | exact Hq1]. }
  pose proof (GetCommitShaForBranch_queried (Sync.GetRemoteBranch C) s1) as Hq2.
  destruct (Sync.GetCommitShaForBranch _ s1) as [RemoteBranchSha s2]. simpl in Hq2.
  assert (Hq12 : Queried s s2) by (eapply Queried_trans; eassumption).
  clear Hq1 Hq2.
  set (Remote := if negb (String.eqb RemoteBranchSha MergeBase) then _ else _).
  assert (HRemote : Queried s Remote.2
                    /\ (Remote.1.1.2 = []
                        \/ exists R w, Remote.1.1.2 = ParseNameStatusResults B R w)).
  { subst Remote. destruct (negb _); simpl; [|split; [exact Hq12 | now left]].
    pose proof (Run_queried "diff --name-status" [MergeBase; Sync.GetRemoteBranch C] [] s2)
      as Hq.
    destruct (Sync.Run "diff --name-status" [MergeBase; Sync.GetRemoteBranch C] [] s2)
      as [[[b o] e] s3].
    simpl in Hq.
    assert (Hq3 : Queried s s3).
    { eapply Queried_trans; [exact Hq12|]. apply Hq. repeat constructor. }
    destruct b; simpl; (split; [exact Hq3|]); [right; eexists _, _; reflexivity | now left]. }
  destruct Remote as [[[bRemoteStatusResult RemoteStates] FilesParam'] s3].
  simpl in HRemote. destruct HRemote as (Hq3 & HRS).
  destruct bRemoteStatusResult; cbn [negb].
  2:{ left. eexists _, _. split; [reflexivity | exact Hq3]. }
  pose proof (GetCommitShaForBranch_queried (Sync.Branch C) s3) as Hq4.
  destruct (Sync.GetCommitShaForBranch _ s3) as [LocalBranchSha s4]. simpl in Hq4.
  assert (Hq34 : Queried s s4) by (eapply Queried_trans; eassumption).
  clear Hq3 Hq4.
  set (Local := if (negb (Nat.eqb (length FilesToDiff) 0) || bIsDirUpdate) && _
                then _ else _).
  assert (HLocal : Queried s Local.2
                   /\ (Local.1.2 = []
                       \/ exists R w, Local.1.2 = ParseNameStatusResults B R w)).
  { subst Local. destruct (_ && _); simpl; [|split; [exact Hq34 | now left]].
    pose proof (Run_queried "diff --name-status" [MergeBase; Sync.Branch C]
                  (if bIsDirUpdate then [] else FilesToDiff) s4) as Hq.
    destruct (Sync.Run "diff --name-status" [MergeBase; Sync.Branch C]
                (if bIsDirUpdate then [] else FilesToDiff) s4) as [[[b o] e] s5].
    simpl in Hq.
    assert (Hq5 : Queried s s5).
    { eapply Queried_trans; [exact Hq34|]. apply Hq. repeat constructor. }
    destruct b; simpl; (split; [exact Hq5|]); [right; eexists _, _; reflexivity | now left]. }
  destruct Local as [[bLocalResult States] s5].
  simpl in HLocal. destruct HLocal as (Hq5 & HSt).
  destruct bLocalResult; cbn [negb].
  2:{ left. eexists _, _. split; [reflexivity | exact Hq5]. }
  match goal with
  | |- context [Sync.Run "status --porcelain" ?p ?f ?s0] =>
      pose proof (Run_queried "status --porcelain" p f s0) as Hq;
      destruct (Sync.Run "status --porcelain" p f s0) as [[[b o] e] s6]
  end.
  simpl in Hq.
  assert (Hq6 : Queried s s6).
  { eapply Queried_trans; [exact Hq5|]. apply Hq. repeat constructor. }
  destruct b; cbn [negb].
  - right. exists e, LocalBranchSha, RemoteBranchSha, FilesParam', o, RemoteStates, States, s6.
    split; [reflexivity|].
    split; [exact Hq6|]. split; assumption.
  - left. eexists _, _. split; [reflexivity | exact Hq6].
Qed.

(** When the parsers file every state under its own file name,
    [RunUpdateStatus] never fails one of the checks at the head of the
    folds, which compare the file names of the two states folded: it
    returns.  When, besides, the parser of the diff gives no file twice, it
    reports no file twice. *)
Lemma RunUpdateStatus_filed (InFiles : list FString) (s : Sync.State B) :
  (forall Results w, FiledByName (ParseNameStatusResults B Results w)) ->
  (forall Files Results w, FiledByName (ParseStatusResults B Files Results w)) ->
  (forall Results w, FiledByName (ParseLocksResults Results w)) ->
  exists r,
    Status.RunUpdateStatus C bUseLocking StartsWith bIsDirectory bIsValid FileExistsInTree
      ParseLocksResults InFiles s = Returned r
    /\ ((forall Results w, NoDup (ParseNameStatusResults B Results w).*1) ->
        NoDup (GetFilename <$> Status.OutStates r)).
Proof.
  intros HName HStatus HLocks.
  destruct (RunUpdateStatus_front InFiles s)
    as [(Errors & s' & -> & _)
       | (Errors & LSha & RSha & FilesParam & Results & RemoteStates & States & s'
          & -> & _ & HRS & HSt)].
  - eexists. split; [reflexivity|]. intros _. constructor.
  - assert (HR : FiledByName RemoteStates)
      by (destruct HRS as [-> | (R & w & ->)]; [constructor | apply HName]).
    assert (HS : FiledByName States)
      by (destruct HSt as [-> | (R & w & ->)]; [constructor | apply HName]).
    destruct (CombineStates_filed Errors LSha RSha
                (ParseStatusResults B FilesParam Results (Sync.TheWorld s'))
                RemoteStates States s' HLocks (HStatus _ _ _) HR HS) as (r & Hrun & Hnd).
    exists r. split; [exact Hrun|]. intros HNoDup. apply Hnd.
    destruct HSt as [-> | (R & w & ->)]; [constructor | apply HNoDup].
Qed.


End StatusProperties.

Section LockParserProperties.
Context (PathsCombine : FString -> FString -> FString)
        (TrimEnd TrimStartAndEnd : FString -> FString) (Atoi : FString -> Z).

Lemma ParseLocksLine_filed (InLine InRepositoryRoot LocalUserName : FString)
    (OutStates : list (FString * FGitSourceControlState)) :
  FiledByName OutStates ->
  FiledByName (ParseLocksLine PathsCombine TrimEnd TrimStartAndEnd Atoi
                 InLine InRepositoryRoot LocalUserName OutStates).
Proof.
  intros Hk. unfold ParseLocksLine.
  destruct (Len InLine <? 2)%Z; [exact Hk|].
  destruct (FindChar "009" InLine) as [TabIndex|]; [|exact Hk].
  destruct (FindLastChar ":" _) as [IdIndex|]; [|exact Hk].
  destruct (FindChar "009" _) as [SecondTabIndex|]; [|exact Hk].
  now apply TMapAdd_filed.
Qed.

Lemma ParseLocksResults_filed (InRepositoryRoot LockingUserName UserName : FString)
    (InResults : list FString) :
  FiledByName (ParseLocksResults PathsCombine TrimEnd TrimStartAndEnd Atoi
                 InRepositoryRoot LockingUserName UserName InResults).
Proof.
  unfold ParseLocksResults.
  assert (Hnil : FiledByName []) by constructor.
  revert Hnil. generalize (@nil (FString * FGitSourceControlState)).
  induction InResults as [|Line l IH]; intros OutStates Hk; simpl; [exact Hk|].
  apply IH. now apply ParseLocksLine_filed.
Qed.

End LockParserProperties.

Section ParsingBackendProperties.
Context (B : GitBackend)
        (PathsCombine : FString -> FString -> FString) (Now : nat -> FDateTime)
        (C : Sync.Settings)
        (bUseLocking : bool)
        (StartsWith : FString -> FString -> bool)
        (bIsDirectory bIsValid FileExistsInTree : FString -> World B -> bool)
        (TrimEnd TrimStartAndEnd : FString -> FString) (Atoi : FString -> Z)
        (LockingUserName UserName : FString).

Local Abbreviation Parsing :=
  (WithParsers B PathsCombine Now (Sync.PathToRepositoryRoot C)
     bIsDirectory FileExistsInTree).

Lemma WithParsers_name_status (Results : list FString) (w : World B) :
  exists acc,
    ParseNameStatusLines PathsCombine Now (Sync.PathToRepositoryRoot C) Results
      ([], 0%nat) = Returned acc
    /\ ParseNameStatusResults Parsing Results w = acc.1
    /\ KeyedByFilename acc.1.
Proof.
  cbn [ParseNameStatusResults WithParsers]. unfold ParseNameStatusLines.
  destruct (ParseLines_grows (ParseNameStatusLine PathsCombine Now)
              (Sync.PathToRepositoryRoot C) Results
              (fun Line => ParseNameStatusLine_grows PathsCombine Now Line
                             (Sync.PathToRepositoryRoot C))
              ([], 0%nat) KeyedByFilename_nil)
    as (acc & -> & Hk & _).
  exists acc. split; [reflexivity|]. split; [reflexivity | exact Hk].
Qed.

Lemma WithParsers_status (Files Results : list FString) (w : World B) :
  exists acc,
    ParseStatusLines PathsCombine Now (fun File => bIsDirectory File w)
      (fun File => FileExistsInTree File w) (Sync.PathToRepositoryRoot C)
      Files Results ([], 0%nat) = Returned acc
    /\ ParseStatusResults Parsing Files Results w = acc.1
    /\ KeyedByFilename acc.1.
Proof.
  cbn [ParseStatusResults WithParsers]. unfold ParseStatusLines.
  destruct (ParseLines_grows (ParseStatusLine PathsCombine Now)
              (Sync.PathToRepositoryRoot C) Results
              (fun Line => ParseStatusLine_grows PathsCombine Now Line
                             (Sync.PathToRepositoryRoot C))
              ([], 0%nat) KeyedByFilename_nil)
    as (acc & -> & Hk & _).
  eexists. split; [reflexivity|]. split; [reflexivity|].
  exact (proj1 (proj1 (DefaultStates_grows Now (fun File => bIsDirectory File w)
                         (fun File => FileExistsInTree File w) Files acc Hk))).
Qed.

(** X29. With [ParseStatusResults], [ParseNameStatusResults] and
    [ParseLocksResults] as GitSourceControlUtils.cpp has them, the two
    parsers of git's status never read a line out of range, and
    [RunUpdateStatus] never fails one of the checks at the head of
    [CombineWithLocalState], [CombineWithSavedState],
    [CombineWithRemoteState] and [CombineWithLockedState], which compare the
    file names of the two states folded: whatever git prints and whatever
    the ledger holds, it returns, and it reports no file twice. *)
Theorem RunUpdateStatus_folds_same_file (InFiles : list FString)
    (s : Sync.State Parsing) :
  (forall Files Results w,
     exists acc,
       ParseStatusLines PathsCombine Now (fun File => bIsDirectory File w)
         (fun File => FileExistsInTree File w) (Sync.PathToRepositoryRoot C)
         Files Results ([], 0%nat) = Returned acc
       /\ ParseStatusResults Parsing Files Results w = acc.1)
  /\ (forall Results w,
        exists acc,
          ParseNameStatusLines PathsCombine Now (Sync.PathToRepositoryRoot C) Results
            ([], 0%nat) = Returned acc
          /\ ParseNameStatusResults Parsing Results w = acc.1)
  /\ exists r,
       Status.RunUpdateStatus (B := Parsing) C bUseLocking StartsWith bIsDirectory bIsValid
         FileExistsInTree
         (fun Results _ =>
            ParseLocksResults PathsCombine TrimEnd TrimStartAndEnd Atoi
              (Sync.PathToRepositoryRoot C) LockingUserName UserName Results)
         InFiles s = Returned r
       /\ NoDup (GetFilename <$> Status.OutStates r).
Proof.
  split; [|split].
  - intros Files Results w.
    destruct (WithParsers_status Files Results w) as (acc & Hrun & Hres & _).
    exists acc. split; assumption.
  - intros Results w.
    destruct (WithParsers_name_status Results w) as (acc & Hrun & Hres & _).
    exists acc. split; assumption.
  - assert (HName : forall Results w,
              KeyedByFilename (ParseNameStatusResults Parsing Results w)).
    { intros Results w.
      destruct (WithParsers_name_status Results w) as (acc & _ & -> & Hk). exact Hk. }
    assert (HStatus : forall Files Results w,
              KeyedByFilename (ParseStatusResults Parsing Files Results w)).
    { intros Files Results w.
      destruct (WithParsers_status Files Results w) as (acc & _ & -> & Hk). exact Hk. }
    destruct (RunUpdateStatus_filed (B := Parsing) C bUseLocking StartsWith bIsDirectory
                bIsValid FileExistsInTree
                (fun Results _ =>
                   ParseLocksResults PathsCombine TrimEnd TrimStartAndEnd Atoi
                     (Sync.PathToRepositoryRoot C) LockingUserName UserName Results)
                InFiles s)
      as (r & Hrun & Hnd).
    + intros Results w. exact (proj1 (HName Results w)).
    + intros Files Results w. exact (proj1 (HStatus Files Results w)).
    + intros Results w. apply ParseLocksResults_filed.
    + exists r. split; [exact Hrun|]. apply Hnd.
      intros Results w. exact (proj2 (HName Results w)).
Qed.

End ParsingBackendProperties.

(** The status of a.uasset and b.uasset in the example repository: the
    status parser gives b.uasset as Modified and a default state for
    a.uasset, which the local fold combines with the Modified of the local
    commits; the remote fold finds a.uasset modified on the remote as well,
    and the lock fold finds b.uasset locked by the local user. *)
Lemma RunUpdateStatus_folds_same_file_witness :
  exists r,
    Status.RunUpdateStatus (B := ExampleParsingBackend) ExampleSettingsWritable true
      (fun File Root => String.prefix Root File)
      (fun _ _ => false) (fun _ _ => true) (fun _ _ => true)
      (fun Results _ => ExampleParseLocksResults Results)
      ["/repo/Content/a.uasset"; "/repo/Content/b.uasset"] ExampleStatusSync
    = Returned r
    /\ NoDup (GetFilename <$> Status.OutStates r)
    /\ map (fun State => (GetFilename State, WorkingCopyState State, RemoteState State,
                          UserLocked State))
           (Status.OutStates r)
       = [("/repo/Content/a.uasset", Conflicted, Modified, "");
          ("/repo/Content/b.uasset", Modified, Unknown, "kim")].
Proof.
  destruct (RunUpdateStatus_folds_same_file ExampleRepository ExamplePathsCombine
              (fun n => Z.of_nat n) ExampleSettingsWritable true
              (fun File Root => String.prefix Root File)
              (fun _ _ => false) (fun _ _ => true) (fun _ _ => true)
              (fun s => s) (fun s => s) (fun _ => 7) "" "kim"
              ["/repo/Content/a.uasset"; "/repo/Content/b.uasset"] ExampleStatusSync)
    as (_ & _ & r & Hrun & Hnd).
  exists r. split; [exact Hrun|]. split; [exact Hnd|].
  vm_compute in Hrun. injection Hrun as <-. reflexivity.
Defined.

